(** * VinUni retrieval orchestrator: Tavily search and dual search

    A shallow embedding of
      - [tavily-file-search.ts]: [extractKeywords], [isVinUniDomain],
        [filterVinUniResults], [performDualDomainSearch],
        [validateVinUniQuery], [generateAnswerWithContext],
        [formatCitations], [fetchTavilyFileSearch] and the [execute]
        function of [tavilyFileSearchTool];
      - [lib/ai/tools/dual-search.ts]: the [execute] function of
        [dualSearchTool], once as it runs with a data stream that accepts
        every record and once statement by statement for any stream;
      - the policy-site search of the second module of
        [lib/ai/prompts.ts];
      - the citation preview of the search result component.

    Strings are [string], one [ascii] per code unit, so they hold the code
    units below 256; scores are exact rationals, [undefined]/[null] fields
    are [option]s, and asynchronous functions are computations in a small
    monad that records every observable effect (progress records, console
    output, calls to the language model, to Tavily and to the file
    database) and either returns or throws.  The data stream is an
    argument whose [writeData] may throw; where a statement is about the
    results only, it is given as a [bool] that says whether a stream that
    accepts every record was passed. *)

From Stdlib Require Import String Ascii List Bool Arith Lia.
From Stdlib Require Import QArith Permutation Sorted.
From Stdlib Require Import DecimalString.
Import ListNotations.

Local Open Scope string_scope.
Local Open Scope nat_scope.

(* ================================================================== *)
(** ** JavaScript strings *)
(* ================================================================== *)

Definition nl : string := String "010"%char EmptyString.
Definition dquote : string := String "034"%char EmptyString.

(** [String(n)] for a non-negative integer. *)
Definition string_of_nat (n : nat) : string :=
  NilEmpty.string_of_uint (Nat.to_uint n).

(** The code units below 256 that [toLowerCase] changes: [A]-[Z], and the
    Latin-1 capitals U+00C0-U+00DE without the multiplication sign U+00D7.
    Each is 32 below its lower-case form. *)
Definition isUpper (c : ascii) : bool :=
  let n := nat_of_ascii c in
  ((65 <=? n) && (n <=? 90))
  || ((192 <=? n) && (n <=? 222) && negb (n =? 215)).

Definition lower_ascii (c : ascii) : ascii :=
  if isUpper c then ascii_of_nat (nat_of_ascii c + 32) else c.

(** [s.toLowerCase()], on code units below 256. *)
Fixpoint toLowerCase (s : string) : string :=
  match s with
  | EmptyString => EmptyString
  | String c s' => String (lower_ascii c) (toLowerCase s')
  end.

(** [s.endsWith(suffix)]: [s] itself or one of its tails is [suffix]. *)
Fixpoint endsWith (s suffix : string) : bool :=
  if String.eqb s suffix then true
  else match s with
       | EmptyString => false
       | String _ s' => endsWith s' suffix
       end.

(** The code units that [trim] removes (ECMAScript WhiteSpace and
    LineTerminator), among the code units below 256 that a [string] holds:
    TAB, LF, VT, FF, CR, SPACE and NO-BREAK SPACE (U+00A0). *)
Definition isWhiteSpace (c : ascii) : bool :=
  let n := nat_of_ascii c in
  ((9 <=? n) && (n <=? 13)) || (n =? 32) || (n =? 160).

Fixpoint trimStart (s : string) : string :=
  match s with
  | EmptyString => EmptyString
  | String c s' => if isWhiteSpace c then trimStart s' else s
  end.

Fixpoint trimEnd (s : string) : string :=
  match s with
  | EmptyString => EmptyString
  | String c s' =>
      match trimEnd s' with
      | EmptyString => if isWhiteSpace c then EmptyString
                       else String c EmptyString
      | t => String c t
      end
  end.

(** [s.trim()]. *)
Definition trim (s : string) : string := trimEnd (trimStart s).

(** [s.substring(0, n)]. *)
Definition substring0 (n : nat) (s : string) : string := String.substring 0 n s.

(** JavaScript truthiness of a possibly missing string: [undefined] and
    the empty string are falsy. *)
Definition truthy_string (s : option string) : bool :=
  match s with
  | Some (String _ _) => true
  | _ => false
  end.

(** A missing value inside a template literal prints as [undefined].
    ([None] stands for a field that is absent; a field that is present and
    [null] would print as [null], and is not told apart here.) *)
Definition template (s : option string) : string :=
  match s with Some t => t | None => "undefined" end.

(** [parts.join(sep)]. *)
Fixpoint join (sep : string) (parts : list string) : string :=
  match parts with
  | [] => ""
  | [p] => p
  | p :: rest => p ++ sep ++ join sep rest
  end.

(* ================================================================== *)
(** ** The URL constructor

    [new URL(url)] belongs to the platform.  [isVinUniDomain] is embedded
    over an arbitrary parser ([None] when the constructor throws, the
    hostname otherwise); [URL_hostname] is a model of the WHATWG parser for
    absolute URLs [scheme://userinfo@host:port/path?query#fragment].  The
    host of a special scheme is percent-decoded, checked for forbidden
    code points and lower-cased; any other host is kept as an opaque
    host.  What the parser does beyond that is not modelled: IDNA (which
    applies to a domain with a code unit above 127 or with a label that
    starts with [xn--]), IPv4 addresses (a domain that ends in a number)
    and IPv6 addresses (a host in brackets). *)
(* ================================================================== *)

Definition isAlpha (c : ascii) : bool :=
  let n := nat_of_ascii c in
  ((65 <=? n) && (n <=? 90)) || ((97 <=? n) && (n <=? 122)).

Definition isDigit (c : ascii) : bool :=
  let n := nat_of_ascii c in (48 <=? n) && (n <=? 57).

Definition isSchemeChar (c : ascii) : bool :=
  isAlpha c || isDigit c || Ascii.eqb c "+" || Ascii.eqb c "-" || Ascii.eqb c ".".

(** Leading and trailing C0 controls and spaces are stripped. *)
Definition isC0OrSpace (c : ascii) : bool := nat_of_ascii c <=? 32.

Fixpoint stripStart (s : string) : string :=
  match s with
  | EmptyString => EmptyString
  | String c s' => if isC0OrSpace c then stripStart s' else s
  end.

Fixpoint stripEnd (s : string) : string :=
  match s with
  | EmptyString => EmptyString
  | String c s' =>
      match stripEnd s' with
      | EmptyString => if isC0OrSpace c then EmptyString
                       else String c EmptyString
      | t => String c t
      end
  end.

(** ASCII tab and newline are removed everywhere. *)
Fixpoint removeTabNewline (s : string) : string :=
  match s with
  | EmptyString => EmptyString
  | String c s' =>
      let n := nat_of_ascii c in
      if (n =? 9) || (n =? 10) || (n =? 13) then removeTabNewline s'
      else String c (removeTabNewline s')
  end.

(** The scheme: an ASCII letter, then letters, digits, [+], [-], [.], up to
    a colon.  Without a colon there is no scheme, and without a base URL
    the parser fails. *)
Fixpoint splitScheme (s : string) : option (string * string) :=
  match s with
  | EmptyString => None
  | String c s' =>
      if Ascii.eqb c ":" then Some (EmptyString, s')
      else if isSchemeChar c then
             match splitScheme s' with
             | Some (sch, rest) => Some (String c sch, rest)
             | None => None
             end
           else None
  end.

Definition isSpecialScheme (scheme : string) : bool :=
  String.eqb scheme "http" || String.eqb scheme "https" ||
  String.eqb scheme "ftp" || String.eqb scheme "ws" || String.eqb scheme "wss".

Definition isSlash (c : ascii) : bool := Ascii.eqb c "/" || Ascii.eqb c "\".

Fixpoint skipSlashes (s : string) : string :=
  match s with
  | EmptyString => EmptyString
  | String c s' => if isSlash c then skipSlashes s' else s
  end.

Fixpoint takeUntil (stop : ascii -> bool) (s : string) : string :=
  match s with
  | EmptyString => EmptyString
  | String c s' => if stop c then EmptyString else String c (takeUntil stop s')
  end.

Fixpoint dropUntil (stop : ascii -> bool) (s : string) : string :=
  match s with
  | EmptyString => EmptyString
  | String c s' => if stop c then s else dropUntil stop s'
  end.

(** What follows the last [@] of the authority, when there is one. *)
Fixpoint afterLastAt (s : string) : option string :=
  match s with
  | EmptyString => None
  | String c s' =>
      match afterLastAt s' with
      | Some r => Some r
      | None => if Ascii.eqb c "@" then Some s' else None
      end
  end.

Fixpoint allChars (p : ascii -> bool) (s : string) : bool :=
  match s with
  | EmptyString => true
  | String c s' => p c && allChars p s'
  end.

Definition hexValue (c : ascii) : option nat :=
  let n := nat_of_ascii c in
  if (48 <=? n) && (n <=? 57) then Some (n - 48)
  else if (65 <=? n) && (n <=? 70) then Some (n - 55)
  else if (97 <=? n) && (n <=? 102) then Some (n - 87)
  else None.

(** Percent-decoding: [%] followed by two hexadecimal digits is the code
    unit they write; any other [%] stays. *)
Fixpoint percentDecode (s : string) : string :=
  match s with
  | EmptyString => EmptyString
  | String c s' =>
      match s' with
      | String h (String l rest) =>
          match Ascii.eqb c "%", hexValue h, hexValue l with
          | true, Some a, Some b =>
              String (ascii_of_nat (16 * a + b)) (percentDecode rest)
          | _, _, _ => String c (percentDecode s')
          end
      | _ => String c (percentDecode s')
      end
  end.

(** The number a string of decimal digits writes. *)
Fixpoint portNumber (acc : Z) (digits : string) : Z :=
  match digits with
  | EmptyString => acc
  | String c rest =>
      portNumber (10 * acc + Z.of_nat (nat_of_ascii c - 48))%Z rest
  end.

(** A port is made of decimal digits and is at most 65535. *)
Definition validPort (port : string) : bool :=
  allChars isDigit port && (portNumber 0 port <=? 65535)%Z.

(** Forbidden host code points. *)
Definition isForbiddenHostCodePoint (c : ascii) : bool :=
  let n := nat_of_ascii c in
  (n =? 0) || (n =? 9) || (n =? 10) || (n =? 13) || (n =? 32) ||
  existsb (Ascii.eqb c)
    ["#"; "/"; ":"; "<"; ">"; "?"; "@"; "["; "\"; "]"; "^"; "|"]%char.

(** Forbidden domain code points: those, the C0 controls, [%] and DEL. *)
Definition isForbiddenDomainCodePoint (c : ascii) : bool :=
  let n := nat_of_ascii c in
  isForbiddenHostCodePoint c || (n <=? 31) || Ascii.eqb c "%" || (n =? 127).

(** The host of a special scheme, parsed as a domain. *)
Definition parseDomain (written : string) : option string :=
  let domain := percentDecode written in
  if allChars (fun c => negb (isForbiddenDomainCodePoint c)) domain
  then Some (toLowerCase domain)
  else None.

Definition hexDigit (d : nat) : ascii :=
  ascii_of_nat (if d <? 10 then 48 + d else 55 + d).

Definition percentEncodeByte (n : nat) : string :=
  String "%" (String (hexDigit (n / 16)) (String (hexDigit (n mod 16)) "")).

(** UTF-8 percent-encoding with the C0 control percent-encode set: C0
    controls and everything above [~] are written as the bytes of their
    UTF-8 form. *)
Fixpoint percentEncodeC0 (s : string) : string :=
  match s with
  | EmptyString => EmptyString
  | String c s' =>
      let n := nat_of_ascii c in
      (if (n <=? 31) || (n =? 127) then percentEncodeByte n
       else if 128 <=? n
            then percentEncodeByte (192 + n / 64)
                 ++ percentEncodeByte (128 + n mod 64)
            else String c "")
      ++ percentEncodeC0 s'
  end.

(** The host of any other scheme, kept as an opaque host. *)
Definition parseOpaqueHost (written : string) : option string :=
  if allChars (fun c => negb (isForbiddenHostCodePoint c)) written
  then Some (percentEncodeC0 written)
  else None.

(** [userinfo@host:port], up to the end of the authority. *)
Definition parseAuthority (special : bool) (rest : string) : option string :=
  let authority :=
    takeUntil (fun c => Ascii.eqb c "/" || Ascii.eqb c "?" || Ascii.eqb c "#"
                        || (special && Ascii.eqb c "\")) rest in
  let hostport :=
    match afterLastAt authority with Some r => r | None => authority end in
  let atSignSeen :=
    match afterLastAt authority with Some _ => true | None => false end in
  let written := takeUntil (fun c => Ascii.eqb c ":") hostport in
  let afterHost := dropUntil (fun c => Ascii.eqb c ":") hostport in
  let port :=
    match afterHost with
    | String _ p => p
    | EmptyString => EmptyString
    end in
  let colonSeen := negb (String.length afterHost =? 0) in
  if atSignSeen && (String.length hostport =? 0) then None
  else if (special || colonSeen) && (String.length written =? 0) then None
  else if negb (validPort port) then None
  else if special then parseDomain written
  else parseOpaqueHost written.

(** A Windows drive letter: an ASCII letter, then [:] or [|]. *)
Definition isWindowsDriveLetter (s : string) : bool :=
  match s with
  | String c (String d EmptyString) =>
      isAlpha c && (Ascii.eqb d ":" || Ascii.eqb d "|")
  | _ => false
  end.

(** What follows [file:]: a host only after two slashes, without
    credentials or port. *)
Definition parseFileHost (rest : string) : option string :=
  match rest with
  | String c1 (String c2 rest') =>
      if isSlash c1 && isSlash c2 then
        let buffer :=
          takeUntil (fun c => isSlash c || Ascii.eqb c "?" || Ascii.eqb c "#")
            rest' in
        if isWindowsDriveLetter buffer then Some EmptyString
        else if String.length buffer =? 0 then Some EmptyString
        else match parseDomain buffer with
             | Some host =>
                 if String.eqb host "localhost" then Some EmptyString
                 else Some host
             | None => None
             end
      else Some EmptyString
  | _ => Some EmptyString
  end.

(** [new URL(url).hostname], [None] when the constructor throws. *)
Definition URL_hostname (url : string) : option string :=
  let input := removeTabNewline (stripEnd (stripStart url)) in
  match input with
  | EmptyString => None
  | String c _ =>
      if negb (isAlpha c) then None
      else
        match splitScheme input with
        | None => None
        | Some (sch, rest) =>
            let scheme := toLowerCase sch in
            if String.eqb scheme "file" then parseFileHost rest
            else if isSpecialScheme scheme
            then parseAuthority true (skipSlashes rest)
            else
              match rest with
              | String "/" (String "/" rest') => parseAuthority false rest'
              | _ => Some EmptyString
              end
        end
  end.

(* ================================================================== *)
(** ** Domain filter ([isVinUniDomain], [filterVinUniResults]) *)
(* ================================================================== *)

Section DomainFilter.

Variable parseURL : string -> option string.

(** [try { new URL(url) ... } catch { return false }] *)
Definition isVinUniDomain_with (url : string) : bool :=
  match parseURL url with
  | Some urlObj_hostname =>
      let hostname := toLowerCase urlObj_hostname in
      endsWith hostname ".vinuni.edu.vn" || String.eqb hostname "vinuni.edu.vn"
  | None => false
  end.

End DomainFilter.

Definition isVinUniDomain : string -> bool := isVinUniDomain_with URL_hostname.

(* ================================================================== *)
(** ** Search results and citations *)
(* ================================================================== *)

(** One entry of [response.results] as Tavily returns it.  The source
    types it as [any]: [url], [rawContent] and [score] may be missing. *)
Module Result.
Record t : Type := mk {
  title : string;
  url : option string;
  content : string;
  rawContent : option string;
  score : option Q;
  publishedDate : option string
}.
End Result.

(** The object literal built by [formatCitations]. *)
Module Citation.
Record t : Type := mk {
  title : string;
  url : option string;
  content : option string;
  score : option Q
}.
End Citation.

(** [if (!result.url) return false; return isVinUniDomain(result.url);] *)
Definition filterVinUniResults (results : list Result.t) : list Result.t :=
  filter (fun result =>
            match Result.url result with
            | Some (String c u) => isVinUniDomain (String c u)
            | _ => false
            end) results.

(** [result.score || 0]: a missing score counts as 0. *)
Definition scoreOr0 (result : Result.t) : Q :=
  match Result.score result with Some s => s | None => 0%Q end.

(** The comparator [(a, b) => (b.score || 0) - (a.score || 0)]. *)
Definition compareFn (a b : Result.t) : Q := (scoreOr0 b - scoreOr0 a)%Q.

Definition isPositive (q : Q) : bool := (0 <? Qnum q)%Z.

Section ArraySort.

Context {A : Type}.
Variable comparefn : A -> A -> Q.

(** [x] stood before every element of [l]: it moves right only past the
    elements that must come strictly before it ([comparefn x y > 0]). *)
Fixpoint insertStable (x : A) (l : list A) : list A :=
  match l with
  | [] => [x]
  | y :: l' =>
      if isPositive (comparefn x y) then y :: insertStable x l'
      else x :: y :: l'
  end.

(** [array.sort(comparefn)].  ECMAScript 2019 requires the sort to be
    stable, which fixes its result for a consistent comparator. *)
Fixpoint Array_sort (l : list A) : list A :=
  match l with
  | [] => []
  | x :: l' => insertStable x (Array_sort l')
  end.

End ArraySort.

Definition MAX_RESULTS_PER_DOMAIN : nat := 5.
Definition MAX_GENERAL_RESULTS : nat := 5.

(** [filteredGeneralResults.slice(0, MAX_RESULTS_PER_DOMAIN)] *)
Definition topGeneralResults (filteredGeneralResults : list Result.t)
  : list Result.t :=
  firstn MAX_RESULTS_PER_DOMAIN filteredGeneralResults.

(** [[...(policyResponse.results || []), ...topGeneralResults]] *)
Definition combinedResults (policyResults topGeneral : list Result.t)
  : list Result.t :=
  (policyResults ++ topGeneral)%list.

(** [combinedResults.sort(...).slice(0, 6)] *)
Definition sortedResults (combined : list Result.t) : list Result.t :=
  firstn 6 (Array_sort compareFn combined).

(** [formatCitations] *)
Definition formatCitations (searchResults : list Result.t) : list Citation.t :=
  map (fun result =>
         {| Citation.title := Result.title result;
            Citation.url := Result.url result;
            Citation.content := Result.rawContent result;
            Citation.score := Result.score result |}) searchResults.

(** The preview line of a citation in the search result component:
    [citation.content ? citation.content.substring(0, 150) + '...'
                      : 'No preview available']. *)
Definition contentPreview (citation : Citation.t) : string :=
  match Citation.content citation with
  | Some (String c s) => substring0 150 (String c s) ++ "..."
  | _ => "No preview available"
  end.

(* ================================================================== *)
(** ** Effects: a trace of observable events, and exceptions *)
(* ================================================================== *)

Inductive Exn : Type :=
| Error (message : string)        (* [new Error(message)] *)
| TypeError (message : string)    (* property access on [undefined] *)
| Rejected (reason : string).     (* a collaborator's promise rejects:
                                     network error, timeout, bad status *)

Inductive Completion (A : Type) : Type :=
| Normal (a : A)
| Throw (e : Exn).
Arguments Normal {A} a.
Arguments Throw {A} e.

Inductive SearchDepth : Type := basic | advanced.

Record TavilySearchOptions : Type := {
  searchDepth : SearchDepth;
  includeImages : bool;
  includeAnswer : bool;
  maxResults : nat;
  includeRawContent : string
}.

Record ChatRequest : Type := {
  model : string;
  user_content : string;    (* [messages: [{ role: 'user', content }]] *)
  temperature : Q;
  max_tokens : nat
}.

Inductive Event : Type :=
| Progress (step : string)        (* [dataStream.writeData] called with a
                                     tool-progress record of this step *)
| ConsoleLog (label : string)
| ConsoleError (label : string)
| OpenAICall (request : ChatRequest)   (* one call of
                                     [openai.chat.completions.create]; the
                                     client is built with [maxRetries: 3]
                                     and may send the request again inside
                                     that call *)
| TavilySearch (query : string) (options : TavilySearchOptions)
| FileSearch (query vectorStoreId : string).

(** A computation: how it completes, and the events it caused, oldest
    first.  Events caused before a throw stay in the trace. *)
Definition M (A : Type) : Type := Completion A * list Event.

Definition ret {A} (a : A) : M A := (Normal a, []).

Definition throw {A} (e : Exn) : M A := (Throw e, []).

Definition completion {A} (m : M A) : Completion A := fst m.
Definition trace {A} (m : M A) : list Event := snd m.

(** [m] runs first; [k] runs only when [m] returns. *)
Definition bind {A B} (m : M A) (k : A -> M B) : M B :=
  match completion m with
  | Normal a => (completion (k a), (trace m ++ trace (k a))%list)
  | Throw e => (Throw e, trace m)
  end.

(** [try { m } catch (error) { handler error }] *)
Definition tryCatch {A} (m : M A) (handler : Exn -> M A) : M A :=
  match completion m with
  | Normal a => (Normal a, trace m)
  | Throw e => (completion (handler e), (trace m ++ trace (handler e))%list)
  end.

Definition emit (e : Event) : M unit := (Normal tt, [e]).

Definition liftCompletion {A} (c : Completion A) : M A := (c, []).

Declare Scope js_scope.
Delimit Scope js_scope with js.
Notation "x <- m ;; k" := (bind m (fun x => k))
  (at level 61, m at next level, right associativity) : js_scope.
Notation "m ;; k" := (bind m (fun _ => k))
  (at level 61, right associativity) : js_scope.
Local Open Scope js_scope.

Definition isTavilySearch (e : Event) : bool :=
  match e with TavilySearch _ _ => true | _ => false end.

Definition isFileSearch (e : Event) : bool :=
  match e with FileSearch _ _ => true | _ => false end.


(* ================================================================== *)
(** ** The chat completion and Tavily responses *)
(* ================================================================== *)

Record Message : Type := { content : option string }.
Record Choice : Type := { message : option Message }.
Record ChatResponse : Type := { choices : option (list Choice) }.
Record TavilyResponse : Type := { results : option (list Result.t) }.

(** [response.choices[0]?.message?.content]: indexing a missing [choices]
    throws, every later step is optional chaining. *)
Definition firstContent (response : ChatResponse) : Completion (option string) :=
  match choices response with
  | None => Throw (TypeError "Cannot read properties of undefined (reading '0')")
  | Some [] => Normal None
  | Some (choice :: _) =>
      Normal (match message choice with
              | Some m => content m
              | None => None
              end)
  end.

(** [response.results || []] *)
Definition resultsOrEmpty (response : TavilyResponse) : list Result.t :=
  match results response with Some rs => rs | None => [] end.

(* ================================================================== *)
(** ** tavily-file-search.ts *)
(* ================================================================== *)

Definition OPENAI_MODEL_KEYWORD_EXTRACTION : string := "gpt-4o-mini".

Definition DEFAULT_ERROR_MESSAGE : string :=
  "An unexpected error has occurred. Please refresh the page, delete this chat or try again later!".

Definition DENIED_MESSAGE : string :=
  "I'm sorry, but I can only assist with questions related to VinUni-related topics. Please ask questions about admissions, scholarships, courses, faculty, research, campus life, or other university-related topics.".

Definition VALIDATION_REASON : string :=
  "Your question doesn't appear to be related to VinUni or university topics. Please ask about admissions, courses, policies, campus life, or other university-related matters.".

Definition NO_RESULTS_MESSAGE : string :=
  "I couldn't find any relevant information in the VinUni documents for your query. This could mean:"
  ++ nl ++ nl ++ "1. The information might not be available in our indexed documents"
  ++ nl ++ "2. Try rephrasing your question with different keywords"
  ++ nl ++ "3. Your question might be too specific or too broad"
  ++ nl ++ nl ++ "Please try rephrasing your search query or ask about other VinUni-related topics such as admissions, courses, policies, or campus life.".

Definition NOT_FOUND_MESSAGE : string :=
  "I couldn't find specific information to answer your question in the available VinUni documents. Please try rephrasing your question or ask about other VinUni-related topics.".

Record Validation : Type := { isValid : bool; reason : option string }.

(** The value [performDualDomainSearch] resolves to. *)
Module SearchResponse.
Record t : Type := mk {
  results : list Result.t;
  policyCount : nat;
  mainCount : nat;
  totalCount : nat;
  generalSearchTotal : nat;
  filteredFromGeneral : nat
}.
End SearchResponse.

Record SearchStats : Type := {
  policyResults : nat;
  vinUniDomainResults : nat;
  totalResults : nat;
  stats_generalSearchTotal : nat;
  stats_filteredFromGeneral : nat
}.

(** The value [fetchTavilyFileSearch] resolves to; a key that a return
    statement leaves out is [None]. *)
Module TavilyAnswer.
Record t : Type := mk {
  answer : string;
  citations : list Citation.t;
  denied : option bool;
  searchQuery : option string;
  keywords : option string;
  searchStats : option SearchStats
}.
End TavilyAnswer.

Definition statsOf (searchResponse : SearchResponse.t) : SearchStats :=
  {| policyResults := SearchResponse.policyCount searchResponse;
     vinUniDomainResults := SearchResponse.mainCount searchResponse;
     totalResults := SearchResponse.totalCount searchResponse;
     stats_generalSearchTotal := SearchResponse.generalSearchTotal searchResponse;
     stats_filteredFromGeneral := SearchResponse.filteredFromGeneral searchResponse |}.

Definition searchOptions (n : nat) : TavilySearchOptions :=
  {| searchDepth := advanced;
     includeImages := false;
     includeAnswer := false;
     maxResults := n;
     includeRawContent := "text" |}.

(** The [dataStream] argument ([DataStreamWriter] of the [ai] package, or
    [undefined]).  The code only calls its [writeData], always with a
    [tool-progress] record, which is identified here by its [step]; the
    call returns or throws. *)
Inductive DataStream : Type :=
| noDataStream
| withDataStream (writeData_result : string -> Completion unit).

(** A stream that accepts every record. *)
Definition recordingStream : DataStream :=
  withDataStream (fun _ => Normal tt).

(** Where all that matters is whether such a stream was passed, the
    stream is given as a [bool]. *)
Definition streamOf (present : bool) : DataStream :=
  if present then recordingStream else noDataStream.

Coercion streamOf : bool >-> DataStream.

Implicit Types ds : bool.

Section TavilyFileSearch.

(** The two remote services, as the answers they give to each request. *)
Variable openai_create : ChatRequest -> Completion ChatResponse.
Variable tavily_search : string -> TavilySearchOptions -> Completion TavilyResponse.

(** The prompt texts of [lib/ai/prompts.ts]. *)
Variable vinUniTopicPrompt : string.
Variable fileSearchPromptInstruction : string.

(** The [dataStream] the caller passed, if any. *)
Variable dataStream : DataStream.

(** [dataStream?.writeData({ type: 'tool-progress', content: { step, ... } })]:
    nothing happens without a stream; with one, the call is made and
    returns or throws as the stream decides. *)
Definition writeData (step : string) : M unit :=
  match dataStream with
  | noDataStream => ret tt
  | withDataStream writeData_result => (writeData_result step, [Progress step])
  end.

Definition openai_chat_completions_create (request : ChatRequest) : M ChatResponse :=
  (openai_create request, [OpenAICall request]).

Definition tavilyClient_search (query : string) (options : TavilySearchOptions)
  : M TavilyResponse :=
  (tavily_search query options, [TavilySearch query options]).

Definition validationRequest (query : string) : ChatRequest :=
  {| model := OPENAI_MODEL_KEYWORD_EXTRACTION;
     user_content :=
       vinUniTopicPrompt ++ nl ++ nl ++ "USER QUESTION: " ++ query ++ nl ++ nl
       ++ "Respond with only " ++ dquote ++ "VALID" ++ dquote
       ++ " if the question is related to VinUni or university topics as defined in the instructions, or "
       ++ dquote ++ "DENIED" ++ dquote ++ " if it's not related.";
     temperature := 0%Q;
     max_tokens := 10 |}.

Definition validateVinUniQuery (query : string) : M Validation :=
  tryCatch
    (response <- openai_chat_completions_create (validationRequest query) ;;
     content <- liftCompletion (firstContent response) ;;
     let result := option_map trim content in
     match result with
     | Some r =>
         if String.eqb r "DENIED"
         then ret {| isValid := false; reason := Some VALIDATION_REASON |}
         else ret {| isValid := true; reason := None |}
     | None => ret {| isValid := true; reason := None |}
     end)
    (fun error =>
       emit (ConsoleError "Query validation failed:") ;;
       (* Default to allowing the query if validation fails *)
       ret {| isValid := true; reason := None |}).

Definition performDualDomainSearch (keywords : string) : M SearchResponse.t :=
  tryCatch
    (writeData "search-policy" ;;
     let policyQuery := "site:policy.vinuni.edu.vn " ++ keywords in
     emit (ConsoleLog "Policy query:") ;;
     policyResponse <- tavilyClient_search policyQuery
                         (searchOptions MAX_RESULTS_PER_DOMAIN) ;;
     writeData "search-general" ;;
     let generalQuery := keywords in
     emit (ConsoleLog "General query:") ;;
     generalResponse <- tavilyClient_search generalQuery
                          (searchOptions MAX_GENERAL_RESULTS) ;;
     let filteredGeneralResults :=
       filterVinUniResults (resultsOrEmpty generalResponse) in
     writeData "filter-results" ;;
     let top := topGeneralResults filteredGeneralResults in
     let combined := combinedResults (resultsOrEmpty policyResponse) top in
     let sorted := sortedResults combined in
     ret {| SearchResponse.results := sorted;
            SearchResponse.policyCount := length (resultsOrEmpty policyResponse);
            SearchResponse.mainCount := length top;
            SearchResponse.totalCount := length sorted;
            SearchResponse.generalSearchTotal := length (resultsOrEmpty generalResponse);
            SearchResponse.filteredFromGeneral := length filteredGeneralResults |})
    (fun error =>
       emit (ConsoleError "Dual domain search failed:") ;;
       throw error).

(** The [context] string: one block per document, joined by blank lines. *)
Fixpoint documentBlocks (index : nat) (searchResults : list Result.t) : list string :=
  match searchResults with
  | [] => []
  | result :: rest =>
      ("Document " ++ string_of_nat (index + 1) ++ ":" ++ nl
       ++ "Title: " ++ Result.title result ++ nl
       ++ "URL: " ++ template (Result.url result) ++ nl
       ++ "Content: " ++ template (Result.rawContent result) ++ nl
       ++ "---") :: documentBlocks (S index) rest
  end.

Definition generationRequest (query : string) (searchResults : list Result.t)
  : ChatRequest :=
  let context := join (nl ++ nl) (documentBlocks 0 searchResults) in
  {| model := OPENAI_MODEL_KEYWORD_EXTRACTION;
     user_content :=
       "Based on the following documents from VinUni policy website, answer the user's question. "
       ++ fileSearchPromptInstruction ++ nl ++ nl
       ++ "DOCUMENTS:" ++ nl ++ context ++ nl ++ nl
       ++ "USER QUESTION: " ++ query ++ nl ++ nl
       ++ "Please provide a comprehensive answer based solely on the information in the documents above.";
     temperature := (1 # 10)%Q;
     max_tokens := 1000 |}.

Definition generateAnswerWithContext (query : string)
    (searchResults : list Result.t) : M string :=
  tryCatch
    (response <- openai_chat_completions_create
                   (generationRequest query searchResults) ;;
     answer <- liftCompletion (firstContent response) ;;
     match answer with
     | Some (String c s) => ret (String c s)
     | _ => throw (Error "Failed to generate answer")
     end)
    (fun error =>
       emit (ConsoleError "Answer generation failed:") ;;
       throw error).

Definition fetchTavilyFileSearch (query : string) : M TavilyAnswer.t :=
  tryCatch
    ((* Step 0: validate that the query is VinUni-related *)
     writeData "validate-query" ;;
     validation <- validateVinUniQuery query ;;
     if negb (isValid validation) then
       ret {| TavilyAnswer.answer :=
                if truthy_string (reason validation)
                then template (reason validation) else DENIED_MESSAGE;
              TavilyAnswer.citations := [];
              TavilyAnswer.denied := Some true;
              TavilyAnswer.searchQuery := None;
              TavilyAnswer.keywords := None;
              TavilyAnswer.searchStats := None |}
     else
       (* Step 1: keyword extraction is disabled, the query is used *)
       writeData "extract-keywords" ;;
       writeData "keywords-extracted" ;;
       (* Step 2: dual domain search *)
       searchResponse <- performDualDomainSearch query ;;
       if SearchResponse.totalCount searchResponse =? 0 then
         ret {| TavilyAnswer.answer := NO_RESULTS_MESSAGE;
                TavilyAnswer.citations := [];
                TavilyAnswer.denied := None;
                TavilyAnswer.searchQuery := None;
                TavilyAnswer.keywords := None;
                TavilyAnswer.searchStats := Some (statsOf searchResponse) |}
       else
         writeData "search-complete" ;;
         (* Step 3: generate the answer from the search results *)
         writeData "generate-answer" ;;
         answer <- generateAnswerWithContext query
                     (SearchResponse.results searchResponse) ;;
         if String.eqb answer "DENIED" then
           ret {| TavilyAnswer.answer := DENIED_MESSAGE;
                  TavilyAnswer.citations := [];
                  TavilyAnswer.denied := Some true;
                  TavilyAnswer.searchQuery := None;
                  TavilyAnswer.keywords := None;
                  TavilyAnswer.searchStats := None |}
         else if String.eqb answer "NOT_FOUND" then
           ret {| TavilyAnswer.answer := NOT_FOUND_MESSAGE;
                  TavilyAnswer.citations :=
                    formatCitations (SearchResponse.results searchResponse);
                  TavilyAnswer.denied := None;
                  TavilyAnswer.searchQuery := None;
                  TavilyAnswer.keywords := None;
                  TavilyAnswer.searchStats := Some (statsOf searchResponse) |}
         else
           (* Step 4: format citations *)
           let citations :=
             formatCitations (SearchResponse.results searchResponse) in
           ret {| TavilyAnswer.answer := answer;
                  TavilyAnswer.citations := citations;
                  TavilyAnswer.denied := None;
                  TavilyAnswer.searchQuery := Some query;
                  TavilyAnswer.keywords := Some query;
                  TavilyAnswer.searchStats := Some (statsOf searchResponse) |})
    (fun error =>
       emit (ConsoleError "Tavily file search error:") ;;
       ret {| TavilyAnswer.answer := DEFAULT_ERROR_MESSAGE;
              TavilyAnswer.citations := [];
              TavilyAnswer.denied := None;
              TavilyAnswer.searchQuery := None;
              TavilyAnswer.keywords := None;
              TavilyAnswer.searchStats := None |}).

End TavilyFileSearch.

(* ================================================================== *)
(** ** lib/ai/tools/dual-search.ts *)
(* ================================================================== *)

(** What [fetchFileSearch] of [./file-search] resolves to, as far as
    [dualSearchTool] reads it. *)
Module FileCitation.
Record t : Type := mk { title : string; url : option string }.
End FileCitation.

Module FileSearchResult.
Record t : Type := mk {
  answer : option string;
  citations : option (list FileCitation.t)
}.
End FileSearchResult.

(** An element of [combinedCitations]: pushed from the file search or from
    the Tavily search. *)
Inductive CombinedCitation : Type :=
| FromFile (c : FileCitation.t)
| FromTavily (c : Citation.t).

Module DualStats.
Record t : Type := mk {
  fileSearchCompleted : bool;
  tavilySearchCompleted : bool;
  fileResultsFound : option bool;
  tavilyResultsFound : option bool;
  fileCitations : option nat;
  tavilyCitations : option nat;
  totalSources : nat
}.
End DualStats.

(** The value [execute] resolves to; a key that a return statement leaves
    out is [None]. *)
Module DualAnswer.
Record t : Type := mk {
  answer : string;
  citations : list CombinedCitation;
  denied : option bool;
  searchStats : option DualStats.t
}.
End DualAnswer.

Definition FILE_DENIED_MESSAGE : string :=
  "I'm sorry, but I can only assist with questions related to VinUni-related topics.".

Definition NOTHING_FOUND_MESSAGE : string :=
  "I couldn't find relevant information in either the file database or VinUni policy documents. Please try rephrasing your question or asking about other VinUni-related topics.".

Definition UNEXPECTED_SEARCH_ERROR : string :=
  "An unexpected error occurred during the search. Please try again later.".

(** The [let] variables of [execute]. *)
Record Locals : Type := {
  combinedAnswer : string;
  combinedCitations : list CombinedCitation;
  hasFileResults : bool;
  hasTavilyResults : bool;
  fileSearchResults : option FileSearchResult.t;
  tavilyResults : option TavilyAnswer.t
}.

Definition initialLocals : Locals :=
  {| combinedAnswer := "";
     combinedCitations := [];
     hasFileResults := false;
     hasTavilyResults := false;
     fileSearchResults := None;
     tavilyResults := None |}.

(** [fileSearchResults?.citations?.length || 0] *)
Definition fileCitationCount (r : option FileSearchResult.t) : nat :=
  match r with
  | Some f => match FileSearchResult.citations f with
              | Some cs => length cs
              | None => 0
              end
  | None => 0
  end.

(** [tavilyResults?.citations?.length || 0] *)
Definition tavilyCitationCount (r : option TavilyAnswer.t) : nat :=
  match r with
  | Some t => length (TavilyAnswer.citations t)
  | None => 0
  end.

(** The test on [fileSearchResults] that sets [hasFileResults]. *)
Definition meaningfulFileAnswer (r : option FileSearchResult.t) : option string :=
  match r with
  | Some f =>
      match FileSearchResult.answer f with
      | Some (String c s) =>
          let a := String c s in
          if negb (String.eqb a FILE_DENIED_MESSAGE)
             && negb (String.eqb a DEFAULT_ERROR_MESSAGE)
          then Some a else None
      | _ => None
      end
  | None => None
  end.

(** [tavilyResults.denied] as a condition. *)
Definition truthy_flag (b : option bool) : bool :=
  match b with Some true => true | _ => false end.

(** The test on [tavilyResults] that sets [hasTavilyResults]. *)
Definition meaningfulTavilyAnswer (t : TavilyAnswer.t) : bool :=
  negb (String.eqb (TavilyAnswer.answer t) "")
  && negb (truthy_flag (TavilyAnswer.denied t))
  && negb (String.eqb (TavilyAnswer.answer t) DEFAULT_ERROR_MESSAGE).

Section DualSearch.

(** [process.env.VECTOR_STORE_ID] and [process.env.TAVILY_API_KEY]. *)
Variable VECTOR_STORE_ID : option string.
Variable TAVILY_API_KEY : option string.

(** The two imported searches. *)
Variable fetchFileSearch : string -> string -> M (option FileSearchResult.t).
Variable fetchTavilyFileSearch : string -> M TavilyAnswer.t.

(** Whether a data stream was passed.  This section reads [execute] for
    a stream that accepts every record: then only the awaited search can
    throw inside an inner [try], before the block assigns anything, so
    each inner [catch] continues with the variables as they were.
    [Imperative.execute] below is [execute] for any stream, and
    [execute_agrees] relates the two. *)
Variable dataStream : bool.

Let progress := writeData dataStream.

(** Step 1: search the file database first. *)
Definition searchFileDatabase (query : string) : M Locals :=
  progress "file-search-start" ;;
  let vectorStoreId := VECTOR_STORE_ID in
  match vectorStoreId with
  | Some (String c s) =>
      tryCatch
        (found <- fetchFileSearch query (String c s) ;;
         match meaningfulFileAnswer found with
         | Some fileAnswer =>
             let cites :=
               match found with
               | Some f => match FileSearchResult.citations f with
                           | Some cs => map FromFile cs
                           | None => []
                           end
               | None => []
               end in
             progress "file-search-complete" ;;
             ret {| combinedAnswer :=
                      "## File Database Results" ++ nl ++ nl ++ fileAnswer;
                    combinedCitations := cites;
                    hasFileResults := true;
                    hasTavilyResults := false;
                    fileSearchResults := found;
                    tavilyResults := None |}
         | None =>
             progress "file-search-complete" ;;
             ret {| combinedAnswer := "";
                    combinedCitations := [];
                    hasFileResults := false;
                    hasTavilyResults := false;
                    fileSearchResults := found;
                    tavilyResults := None |}
         end)
        (fun error =>
           emit (ConsoleError "File search failed in dual search:") ;;
           progress "file-search-error" ;;
           ret initialLocals)
  | _ =>
      progress "file-search-skip" ;;
      ret initialLocals
  end.

(** Step 2: search the Tavily documents.  [inl] is the early return of
    the denial, [inr] carries the updated variables on. *)
Definition searchTavily (query : string) (st : Locals)
  : M (DualAnswer.t + Locals) :=
  progress "tavily-search-start" ;;
  if truthy_string TAVILY_API_KEY then
    tryCatch
      (found <- fetchTavilyFileSearch query ;;
       if meaningfulTavilyAnswer found then
         progress "tavily-search-complete" ;;
         ret (inr {| combinedAnswer :=
                       if hasFileResults st
                       then combinedAnswer st ++ nl ++ nl
                            ++ "## VinUni Policy Documents" ++ nl ++ nl
                            ++ TavilyAnswer.answer found
                       else TavilyAnswer.answer found;
                     combinedCitations :=
                       (combinedCitations st
                        ++ map FromTavily (TavilyAnswer.citations found))%list;
                     hasFileResults := hasFileResults st;
                     hasTavilyResults := true;
                     fileSearchResults := fileSearchResults st;
                     tavilyResults := Some found |})
       else if truthy_flag (TavilyAnswer.denied found) then
         progress "tavily-search-denied" ;;
         (* If query was denied and we have no file results, return
            the denial *)
         if negb (hasFileResults st) then
           ret (inl {| DualAnswer.answer := TavilyAnswer.answer found;
                       DualAnswer.citations := [];
                       DualAnswer.denied := Some true;
                       DualAnswer.searchStats := None |})
         else
           ret (inr {| combinedAnswer := combinedAnswer st;
                       combinedCitations := combinedCitations st;
                       hasFileResults := hasFileResults st;
                       hasTavilyResults := false;
                       fileSearchResults := fileSearchResults st;
                       tavilyResults := Some found |})
       else
         progress "tavily-search-complete" ;;
         ret (inr {| combinedAnswer := combinedAnswer st;
                     combinedCitations := combinedCitations st;
                     hasFileResults := hasFileResults st;
                     hasTavilyResults := false;
                     fileSearchResults := fileSearchResults st;
                     tavilyResults := Some found |}))
      (fun error =>
         emit (ConsoleError "Tavily search failed in dual search:") ;;
         progress "tavily-search-error" ;;
         ret (inr st))
  else
    progress "tavily-search-skip" ;;
    ret (inr st).

(** Step 3: combine and return the results. *)
Definition combineResults (st : Locals) : M DualAnswer.t :=
  progress "combining-results" ;;
  let fileDone := truthy_string VECTOR_STORE_ID in
  let tavilyDone := truthy_string TAVILY_API_KEY in
  let nFile := fileCitationCount (fileSearchResults st) in
  let nTavily := tavilyCitationCount (tavilyResults st) in
  if negb (hasFileResults st) && negb (hasTavilyResults st) then
    ret {| DualAnswer.answer := NOTHING_FOUND_MESSAGE;
           DualAnswer.citations := [];
           DualAnswer.denied := None;
           DualAnswer.searchStats :=
             Some {| DualStats.fileSearchCompleted := fileDone;
                     DualStats.tavilySearchCompleted := tavilyDone;
                     DualStats.fileResultsFound := None;
                     DualStats.tavilyResultsFound := None;
                     DualStats.fileCitations := None;
                     DualStats.tavilyCitations := None;
                     DualStats.totalSources := 0 |} |}
  else
    let note :=
      if hasFileResults st && hasTavilyResults st then
        nl ++ nl ++ "---" ++ nl ++ nl ++ "*Results compiled from "
        ++ string_of_nat nFile ++ " file sources and "
        ++ string_of_nat nTavily ++ " policy document sources.*"
      else if hasFileResults st then
        nl ++ nl ++ "*Results from file database ("
        ++ string_of_nat nFile ++ " sources). Policy documents search "
        ++ (if tavilyDone then "found no additional relevant information."
            else "was unavailable.") ++ "*"
      else if hasTavilyResults st then
        nl ++ nl ++ "*Results from VinUni policy documents ("
        ++ string_of_nat nTavily ++ " sources). File database search "
        ++ (if fileDone then "found no relevant information."
            else "was unavailable.") ++ "*"
      else "" in
    ret {| DualAnswer.answer := combinedAnswer st ++ note;
           DualAnswer.citations := combinedCitations st;
           DualAnswer.denied := None;
           DualAnswer.searchStats :=
             Some {| DualStats.fileSearchCompleted := fileDone;
                     DualStats.tavilySearchCompleted := tavilyDone;
                     DualStats.fileResultsFound := Some (hasFileResults st);
                     DualStats.tavilyResultsFound := Some (hasTavilyResults st);
                     DualStats.fileCitations := Some nFile;
                     DualStats.tavilyCitations := Some nTavily;
                     DualStats.totalSources := length (combinedCitations st) |} |}.

(** [execute: async ({ query }) => { try { ... } catch (error) { ... } }] *)
Definition execute (query : string) : M DualAnswer.t :=
  tryCatch
    (st <- searchFileDatabase query ;;
     outcome <- searchTavily query st ;;
     match outcome with
     | inl denial => ret denial
     | inr st' => combineResults st'
     end)
    (fun error =>
       emit (ConsoleError "Dual search tool error:") ;;
       progress "error" ;;
       ret {| DualAnswer.answer := UNEXPECTED_SEARCH_ERROR;
              DualAnswer.citations := [];
              DualAnswer.denied := None;
              DualAnswer.searchStats := None |}).

End DualSearch.

(* ================================================================== *)
(** ** The assembled tool *)
(* ================================================================== *)

(** Everything outside the two source files that a call can observe. *)
Record World : Type := {
  env_VECTOR_STORE_ID : option string;
  env_TAVILY_API_KEY : option string;
  openai : ChatRequest -> Completion ChatResponse;
  tavily : string -> TavilySearchOptions -> Completion TavilyResponse;
  fileDatabase : string -> string -> Completion (option FileSearchResult.t);
  prompt_vinUniTopic : string;
  prompt_fileSearchInstruction : string;
  hasDataStream : bool
}.

(** Modelled from the spec: [fetchFileSearch] of [./file-search], which is
    not among the sources.  The spec treats each search engine as a
    black-box provider of results: one request to the file database, which
    answers or fails.  [execute] itself takes [fetchFileSearch] as a
    parameter; this stand-in is used only to assemble the tool. *)
Definition fileSearchOf (w : World) (query vectorStoreId : string)
  : M (option FileSearchResult.t) :=
  (fileDatabase w query vectorStoreId, [FileSearch query vectorStoreId]).

Definition tavilyFileSearchOf (w : World) (query : string) : M TavilyAnswer.t :=
  fetchTavilyFileSearch (openai w) (tavily w) (prompt_vinUniTopic w)
    (prompt_fileSearchInstruction w) (hasDataStream w) query.

Definition dualSearchTool (w : World) (query : string) : M DualAnswer.t :=
  execute (env_VECTOR_STORE_ID w) (env_TAVILY_API_KEY w)
    (fileSearchOf w) (tavilyFileSearchOf w) (hasDataStream w) query.

(* ================================================================== *)
(** ** Conditions on the collaborators *)
(* ================================================================== *)

(** The classification call fails: the request is rejected (network error,
    timeout), or the response is malformed: it has no [choices], or its
    first choice carries no content. *)
Definition classifierFails (openai_create : ChatRequest -> Completion ChatResponse)
    (vinUniTopicPrompt query : string) : Prop :=
  match openai_create (validationRequest vinUniTopicPrompt query) with
  | Throw _ => True
  | Normal response =>
      match firstContent response with
      | Normal (Some _) => False
      | _ => True
      end
  end.

(** The classifier judges the query out of domain: the text it answers
    is, once trimmed, the token [DENIED]. *)
Definition classifierDenies (openai_create : ChatRequest -> Completion ChatResponse)
    (vinUniTopicPrompt query : string) : Prop :=
  exists response text,
    openai_create (validationRequest vinUniTopicPrompt query) = Normal response /\
    firstContent response = Normal (Some text) /\
    trim text = "DENIED".

(** The generation call returns exactly [text]. *)
Definition generatorReturns (openai_create : ChatRequest -> Completion ChatResponse)
    (fileSearchPromptInstruction query : string) (evidence : list Result.t)
    (text : string) : Prop :=
  exists response,
    openai_create (generationRequest fileSearchPromptInstruction query evidence)
    = Normal response /\
    firstContent response = Normal (Some text).

(** The answer of the file search that sets [hasFileResults], if any:
    the search is configured, returns, and its answer passes the test. *)
Definition fileAnswerOf (VECTOR_STORE_ID : option string)
    (fetchFileSearch : string -> string -> M (option FileSearchResult.t))
    (query : string) : option string :=
  match VECTOR_STORE_ID with
  | Some (String c s) =>
      match completion (fetchFileSearch query (String c s)) with
      | Normal r => meaningfulFileAnswer r
      | Throw _ => None
      end
  | _ => None
  end.


(** The citations the file search pushes to [combinedCitations]. *)
Definition fileCitationsOf (r : option FileSearchResult.t) : list CombinedCitation :=
  match r with
  | Some f => match FileSearchResult.citations f with
              | Some cs => map FromFile cs
              | None => []
              end
  | None => []
  end.

(* ================================================================== *)
(** ** Vocabulary for the ranking step *)
(* ================================================================== *)

(** The order the comparator sorts into: scores do not increase. *)
Definition byScoreDescending (a b : Result.t) : Prop :=
  (scoreOr0 b <= scoreOr0 a)%Q.

(** Results whose score (or 0) is [k]. *)
Definition hasScore (k : Q) (r : Result.t) : bool := Qeq_bool (scoreOr0 r) k.

(** Results with a given url. *)
Definition hasUrl (u : string) (r : Result.t) : bool :=
  match Result.url r with
  | Some v => String.eqb u v
  | None => false
  end.

Definition countUrl (u : string) (l : list Result.t) : nat :=
  length (filter (hasUrl u) l).

(* ================================================================== *)
(** ** Scripted collaborators for concrete runs *)
(* ================================================================== *)

Definition chatReply (text : string) : ChatResponse :=
  {| choices := Some [ {| message := Some {| content := Some text |} |} ] |}.

(** A language model that gives [verdict] to the validation request and
    [generated] to the generation request; the two are told apart by the
    [max_tokens] the source sends (10 and 1000). *)
Definition scriptedOpenAI (verdict generated : Completion ChatResponse)
    (request : ChatRequest) : Completion ChatResponse :=
  if max_tokens request =? 10 then verdict else generated.

(** A Tavily client that gives [policy] to the site-restricted query and
    [general] to the unrestricted one. *)
Definition scriptedTavily (policy general : Completion TavilyResponse)
    (query : string) (options : TavilySearchOptions) : Completion TavilyResponse :=
  if String.prefix "site:policy.vinuni.edu.vn " query then policy else general.

Definition found (rs : list Result.t) : Completion TavilyResponse :=
  Normal {| results := Some rs |}.

(** A policy page that the general search returns as well. *)
Definition aidFromPolicy : Result.t :=
  {| Result.title := "Financial aid";
     Result.url := Some "https://policy.vinuni.edu.vn/aid";
     Result.content := "Financial aid policy";
     Result.rawContent := Some "Financial aid policy of the university";
     Result.score := Some (9 # 10)%Q;
     Result.publishedDate := None |}.

Definition aidFromWeb : Result.t :=
  {| Result.title := "Financial aid";
     Result.url := Some "https://policy.vinuni.edu.vn/aid";
     Result.content := "Financial aid policy";
     Result.rawContent := Some "Financial aid policy of the university";
     Result.score := Some (1 # 2)%Q;
     Result.publishedDate := None |}.

Fixpoint repeatString (n : nat) (s : string) : string :=
  match n with
  | 0 => ""
  | S n' => s ++ repeatString n' s
  end.

(** A policy page whose raw text has 400 characters. *)
Definition longDocument : Result.t :=
  {| Result.title := "Academic regulations";
     Result.url := Some "https://policy.vinuni.edu.vn/regulations";
     Result.content := "Academic regulations";
     Result.rawContent := Some (repeatString 40 "regulation");
     Result.score := Some (8 # 10)%Q;
     Result.publishedDate := None |}.

Definition aidQuestion : string := "What financial aid options exist?".

Definition fileAnswerAid : FileSearchResult.t :=
  {| FileSearchResult.answer := Some "Scholarships are listed in the handbook.";
     FileSearchResult.citations :=
       Some [ {| FileCitation.title := "handbook.pdf";
                 FileCitation.url := None |} ] |}.

(** Both backends configured; the classifier denies the query, the file
    database has an answer for it. *)
Definition worldDeniedWithFileAnswer : World :=
  {| env_VECTOR_STORE_ID := Some "vs_1";
     env_TAVILY_API_KEY := Some "tvly-key";
     openai := scriptedOpenAI (Normal (chatReply "DENIED"))
                 (Normal (chatReply "unused"));
     tavily := scriptedTavily (found [aidFromPolicy]) (found []);
     fileDatabase := fun _ _ => Normal (Some fileAnswerAid);
     prompt_vinUniTopic := "TOPICS";
     prompt_fileSearchInstruction := "INSTRUCTION";
     hasDataStream := true |}.


(** The classifier is unreachable; Tavily finds one page and the generator
    says that it does not answer the question. *)
Definition worldClassifierDown : World :=
  {| env_VECTOR_STORE_ID := None;
     env_TAVILY_API_KEY := Some "tvly-key";
     openai := scriptedOpenAI (Throw (Rejected "connect ETIMEDOUT"))
                 (Normal (chatReply "NOT_FOUND"));
     tavily := scriptedTavily (found [aidFromPolicy]) (found []);
     fileDatabase := fun _ _ => Throw (Rejected "unavailable");
     prompt_vinUniTopic := "TOPICS";
     prompt_fileSearchInstruction := "INSTRUCTION";
     hasDataStream := false |}.

(** The classifier accepts, Tavily finds the long page, the generator
    answers. *)
Definition worldLongDocument : World :=
  {| env_VECTOR_STORE_ID := None;
     env_TAVILY_API_KEY := Some "tvly-key";
     openai := scriptedOpenAI (Normal (chatReply "VALID"))
                 (Normal (chatReply "See the academic regulations."));
     tavily := scriptedTavily (found [longDocument]) (found []);
     fileDatabase := fun _ _ => Throw (Rejected "unavailable");
     prompt_vinUniTopic := "TOPICS";
     prompt_fileSearchInstruction := "INSTRUCTION";
     hasDataStream := false |}.

(* ================================================================== *)
(** ** Kinds of events *)
(* ================================================================== *)

Definition isOpenAICall (e : Event) : bool :=
  match e with OpenAICall _ => true | _ => false end.

(** Progress records and console output, as opposed to calls that leave
    the process. *)
Definition isLogging (e : Event) : bool :=
  match e with
  | Progress _ | ConsoleLog _ | ConsoleError _ => true
  | _ => false
  end.

Definition isRemoteCall (e : Event) : bool := negb (isLogging e).

Definition remoteCalls (t : list Event) : list Event := filter isRemoteCall t.

(* ================================================================== *)
(** ** tavily-file-search.ts: the tool's [execute] *)
(* ================================================================== *)

Definition TOOL_UNAVAILABLE_MESSAGE : string :=
  "I'm unable to search VinUni policy documents at the moment. Please try again later.".

Definition TOOL_ISSUE_MESSAGE : string :=
  "I encountered an issue while searching for information. Please try again later.".

Section TavilyFileSearchTool.

Variable TAVILY_API_KEY : option string.

(** [fetchTavilyFileSearch({ query, dataStream })] *)
Variable fetchTavily : string -> M TavilyAnswer.t.

(** [execute] of [tavilyFileSearchTool]: a string, or the result object. *)
Definition tavilyFileSearchTool_execute (query : string)
  : M (string + TavilyAnswer.t) :=
  tryCatch
    (if negb (truthy_string TAVILY_API_KEY) then
       emit (ConsoleError "Missing TAVILY_API_KEY environment variable") ;;
       ret (inl TOOL_UNAVAILABLE_MESSAGE)
     else
       results <- fetchTavily query ;;
       ret (inr results))
    (fun error =>
       emit (ConsoleError "Tavily file search tool error:") ;;
       ret (inl TOOL_ISSUE_MESSAGE)).

End TavilyFileSearchTool.

Definition tavilyFileSearchTool (w : World) (query : string)
  : M (string + TavilyAnswer.t) :=
  tavilyFileSearchTool_execute (env_TAVILY_API_KEY w) (tavilyFileSearchOf w) query.

(* ================================================================== *)
(** ** tavily-file-search.ts: keyword extraction and query building *)
(* ================================================================== *)

Unset Elimination Schemes.

(** A value [JSON.parse] returns. *)
Inductive JSON : Type :=
| JNull
| JBool (b : bool)
| JNumber (q : Q)
| JString (s : string)
| JArray (items : list JSON)
| JObject (members : list (string * JSON)).

Set Elimination Schemes.

(** [\w]: an ASCII letter, a digit or the underscore. *)
Definition isWordChar (c : ascii) : bool :=
  isAlpha c || isDigit c || Ascii.eqb c "_".

(** [s.match(/\b\w+\b/g) || []]: the maximal runs of word characters of
    [s], from left to right. *)
Fixpoint matchWords (s : string) : list string :=
  match s with
  | EmptyString => []
  | String c s' =>
      if isWordChar c then
        match s' with
        | String c' _ =>
            if isWordChar c' then
              match matchWords s' with
              | w :: ws => String c w :: ws
              | [] => [String c EmptyString]
              end
            else String c EmptyString :: matchWords s'
        | EmptyString => [String c EmptyString]
        end
      else matchWords s'
  end.

Definition STOP_WORDS : list string :=
  ["what"; "how"; "where"; "when"; "why"; "the"; "and"; "for"; "are"; "can";
   "will"; "do"; "does"].

(** [array.includes(word)] *)
Definition includes (array : list string) (word : string) : bool :=
  existsb (String.eqb word) array.

(** The fallback of the outer [catch]: words of the original query. *)
Definition keywordsFromQuery (query : string) : list string :=
  let words := matchWords (toLowerCase query) in
  firstn 5
    (filter (fun word => (2 <? String.length word) && negb (includes STOP_WORDS word))
       words).

(** The fallback of the inner [catch]: words of the model's answer. *)
Definition keywordsFromContent (content : string) : list string :=
  let words := matchWords (toLowerCase content) in
  firstn 5 (filter (fun word => 2 <? String.length word) words).

(** [keywords.filter((k) => typeof k === 'string' && k.trim().length > 0)] *)
Fixpoint nonBlankStrings (keywords : list JSON) : list string :=
  match keywords with
  | [] => []
  | JString k :: rest =>
      if 0 <? String.length (trim k) then k :: nonBlankStrings rest
      else nonBlankStrings rest
  | _ :: rest => nonBlankStrings rest
  end.

(** The request of [extractKeywords]: the user message is the query; the
    system message is a fixed instruction text and is not recorded. *)
Definition keywordRequest (query : string) : ChatRequest :=
  {| model := OPENAI_MODEL_KEYWORD_EXTRACTION;
     user_content := query;
     temperature := (1 # 10)%Q;
     max_tokens := 100 |}.

Section ExtractKeywords.

Variable openai_create : ChatRequest -> Completion ChatResponse.

(** [JSON.parse], [None] when it throws a [SyntaxError]. *)
Variable JSON_parse : string -> option JSON.

Definition extractKeywords (query : string) : M (list string) :=
  tryCatch
    (response <- openai_chat_completions_create openai_create
                   (keywordRequest query) ;;
     content <- liftCompletion (firstContent response) ;;
     match content with
     | Some (String c s) =>
         let content := String c s in
         match JSON_parse content with
         | Some (JArray keywords) => ret (nonBlankStrings keywords)
         | Some _ => ret []
         | None =>
             (* Fallback: extract words manually if JSON parsing fails *)
             ret (keywordsFromContent content)
         end
     | _ => throw (Error "Failed to extract keywords")
     end)
    (fun error =>
       emit (ConsoleError "Keyword extraction failed:") ;;
       (* Fallback: extract words from the original query *)
       ret (keywordsFromQuery query)).

End ExtractKeywords.

(** The chat call of [extractKeywords] gives no usable text. *)
Definition keywordCallFails (openai_create : ChatRequest -> Completion ChatResponse)
    (query : string) : Prop :=
  match openai_create (keywordRequest query) with
  | Throw _ => True
  | Normal response =>
      match firstContent response with
      | Normal (Some (String _ _)) => False
      | _ => True
      end
  end.

(** The site-restricted query of the dual domain search. *)
Definition policyQueryOf (keywords : string) : string :=
  "site:policy.vinuni.edu.vn " ++ keywords.

(* ================================================================== *)
(** ** Vocabulary for the outcome of [execute] *)
(* ================================================================== *)

(** What the file search returned, when it was configured and returned. *)
Definition fileResultOf (VECTOR_STORE_ID : option string)
    (fetchFileSearch : string -> string -> M (option FileSearchResult.t))
    (query : string) : option FileSearchResult.t :=
  match VECTOR_STORE_ID with
  | Some (String c s) =>
      match completion (fetchFileSearch query (String c s)) with
      | Normal r => r
      | Throw _ => None
      end
  | _ => None
  end.

(** What the Tavily search returned, when it was configured and returned. *)
Definition tavilyResultOf (TAVILY_API_KEY : option string)
    (fetchTavily : string -> M TavilyAnswer.t) (query : string)
  : option TavilyAnswer.t :=
  if truthy_string TAVILY_API_KEY then
    match completion (fetchTavily query) with
    | Normal t => Some t
    | Throw _ => None
    end
  else None.

(** The Tavily result that sets [hasTavilyResults], if any. *)
Definition tavilyAnswerOf (TAVILY_API_KEY : option string)
    (fetchTavily : string -> M TavilyAnswer.t) (query : string)
  : option TavilyAnswer.t :=
  match tavilyResultOf TAVILY_API_KEY fetchTavily query with
  | Some t => if meaningfulTavilyAnswer t then Some t else None
  | None => None
  end.

(** The object of the last [catch] of [fetchTavilyFileSearch]. *)
Definition defaultErrorAnswer : TavilyAnswer.t :=
  {| TavilyAnswer.answer := DEFAULT_ERROR_MESSAGE;
     TavilyAnswer.citations := [];
     TavilyAnswer.denied := None;
     TavilyAnswer.searchQuery := None;
     TavilyAnswer.keywords := None;
     TavilyAnswer.searchStats := None |}.

(** A run in which Tavily finds the policy page and a page outside the
    university's domains, and the generator answers. *)
Definition outsidePage : Result.t :=
  {| Result.title := "Financial aid elsewhere";
     Result.url := Some "https://unrelated.com/aid";
     Result.content := "Aid";
     Result.rawContent := Some "Aid at another university";
     Result.score := Some (95 # 100)%Q;
     Result.publishedDate := None |}.

Definition worldAnswered : World :=
  {| env_VECTOR_STORE_ID := Some "vs_1";
     env_TAVILY_API_KEY := Some "tvly-key";
     openai := scriptedOpenAI (Normal (chatReply "VALID"))
                 (Normal (chatReply "Aid is described in the policy."));
     tavily := scriptedTavily (found [aidFromPolicy]) (found [outsidePage]);
     fileDatabase := fun _ _ => Normal (Some fileAnswerAid);
     prompt_vinUniTopic := "TOPICS";
     prompt_fileSearchInstruction := "INSTRUCTION";
     hasDataStream := true |}.

(** A language model that fails every request but the generation
    request, which it answers with [text]. *)
Definition answeringOnly (text : string) (request : ChatRequest)
  : Completion ChatResponse :=
  if max_tokens request =? 1000 then Normal (chatReply text)
  else Throw (Rejected "timeout").

(** Tavily is unreachable. *)
Definition worldTavilyDown : World :=
  {| env_VECTOR_STORE_ID := Some "vs_1";
     env_TAVILY_API_KEY := Some "tvly-key";
     openai := scriptedOpenAI (Normal (chatReply "VALID"))
                 (Normal (chatReply "unused"));
     tavily := fun _ _ => Throw (Rejected "503");
     fileDatabase := fun _ _ => Throw (Rejected "unavailable");
     prompt_vinUniTopic := "TOPICS";
     prompt_fileSearchInstruction := "INSTRUCTION";
     hasDataStream := false |}.

(** No credential is configured. *)
Definition worldUnconfigured : World :=
  {| env_VECTOR_STORE_ID := None;
     env_TAVILY_API_KEY := Some "";
     openai := fun _ => Throw (Rejected "unused");
     tavily := fun _ _ => Throw (Rejected "unused");
     fileDatabase := fun _ _ => Throw (Rejected "unused");
     prompt_vinUniTopic := "TOPICS";
     prompt_fileSearchInstruction := "INSTRUCTION";
     hasDataStream := true |}.

(** The variables of [execute] after Step 1. *)
Definition fileState (VECTOR_STORE_ID : option string)
    (fetchFileSearch : string -> string -> M (option FileSearchResult.t))
    (query : string) : Locals :=
  let found := fileResultOf VECTOR_STORE_ID fetchFileSearch query in
  match fileAnswerOf VECTOR_STORE_ID fetchFileSearch query with
  | Some fileAnswer =>
      {| combinedAnswer := "## File Database Results" ++ nl ++ nl ++ fileAnswer;
         combinedCitations := fileCitationsOf found;
         hasFileResults := true;
         hasTavilyResults := false;
         fileSearchResults := found;
         tavilyResults := None |}
  | None =>
      {| combinedAnswer := "";
         combinedCitations := [];
         hasFileResults := false;
         hasTavilyResults := false;
         fileSearchResults := found;
         tavilyResults := None |}
  end.

(** The variables after Step 2 when the Tavily result [t] is meaningful. *)
Definition withTavilyResults (st : Locals) (t : TavilyAnswer.t) : Locals :=
  {| combinedAnswer :=
       if hasFileResults st
       then combinedAnswer st ++ nl ++ nl ++ "## VinUni Policy Documents"
            ++ nl ++ nl ++ TavilyAnswer.answer t
       else TavilyAnswer.answer t;
     combinedCitations :=
       (combinedCitations st ++ map FromTavily (TavilyAnswer.citations t))%list;
     hasFileResults := hasFileResults st;
     hasTavilyResults := true;
     fileSearchResults := fileSearchResults st;
     tavilyResults := Some t |}.

(** The variables after Step 2 when the Tavily result [t] is not. *)
Definition withoutTavilyResults (st : Locals) (t : TavilyAnswer.t) : Locals :=
  {| combinedAnswer := combinedAnswer st;
     combinedCitations := combinedCitations st;
     hasFileResults := hasFileResults st;
     hasTavilyResults := false;
     fileSearchResults := fileSearchResults st;
     tavilyResults := Some t |}.

(** The object returned when the denial is passed on. *)
Definition denialOf (t : TavilyAnswer.t) : DualAnswer.t :=
  {| DualAnswer.answer := TavilyAnswer.answer t;
     DualAnswer.citations := [];
     DualAnswer.denied := Some true;
     DualAnswer.searchStats := None |}.

(** The object returned when neither search has results. *)
Definition nothingFound (fileDone tavilyDone : bool) : DualAnswer.t :=
  {| DualAnswer.answer := NOTHING_FOUND_MESSAGE;
     DualAnswer.citations := [];
     DualAnswer.denied := None;
     DualAnswer.searchStats :=
       Some {| DualStats.fileSearchCompleted := fileDone;
               DualStats.tavilySearchCompleted := tavilyDone;
               DualStats.fileResultsFound := None;
               DualStats.tavilyResultsFound := None;
               DualStats.fileCitations := None;
               DualStats.tavilyCitations := None;
               DualStats.totalSources := 0 |} |}.

(* ================================================================== *)
(** ** The policy-site search tool (the second module of
       [lib/ai/prompts.ts]): keywords, one site-restricted search, answer *)
(* ================================================================== *)

Module PolicySearch.

Definition DENIED_MESSAGE : string :=
  "I'm sorry, but I can only assist with questions related to VinUni-related topics.".

Definition SITE_DOMAIN : string := "site:policy.vinuni.edu.vn/".

Definition MAX_RESULTS : nat := 5.

Definition NO_KEYWORDS_MESSAGE : string :=
  "I couldn't extract meaningful keywords from your query. Please try rephrasing your question.".

Definition NO_RESULTS_MESSAGE : string :=
  "I couldn't find any relevant information in the VinUni policy documents for your query. Please try rephrasing your question or check if your question is related to VinUni policies.".

Definition NOT_FOUND_MESSAGE : string :=
  "I couldn't find specific information to answer your question in the VinUni policy documents.".

(** The value this [fetchTavilyFileSearch] resolves to. *)
Module Answer.
Record t : Type := mk {
  answer : string;
  citations : list Citation.t;
  searchQuery : option string;
  keywords : option (list string)
}.
End Answer.

(** [buildSearchQuery(keywords)] *)
Definition buildSearchQuery (keywords : list string) : string :=
  let quotedKeywords :=
    join " " (map (fun keyword => dquote ++ keyword ++ dquote) keywords) in
  SITE_DOMAIN ++ " " ++ quotedKeywords.

(** The options of [performTavilySearch]; [includeRawContent] is not set. *)
Definition searchOptions : TavilySearchOptions :=
  {| searchDepth := basic;
     includeImages := false;
     includeAnswer := false;
     maxResults := MAX_RESULTS;
     includeRawContent := "" |}.

(** [formatCitations]: here [content] is the snippet. *)
Definition formatCitations (searchResults : list Result.t) : list Citation.t :=
  map (fun result =>
         {| Citation.title := Result.title result;
            Citation.url := Result.url result;
            Citation.content := Some (Result.content result);
            Citation.score := Result.score result |}) searchResults.

Fixpoint documentBlocks (index : nat) (searchResults : list Result.t) : list string :=
  match searchResults with
  | [] => []
  | result :: rest =>
      ("Document " ++ string_of_nat (index + 1) ++ ":" ++ nl
       ++ "Title: " ++ Result.title result ++ nl
       ++ "URL: " ++ template (Result.url result) ++ nl
       ++ "Content: " ++ Result.content result ++ nl
       ++ "---") :: documentBlocks (S index) rest
  end.

Section Fetch.

Variable openai_create : ChatRequest -> Completion ChatResponse.
Variable JSON_parse : string -> option JSON.
Variable tavily_search : string -> TavilySearchOptions -> Completion TavilyResponse.
Variable fileSearchPromptInstruction : string.

Definition performTavilySearch (searchQuery : string) : M TavilyResponse :=
  tryCatch
    (tavilyClient_search tavily_search searchQuery searchOptions)
    (fun error =>
       emit (ConsoleError "Tavily search failed:") ;;
       throw error).

Definition generationRequest (query : string) (searchResults : list Result.t)
  : ChatRequest :=
  let context := join (nl ++ nl) (documentBlocks 0 searchResults) in
  {| model := OPENAI_MODEL_KEYWORD_EXTRACTION;
     user_content :=
       "Based on the following documents from VinUni policy website, answer the user's question. "
       ++ fileSearchPromptInstruction ++ nl ++ nl
       ++ "DOCUMENTS:" ++ nl ++ context ++ nl ++ nl
       ++ "USER QUESTION: " ++ query ++ nl ++ nl
       ++ "Please provide a comprehensive answer based solely on the information in the documents above.";
     temperature := (1 # 10)%Q;
     max_tokens := 1000 |}.

Definition generateAnswerWithContext (query : string)
    (searchResults : list Result.t) : M string :=
  tryCatch
    (response <- openai_chat_completions_create openai_create
                   (generationRequest query searchResults) ;;
     answer <- liftCompletion (firstContent response) ;;
     match answer with
     | Some (String c s) => ret (String c s)
     | _ => throw (Error "Failed to generate answer")
     end)
    (fun error =>
       emit (ConsoleError "Answer generation failed:") ;;
       throw error).

Definition fetchTavilyFileSearch (query : string) : M Answer.t :=
  tryCatch
    ((* Step 1: extract keywords from the query *)
     keywords <- extractKeywords openai_create JSON_parse query ;;
     match keywords with
     | [] =>
         ret {| Answer.answer := NO_KEYWORDS_MESSAGE;
                Answer.citations := [];
                Answer.searchQuery := None;
                Answer.keywords := None |}
     | _ :: _ =>
         (* Step 2: build the search query *)
         let searchQuery := buildSearchQuery keywords in
         (* Step 3: perform the Tavily search *)
         searchResponse <- performTavilySearch searchQuery ;;
         match results searchResponse with
         | Some (first :: others) =>
             let searchResults := first :: others in
             (* Step 4: generate the answer from the search results *)
             answer <- generateAnswerWithContext query searchResults ;;
             if String.eqb answer "DENIED" then
               ret {| Answer.answer := DENIED_MESSAGE;
                      Answer.citations := [];
                      Answer.searchQuery := None;
                      Answer.keywords := None |}
             else if String.eqb answer "NOT_FOUND" then
               ret {| Answer.answer := NOT_FOUND_MESSAGE;
                      Answer.citations := formatCitations searchResults;
                      Answer.searchQuery := None;
                      Answer.keywords := None |}
             else
               (* Step 5: format citations *)
               ret {| Answer.answer := answer;
                      Answer.citations := formatCitations searchResults;
                      Answer.searchQuery := Some searchQuery;
                      Answer.keywords := Some keywords |}
         | _ =>
             ret {| Answer.answer := NO_RESULTS_MESSAGE;
                    Answer.citations := [];
                    Answer.searchQuery := None;
                    Answer.keywords := None |}
         end
     end)
    (fun error =>
       emit (ConsoleError "Tavily file search error:") ;;
       ret {| Answer.answer := DEFAULT_ERROR_MESSAGE;
              Answer.citations := [];
              Answer.searchQuery := None;
              Answer.keywords := None |}).

End Fetch.

End PolicySearch.

(** The two records of the [catch] around the Tavily step of [execute]. *)
Definition isTavilyErrorReport (e : Event) : bool :=
  match e with
  | Progress step => String.eqb step "tavily-search-error"
  | ConsoleError label => String.eqb label "Tavily search failed in dual search:"
  | _ => false
  end.

(* ================================================================== *)
(** ** [execute] when the data stream may throw

    [execute] above reads the two inner [try] blocks for a stream whose
    [writeData] returns: there only the awaited search can throw, which
    it does before the block assigns anything, so each [catch] continues
    with the variables as they were.  A [writeData] that throws does so
    after the assignments of its block, and the outer [catch] itself calls
    [writeData].  [Imperative.execute] follows the source statement by
    statement for any stream, with the [let] variables in a state that an
    exception leaves as it is. *)
(* ================================================================== *)

Module Imperative.

(** A block of statements, run from given values of the variables: its
    completion and events, and the variables as it leaves them, also when
    it throws. *)
Definition Block (A : Type) : Type := Locals -> M A * Locals.

Definition effect {A} (r : M A * Locals) : M A := fst r.
Definition vars {A} (r : M A * Locals) : Locals := snd r.

(** A statement that does not touch the variables. *)
Definition run {A} (m : M A) : Block A := fun st => (m, st).

(** An assignment. *)
Definition assign (f : Locals -> Locals) : Block unit :=
  fun st => (ret tt, f st).

(** Reading the variables. *)
Definition read {A} (f : Locals -> A) : Block A :=
  fun st => (ret (f st), st).

Definition bindB {A B} (m : Block A) (k : A -> Block B) : Block B :=
  fun st =>
    let r := m st in
    match completion (effect r) with
    | Normal a =>
        let r' := k a (vars r) in
        ((completion (effect r'),
          (trace (effect r) ++ trace (effect r'))%list),
         vars r')
    | Throw e => ((Throw e, trace (effect r)), vars r)
    end.

(** [try { m } catch (error) { handler error }]: the handler starts from
    the variables as [m] left them. *)
Definition tryCatchB {A} (m : Block A) (handler : Exn -> Block A) : Block A :=
  fun st =>
    let r := m st in
    match completion (effect r) with
    | Normal a => ((Normal a, trace (effect r)), vars r)
    | Throw e =>
        let r' := handler e (vars r) in
        ((completion (effect r'),
          (trace (effect r) ++ trace (effect r'))%list),
         vars r')
    end.

Declare Scope block_scope.
Delimit Scope block_scope with block.
Notation "x <- m ;; k" := (bindB m (fun x => k))
  (at level 61, m at next level, right associativity) : block_scope.
Notation "m ;; k" := (bindB m (fun _ => k))
  (at level 61, right associativity) : block_scope.
Local Open Scope block_scope.

(** [fileSearchResults = v] *)
Definition set_fileSearchResults (v : option FileSearchResult.t) (st : Locals)
  : Locals :=
  {| combinedAnswer := combinedAnswer st;
     combinedCitations := combinedCitations st;
     hasFileResults := hasFileResults st;
     hasTavilyResults := hasTavilyResults st;
     fileSearchResults := v;
     tavilyResults := tavilyResults st |}.

(** [tavilyResults = v] *)
Definition set_tavilyResults (v : option TavilyAnswer.t) (st : Locals)
  : Locals :=
  {| combinedAnswer := combinedAnswer st;
     combinedCitations := combinedCitations st;
     hasFileResults := hasFileResults st;
     hasTavilyResults := hasTavilyResults st;
     fileSearchResults := fileSearchResults st;
     tavilyResults := v |}.

(** [hasFileResults = v] *)
Definition set_hasFileResults (v : bool) (st : Locals) : Locals :=
  {| combinedAnswer := combinedAnswer st;
     combinedCitations := combinedCitations st;
     hasFileResults := v;
     hasTavilyResults := hasTavilyResults st;
     fileSearchResults := fileSearchResults st;
     tavilyResults := tavilyResults st |}.

(** [hasTavilyResults = v] *)
Definition set_hasTavilyResults (v : bool) (st : Locals) : Locals :=
  {| combinedAnswer := combinedAnswer st;
     combinedCitations := combinedCitations st;
     hasFileResults := hasFileResults st;
     hasTavilyResults := v;
     fileSearchResults := fileSearchResults st;
     tavilyResults := tavilyResults st |}.

(** [combinedAnswer = v] *)
Definition set_combinedAnswer (v : string) (st : Locals) : Locals :=
  {| combinedAnswer := v;
     combinedCitations := combinedCitations st;
     hasFileResults := hasFileResults st;
     hasTavilyResults := hasTavilyResults st;
     fileSearchResults := fileSearchResults st;
     tavilyResults := tavilyResults st |}.

(** [combinedAnswer += v] *)
Definition append_combinedAnswer (v : string) (st : Locals) : Locals :=
  set_combinedAnswer (combinedAnswer st ++ v) st.

(** [combinedCitations.push(...cs)] *)
Definition push_combinedCitations (cs : list CombinedCitation) (st : Locals)
  : Locals :=
  {| combinedAnswer := combinedAnswer st;
     combinedCitations := (combinedCitations st ++ cs)%list;
     hasFileResults := hasFileResults st;
     hasTavilyResults := hasTavilyResults st;
     fileSearchResults := fileSearchResults st;
     tavilyResults := tavilyResults st |}.

Section Execute.

Variable VECTOR_STORE_ID : option string.
Variable TAVILY_API_KEY : option string.

(** The two imported searches. *)
Variable fetchFileSearch : string -> string -> M (option FileSearchResult.t).
Variable fetchTavilyFileSearch : string -> M TavilyAnswer.t.

Variable dataStream : DataStream.

Definition progress (step : string) : Block unit :=
  run (writeData dataStream step).

Definition console_error (label : string) : Block unit :=
  run (emit (ConsoleError label)).

(** Step 1: search the file database first (l.28-90). *)
Definition searchFileDatabase (query : string) : Block unit :=
  progress "file-search-start" ;;
  let vectorStoreId := VECTOR_STORE_ID in
  match vectorStoreId with
  | Some (String c s) =>
      tryCatchB
        (found <- run (fetchFileSearch query (String c s)) ;;
         assign (set_fileSearchResults found) ;;
         match meaningfulFileAnswer found with
         | Some fileAnswer =>
             assign (set_hasFileResults true) ;;
             assign (append_combinedAnswer
                       ("## File Database Results" ++ nl ++ nl ++ fileAnswer)) ;;
             (* pushing no citation leaves the array as it is *)
             assign (push_combinedCitations (fileCitationsOf found)) ;;
             progress "file-search-complete"
         | None =>
             progress "file-search-complete"
         end)
        (fun error =>
           console_error "File search failed in dual search:" ;;
           progress "file-search-error")
  | _ =>
      progress "file-search-skip"
  end.

(** Step 2: search the Tavily documents (l.92-176).  The value is the
    object of the [return] at l.142, if that statement is reached. *)
Definition searchTavily (query : string) : Block (option DualAnswer.t) :=
  progress "tavily-search-start" ;;
  if truthy_string TAVILY_API_KEY then
    tryCatchB
      (found <- run (fetchTavilyFileSearch query) ;;
       assign (set_tavilyResults (Some found)) ;;
       if meaningfulTavilyAnswer found then
         assign (set_hasTavilyResults true) ;;
         fileFound <- read hasFileResults ;;
         (if fileFound
          then assign (append_combinedAnswer
                         (nl ++ nl ++ "## VinUni Policy Documents" ++ nl ++ nl
                          ++ TavilyAnswer.answer found))
          else assign (set_combinedAnswer (TavilyAnswer.answer found))) ;;
         (* pushing no citation leaves the array as it is *)
         assign (push_combinedCitations
                   (map FromTavily (TavilyAnswer.citations found))) ;;
         progress "tavily-search-complete" ;;
         run (ret None)
       else if truthy_flag (TavilyAnswer.denied found) then
         progress "tavily-search-denied" ;;
         fileFound <- read hasFileResults ;;
         if negb fileFound then
           run (ret (Some {| DualAnswer.answer := TavilyAnswer.answer found;
                             DualAnswer.citations := [];
                             DualAnswer.denied := Some true;
                             DualAnswer.searchStats := None |}))
         else run (ret None)
       else
         progress "tavily-search-complete" ;;
         run (ret None))
      (fun error =>
         console_error "Tavily search failed in dual search:" ;;
         progress "tavily-search-error" ;;
         run (ret None))
  else
    progress "tavily-search-skip" ;;
    run (ret None).

(** Step 3: combine and return the results (l.178-223). *)
Definition combineResults : Block DualAnswer.t :=
  progress "combining-results" ;;
  st <- read (fun st => st) ;;
  let fileDone := truthy_string VECTOR_STORE_ID in
  let tavilyDone := truthy_string TAVILY_API_KEY in
  let nFile := fileCitationCount (fileSearchResults st) in
  let nTavily := tavilyCitationCount (tavilyResults st) in
  if negb (hasFileResults st) && negb (hasTavilyResults st) then
    run (ret {| DualAnswer.answer := NOTHING_FOUND_MESSAGE;
                DualAnswer.citations := [];
                DualAnswer.denied := None;
                DualAnswer.searchStats :=
                  Some {| DualStats.fileSearchCompleted := fileDone;
                          DualStats.tavilySearchCompleted := tavilyDone;
                          DualStats.fileResultsFound := None;
                          DualStats.tavilyResultsFound := None;
                          DualStats.fileCitations := None;
                          DualStats.tavilyCitations := None;
                          DualStats.totalSources := 0 |} |})
  else
    let note :=
      if hasFileResults st && hasTavilyResults st then
        nl ++ nl ++ "---" ++ nl ++ nl ++ "*Results compiled from "
        ++ string_of_nat nFile ++ " file sources and "
        ++ string_of_nat nTavily ++ " policy document sources.*"
      else if hasFileResults st then
        nl ++ nl ++ "*Results from file database ("
        ++ string_of_nat nFile ++ " sources). Policy documents search "
        ++ (if tavilyDone then "found no additional relevant information."
            else "was unavailable.") ++ "*"
      else if hasTavilyResults st then
        nl ++ nl ++ "*Results from VinUni policy documents ("
        ++ string_of_nat nTavily ++ " sources). File database search "
        ++ (if fileDone then "found no relevant information."
            else "was unavailable.") ++ "*"
      else "" in
    run (ret {| DualAnswer.answer := combinedAnswer st ++ note;
                DualAnswer.citations := combinedCitations st;
                DualAnswer.denied := None;
                DualAnswer.searchStats :=
                  Some {| DualStats.fileSearchCompleted := fileDone;
                          DualStats.tavilySearchCompleted := tavilyDone;
                          DualStats.fileResultsFound := Some (hasFileResults st);
                          DualStats.tavilyResultsFound :=
                            Some (hasTavilyResults st);
                          DualStats.fileCitations := Some nFile;
                          DualStats.tavilyCitations := Some nTavily;
                          DualStats.totalSources :=
                            length (combinedCitations st) |} |}).

(** The [try] block of [execute] (l.22-223). *)
Definition attempt (query : string) : Block DualAnswer.t :=
  searchFileDatabase query ;;
  returned <- searchTavily query ;;
  match returned with
  | Some denial => run (ret denial)
  | None => combineResults
  end.

(** The outer [catch] block (l.224-237). *)
Definition recover (error : Exn) : Block DualAnswer.t :=
  console_error "Dual search tool error:" ;;
  progress "error" ;;
  run (ret {| DualAnswer.answer := UNEXPECTED_SEARCH_ERROR;
              DualAnswer.citations := [];
              DualAnswer.denied := None;
              DualAnswer.searchStats := None |}).

(** [execute: async ({ query }) => { try { ... } catch (error) { ... } }],
    from the initial values of the variables (l.23-26, l.35, l.98). *)
Definition execute (query : string) : M DualAnswer.t :=
  effect (tryCatchB (attempt query) recover initialLocals).

End Execute.

End Imperative.


(* ================================================================== *)
(** ** Sample runs *)
(* ================================================================== *)

Example isVinUniDomain_policy :
  isVinUniDomain "https://policy.vinuni.edu.vn/x" = true.
Proof. reflexivity. Qed.

Example isVinUniDomain_evil :
  isVinUniDomain "https://evilvinuni.edu.vn/x" = false.
Proof. reflexivity. Qed.

Example isVinUniDomain_garbage : isVinUniDomain "not a url" = false.
Proof. reflexivity. Qed.

Example isVinUniDomain_userinfo :
  isVinUniDomain "https://vinuni.edu.vn@evil.com/x" = false.
Proof. reflexivity. Qed.

Example isVinUniDomain_upper :
  isVinUniDomain "HTTPS://WWW.VinUni.edu.vn:443/a?b#c" = true.
Proof. reflexivity. Qed.

Example Array_sort_sample :
  map Result.score
    (Array_sort compareFn
       [aidFromWeb; longDocument; aidFromPolicy;
        Result.mk "No score" None "" None None None])
  = [Some (9 # 10)%Q; Some (8 # 10)%Q; Some (1 # 2)%Q; None].
Proof. reflexivity. Qed.

Example validation_trims_the_verdict :
  completion (validateVinUniQuery
                (scriptedOpenAI (Normal (chatReply (" DENIED" ++ nl)))
                   (Normal (chatReply "unused")))
                "TOPICS" aidQuestion)
  = Normal {| isValid := false; reason := Some VALIDATION_REASON |}.
Proof. reflexivity. Qed.

Example classifier_down_trace :
  trace (tavilyFileSearchOf worldClassifierDown aidQuestion)
  = [OpenAICall (validationRequest "TOPICS" aidQuestion);
     ConsoleError "Query validation failed:";
     ConsoleLog "Policy query:";
     TavilySearch ("site:policy.vinuni.edu.vn " ++ aidQuestion) (searchOptions 5);
     ConsoleLog "General query:";
     TavilySearch aidQuestion (searchOptions 5);
     OpenAICall (generationRequest "INSTRUCTION" aidQuestion [aidFromPolicy])].
Proof. reflexivity. Qed.

Example denied_with_file_answer_progress :
  filter (fun e => match e with Progress _ => true | _ => false end)
    (trace (dualSearchTool worldDeniedWithFileAnswer aidQuestion))
  = [Progress "file-search-start"; Progress "file-search-complete";
     Progress "tavily-search-start"; Progress "validate-query";
     Progress "tavily-search-denied"; Progress "combining-results"].
Proof. reflexivity. Qed.
(* ================================================================== *)
(** ** Facts about strings *)
(* ================================================================== *)

Lemma endsWith_unfold (s suffix : string) :
  endsWith s suffix =
  if String.eqb s suffix then true
  else match s with
       | EmptyString => false
       | String _ s' => endsWith s' suffix
       end.
Proof. destruct s; reflexivity. Qed.

Lemma endsWith_refl (s : string) : endsWith s s = true.
Proof. rewrite endsWith_unfold. now rewrite String.eqb_refl. Qed.

Lemma endsWith_append (p suffix : string) : endsWith (p ++ suffix) suffix = true.
Proof.
  induction p as [|c p IH].
  - apply endsWith_refl.
  - rewrite endsWith_unfold. cbn [append]. rewrite IH.
    now destruct (String.eqb _ _).
Qed.

Lemma endsWith_spec (s suffix : string) :
  endsWith s suffix = true <-> exists p, s = p ++ suffix.
Proof.
  split.
  - induction s as [|c s IH]; rewrite endsWith_unfold.
    + destruct (String.eqb_spec "" suffix) as [<-|]; [|discriminate].
      now exists "".
    + destruct (String.eqb_spec (String c s) suffix) as [<-|_].
      * now exists "".
      * intros H. destruct (IH H) as [p ->]. now exists (String c p).
  - intros [p ->]. apply endsWith_append.
Qed.

Lemma substring0_length (n : nat) (s : string) :
  String.length (substring0 n s) <= n.
Proof.
  unfold substring0. revert s.
  induction n as [|n IH]; intros [|c s]; simpl; auto with arith.
Qed.

Lemma append_assoc (s t u : string) : (s ++ t) ++ u = s ++ (t ++ u).
Proof. induction s as [|c s IH]; simpl; congruence. Qed.

Lemma append_length (s t : string) :
  String.length (s ++ t) = String.length s + String.length t.
Proof. induction s as [|c s IH]; simpl; congruence. Qed.

(* ================================================================== *)
(** ** Facts about the ranking step *)
(* ================================================================== *)

Lemma isPositive_spec (q : Q) : isPositive q = true <-> (0 < q)%Q.
Proof.
  unfold isPositive, Qlt. simpl. rewrite Z.ltb_lt. lia.
Qed.

Lemma compareFn_positive (x y : Result.t) :
  isPositive (compareFn x y) = true <-> (scoreOr0 x < scoreOr0 y)%Q.
Proof.
  rewrite isPositive_spec. unfold compareFn, Qminus.
  symmetry. apply Qlt_minus_iff.
Qed.

Lemma compareFn_not_positive (x y : Result.t) :
  isPositive (compareFn x y) = false <-> byScoreDescending x y.
Proof.
  unfold byScoreDescending. split.
  - intros H. apply Qnot_lt_le. intros Hlt.
    apply compareFn_positive in Hlt. congruence.
  - intros H. destruct (isPositive (compareFn x y)) eqn:E; [|reflexivity].
    apply compareFn_positive in E. now apply Qlt_not_le in E.
Qed.

Section SortFacts.

Context {A : Type}.
Variable comparefn : A -> A -> Q.

Lemma insertStable_perm (x : A) (l : list A) :
  Permutation (insertStable comparefn x l) (x :: l).
Proof.
  induction l as [|y l IH]; simpl.
  - reflexivity.
  - destruct (isPositive (comparefn x y)).
    + rewrite IH. apply perm_swap.
    + reflexivity.
Qed.

Lemma Array_sort_perm (l : list A) : Permutation (Array_sort comparefn l) l.
Proof.
  induction l as [|x l IH]; simpl.
  - reflexivity.
  - rewrite insertStable_perm. now constructor.
Qed.

Lemma insertStable_filter_length (p : A -> bool) (x : A) (l : list A) :
  length (filter p (insertStable comparefn x l)) = length (filter p (x :: l)).
Proof.
  induction l as [|y l IH]; simpl.
  - reflexivity.
  - destruct (isPositive (comparefn x y)); simpl.
    + simpl in IH. destruct (p y), (p x); simpl in *; lia.
    + reflexivity.
Qed.

Lemma Array_sort_filter_length (p : A -> bool) (l : list A) :
  length (filter p (Array_sort comparefn l)) = length (filter p l).
Proof.
  induction l as [|x l IH]; simpl.
  - reflexivity.
  - rewrite insertStable_filter_length. simpl.
    destruct (p x); simpl; lia.
Qed.

Lemma Array_sort_length (l : list A) :
  length (Array_sort comparefn l) = length l.
Proof. apply Permutation_length, Array_sort_perm. Qed.

End SortFacts.

Lemma firstn_filter_length {A} (p : A -> bool) (n : nat) (l : list A) :
  length (filter p (firstn n l)) <= length (filter p l).
Proof.
  revert n. induction l as [|x l IH]; intros [|n]; simpl; auto with arith.
  specialize (IH n). destruct (p x); simpl; lia.
Qed.

Lemma firstn_StronglySorted {A} (R : A -> A -> Prop) (n : nat) (l : list A) :
  StronglySorted R l -> StronglySorted R (firstn n l).
Proof.
  intros H. revert n.
  induction H as [|x l Hl IH Hx]; intros [|n]; simpl; try constructor.
  - apply IH.
  - rewrite Forall_forall in *. intros y Hy. apply Hx.
    rewrite <- (firstn_skipn n l). apply in_or_app. now left.
Qed.

Lemma insertStable_sorted (x : Result.t) (l : list Result.t) :
  StronglySorted byScoreDescending l ->
  StronglySorted byScoreDescending (insertStable compareFn x l).
Proof.
  induction 1 as [|y l Hl IH Hy]; simpl.
  - repeat constructor.
  - destruct (isPositive (compareFn x y)) eqn:E.
    + constructor; [exact IH|].
      apply (Permutation_Forall (x := x :: l)).
      * symmetry. apply insertStable_perm.
      * constructor; [|exact Hy].
        apply compareFn_positive in E. now apply Qlt_le_weak.
    + apply compareFn_not_positive in E.
      constructor; [now constructor|].
      constructor; [exact E|].
      rewrite Forall_forall in *. intros z Hz.
      unfold byScoreDescending in *.
      now apply Qle_trans with (scoreOr0 y); [apply Hy|].
Qed.

Lemma Array_sort_sorted (l : list Result.t) :
  StronglySorted byScoreDescending (Array_sort compareFn l).
Proof.
  induction l as [|x l IH]; simpl.
  - constructor.
  - now apply insertStable_sorted.
Qed.

(** An already ordered list is left as it is. *)
Lemma Array_sort_fixpoint (l : list Result.t) :
  StronglySorted byScoreDescending l -> Array_sort compareFn l = l.
Proof.
  induction 1 as [|x l Hl IH Hx]; simpl.
  - reflexivity.
  - rewrite IH. destruct l as [|y l']; simpl; [reflexivity|].
    inversion Hx as [|? ? Hxy _]; subst.
    apply compareFn_not_positive in Hxy. now rewrite Hxy.
Qed.

(** Stability: the results of any one score keep their relative order. *)
Lemma insertStable_stable (k : Q) (x : Result.t) (l : list Result.t) :
  filter (hasScore k) (insertStable compareFn x l) = filter (hasScore k) (x :: l).
Proof.
  induction l as [|y l IH]; simpl.
  - reflexivity.
  - destruct (isPositive (compareFn x y)) eqn:E; [|reflexivity].
    simpl. rewrite IH. simpl.
    destruct (hasScore k x) eqn:Ex, (hasScore k y) eqn:Ey; try reflexivity.
    exfalso. unfold hasScore in *.
    apply Qeq_bool_iff in Ex, Ey. apply compareFn_positive in E.
    rewrite Ex, Ey in E. now apply Qlt_irrefl in E.
Qed.

Lemma Array_sort_stable (k : Q) (l : list Result.t) :
  filter (hasScore k) (Array_sort compareFn l) = filter (hasScore k) l.
Proof.
  induction l as [|x l IH]; simpl.
  - reflexivity.
  - rewrite insertStable_stable. simpl. now rewrite IH.
Qed.

Lemma sortedResults_sorted (combined : list Result.t) :
  StronglySorted byScoreDescending (sortedResults combined).
Proof. apply firstn_StronglySorted, Array_sort_sorted. Qed.

Lemma sortedResults_length (combined : list Result.t) :
  length (sortedResults combined) <= 6.
Proof. apply firstn_le_length. Qed.

(* ================================================================== *)
(** ** Facts about computations *)
(* ================================================================== *)

Lemma bind_normal {A B} (m : M A) (k : A -> M B) (a : A) :
  completion m = Normal a ->
  bind m k = (completion (k a), (trace m ++ trace (k a))%list).
Proof. intros H. unfold bind. now rewrite H. Qed.

Lemma trace_bind {A B} (m : M A) (k : A -> M B) :
  trace (bind m k)
  = (trace m ++ match completion m with
                | Normal a => trace (k a)
                | Throw _ => []
                end)%list.
Proof. unfold bind. destruct (completion m); simpl; now rewrite ?app_nil_r. Qed.

Lemma trace_tryCatch {A} (m : M A) (h : Exn -> M A) :
  trace (tryCatch m h)
  = (trace m ++ match completion m with
                | Normal _ => []
                | Throw e => trace (h e)
                end)%list.
Proof. unfold tryCatch. destruct (completion m); simpl; now rewrite ?app_nil_r. Qed.

Lemma trace_bind_prefix {A B} (m : M A) (k : A -> M B) :
  exists rest, trace (bind m k) = (trace m ++ rest)%list.
Proof.
  unfold bind. destruct (completion m); simpl.
  - now eexists.
  - exists []. now rewrite app_nil_r.
Qed.

Lemma trace_tryCatch_prefix {A} (m : M A) (h : Exn -> M A) :
  exists rest, trace (tryCatch m h) = (trace m ++ rest)%list.
Proof.
  unfold tryCatch. destruct (completion m); simpl.
  - exists []. now rewrite app_nil_r.
  - now eexists.
Qed.

Lemma in_trace_bind_l {A B} (m : M A) (k : A -> M B) (x : Event) :
  In x (trace m) -> In x (trace (bind m k)).
Proof.
  intros H. destruct (trace_bind_prefix m k) as [rest ->].
  apply in_or_app. now left.
Qed.

Lemma in_trace_bind_r {A B} (m : M A) (k : A -> M B) (a : A) (x : Event) :
  completion m = Normal a -> In x (trace (k a)) -> In x (trace (bind m k)).
Proof.
  intros Hm H. rewrite (bind_normal _ _ _ Hm). simpl.
  apply in_or_app. now right.
Qed.

Lemma in_trace_tryCatch {A} (m : M A) (h : Exn -> M A) (x : Event) :
  In x (trace m) -> In x (trace (tryCatch m h)).
Proof.
  intros H. destruct (trace_tryCatch_prefix m h) as [rest ->].
  apply in_or_app. now left.
Qed.

Lemma writeData_completion (ds : bool) (step : string) :
  completion (writeData ds step) = Normal tt.
Proof. now destruct ds. Qed.


(** A handler that always returns makes the whole [try] return. *)
Lemma tryCatch_total {A} (m : M A) (h : Exn -> M A) :
  (forall e, exists a, completion (h e) = Normal a) ->
  exists a, completion (tryCatch m h) = Normal a.
Proof.
  intros Hh. unfold tryCatch. destruct (completion m) as [a|e]; simpl.
  - now exists a.
  - apply Hh.
Qed.

Lemma completion_ret {A} (a : A) : completion (ret a) = Normal a.
Proof. reflexivity. Qed.

Lemma completion_emit (e : Event) : completion (emit e) = Normal tt.
Proof. reflexivity. Qed.

Lemma completion_bind {A B} (m : M A) (k : A -> M B) :
  completion (bind m k)
  = match completion m with
    | Normal a => completion (k a)
    | Throw e => Throw e
    end.
Proof. unfold bind. now destruct (completion m). Qed.

Lemma completion_tryCatch {A} (m : M A) (h : Exn -> M A) :
  completion (tryCatch m h)
  = match completion m with
    | Normal a => Normal a
    | Throw e => completion (h e)
    end.
Proof. unfold tryCatch. now destruct (completion m). Qed.

Ltac run_completion :=
  repeat rewrite ?completion_tryCatch, ?completion_bind, ?writeData_completion,
    ?completion_ret, ?completion_emit.

Ltac run_completion_in H :=
  repeat rewrite ?completion_tryCatch, ?completion_bind, ?writeData_completion,
    ?completion_ret, ?completion_emit in H.

(* ================================================================== *)
(** ** Domain filter *)
(* ================================================================== *)

(** C3: [isVinUniDomain] fails closed on a URL that does not parse, and on
    a URL that parses it is true exactly when the lower-cased host is
    [vinuni.edu.vn] or ends with [.vinuni.edu.vn]; a host that only
    contains the domain without the separating dot is refused.  The three
    sample URLs give true, false and false. *)
Theorem isVinUniDomain_spec :
  (forall parseURL url,
      parseURL url = None -> isVinUniDomain_with parseURL url = false) /\
  (forall parseURL url host,
      parseURL url = Some host ->
      (isVinUniDomain_with parseURL url = true <->
       toLowerCase host = "vinuni.edu.vn" \/
       exists sub, toLowerCase host = sub ++ ".vinuni.edu.vn")) /\
  (forall parseURL url host,
      parseURL url = Some host ->
      toLowerCase host <> "vinuni.edu.vn" ->
      (forall sub, toLowerCase host <> sub ++ ".vinuni.edu.vn") ->
      isVinUniDomain_with parseURL url = false) /\
  isVinUniDomain "https://policy.vinuni.edu.vn/x" = true /\
  isVinUniDomain "https://evilvinuni.edu.vn/x" = false /\
  isVinUniDomain "not a url" = false.
Proof.
  assert (Hiff : forall parseURL url host,
             parseURL url = Some host ->
             (isVinUniDomain_with parseURL url = true <->
              toLowerCase host = "vinuni.edu.vn" \/
              exists sub, toLowerCase host = sub ++ ".vinuni.edu.vn")).
  { intros parseURL url host Hp. unfold isVinUniDomain_with. rewrite Hp.
    rewrite orb_true_iff, endsWith_spec, String.eqb_eq. tauto. }
  split; [|split; [exact Hiff|split]].
  - intros parseURL url Hp. unfold isVinUniDomain_with. now rewrite Hp.
  - intros parseURL url host Hp Hne Hsub.
    destruct (isVinUniDomain_with parseURL url) eqn:E; [|reflexivity].
    apply (Hiff _ _ _ Hp) in E. destruct E as [E|[sub E]].
    + contradiction.
    + now apply Hsub in E.
  - repeat split; reflexivity.
Qed.

Lemma isVinUniDomain_spec_witness :
  URL_hostname "https://evilvinuni.edu.vn/x" = Some "evilvinuni.edu.vn" /\
  isVinUniDomain_with URL_hostname "not a url" = false /\
  (isVinUniDomain_with URL_hostname "https://policy.vinuni.edu.vn/x" = true <->
   toLowerCase "policy.vinuni.edu.vn" = "vinuni.edu.vn" \/
   exists sub, toLowerCase "policy.vinuni.edu.vn" = sub ++ ".vinuni.edu.vn").
Proof.
  split; [reflexivity|split].
  - apply (proj1 isVinUniDomain_spec). reflexivity.
  - apply (proj1 (proj2 isVinUniDomain_spec)). reflexivity.
Defined.

(* ================================================================== *)
(** ** Ranking and merging *)
(* ================================================================== *)

(** C5: whatever result sets are concatenated, the ranked bundle has at
    most 6 entries, the relevance scores of its entries (the [score] field,
    a missing score counting as 0) do not increase, and it is the first 6
    entries of a reordering of the input in which the results of any one
    score keep their original relative order. *)
Theorem sortedResults_bounded_descending_stable :
  forall resultSets : list (list Result.t),
    let relevance := fun r : Result.t =>
                       match Result.score r with
                       | Some score => score
                       | None => 0%Q
                       end in
    let combined := concat resultSets in
    let merged := sortedResults combined in
    length merged <= 6 /\
    StronglySorted (fun a b => (relevance b <= relevance a)%Q) merged /\
    (forall r, scoreOr0 r = relevance r) /\
    exists ranked,
      merged = firstn 6 ranked /\
      Permutation ranked combined /\
      StronglySorted (fun a b => (relevance b <= relevance a)%Q) ranked /\
      forall k : Q,
        filter (fun r => Qeq_bool (relevance r) k) ranked =
        filter (fun r => Qeq_bool (relevance r) k) combined.
Proof.
  intros resultSets relevance combined merged. repeat split.
  - apply sortedResults_length.
  - apply sortedResults_sorted.
  - exists (Array_sort compareFn combined). repeat split.
    + apply Array_sort_perm.
    + apply Array_sort_sorted.
    + intros k. apply Array_sort_stable.
Qed.

(** C6: ranking is idempotent: ranking the single set that a ranking of
    [A] and [B] produced gives that set back. *)
Theorem sortedResults_idempotent :
  forall A B : list Result.t,
    sortedResults (concat [sortedResults (combinedResults A B)]) =
    sortedResults (combinedResults A B).
Proof.
  intros A B. simpl. rewrite app_nil_r.
  set (m := sortedResults (combinedResults A B)).
  unfold sortedResults at 1.
  rewrite Array_sort_fixpoint by apply sortedResults_sorted.
  apply firstn_all2, sortedResults_length.
Qed.

(** C2 fails: two result sets that share a URL, with different scores,
    leave two entries for that URL in the ranked bundle. *)
Lemma sortedResults_keeps_duplicate_url :
  In aidFromPolicy [aidFromPolicy] /\
  In aidFromWeb (topGeneralResults (filterVinUniResults [aidFromWeb])) /\
  Result.url aidFromPolicy = Result.url aidFromWeb /\
  sortedResults
    (combinedResults [aidFromPolicy]
       (topGeneralResults (filterVinUniResults [aidFromWeb])))
  = [aidFromPolicy; aidFromWeb] /\
  countUrl "https://policy.vinuni.edu.vn/aid"
    (sortedResults
       (combinedResults [aidFromPolicy]
          (topGeneralResults (filterVinUniResults [aidFromWeb])))) = 2.
Proof. repeat split; simpl; auto. Qed.

(** C2, amended: the ranking step does not de-duplicate.  A URL occurs in
    the ranked bundle at most as often as in the concatenation of the
    result sets, and exactly as often when the concatenation has at most 6
    entries. *)
Theorem sortedResults_no_dedup :
  forall (policyResults topGeneral : list Result.t) (u : string),
    let combined := combinedResults policyResults topGeneral in
    countUrl u (sortedResults combined)
    <= countUrl u policyResults + countUrl u topGeneral /\
    (length combined <= 6 ->
     countUrl u (sortedResults combined)
     = countUrl u policyResults + countUrl u topGeneral).
Proof.
  intros policyResults topGeneral u combined.
  assert (Hc : countUrl u combined
               = countUrl u policyResults + countUrl u topGeneral).
  { unfold countUrl, combined, combinedResults.
    now rewrite filter_app, length_app. }
  rewrite <- Hc. unfold countUrl, sortedResults. split.
  - rewrite <- (Array_sort_filter_length compareFn (hasUrl u) combined).
    apply firstn_filter_length.
  - intros Hlen. rewrite firstn_all2.
    + apply Array_sort_filter_length.
    + now rewrite Array_sort_length.
Qed.

Lemma sortedResults_no_dedup_witness :
  countUrl "https://policy.vinuni.edu.vn/aid"
    (sortedResults (combinedResults [aidFromPolicy] [aidFromWeb]))
  = countUrl "https://policy.vinuni.edu.vn/aid" [aidFromPolicy]
    + countUrl "https://policy.vinuni.edu.vn/aid" [aidFromWeb].
Proof.
  apply (proj2 (sortedResults_no_dedup [aidFromPolicy] [aidFromWeb]
                  "https://policy.vinuni.edu.vn/aid")).
  simpl. lia.
Defined.

(* ================================================================== *)
(** ** The query classifier *)
(* ================================================================== *)

Lemma validateVinUniQuery_denies openai_create prompt query :
  classifierDenies openai_create prompt query ->
  validateVinUniQuery openai_create prompt query
  = (Normal {| isValid := false; reason := Some VALIDATION_REASON |},
     [OpenAICall (validationRequest prompt query)]).
Proof.
  intros (response & text & Hcall & Hcontent & Htrim).
  unfold validateVinUniQuery, tryCatch, bind, openai_chat_completions_create,
    liftCompletion, completion, trace.
  cbn [fst snd]. rewrite Hcall, Hcontent. cbn [fst snd option_map].
  rewrite Htrim. reflexivity.
Qed.

Lemma validateVinUniQuery_fails openai_create prompt query :
  classifierFails openai_create prompt query ->
  validateVinUniQuery openai_create prompt query
  = (Normal {| isValid := true; reason := None |},
     trace (validateVinUniQuery openai_create prompt query)).
Proof.
  unfold classifierFails, validateVinUniQuery, tryCatch, bind,
    openai_chat_completions_create, liftCompletion, completion, trace.
  cbn [fst snd].
  destruct (openai_create (validationRequest prompt query)) as [response|e];
    [|reflexivity].
  destruct (firstContent response) as [[text|]|e]; cbn [fst snd option_map];
    [contradiction|reflexivity|reflexivity].
Qed.

Lemma validateVinUniQuery_total openai_create prompt query :
  exists v, completion (validateVinUniQuery openai_create prompt query) = Normal v.
Proof.
  apply tryCatch_total. intros e. now eexists.
Qed.


(** The site-restricted search is the first thing the dual domain search
    asks Tavily. *)
Lemma performDualDomainSearch_issues_policy_search tavily_search ds keywords :
  In (TavilySearch ("site:policy.vinuni.edu.vn " ++ keywords)
        (searchOptions MAX_RESULTS_PER_DOMAIN))
     (trace (performDualDomainSearch tavily_search ds keywords)).
Proof.
  unfold performDualDomainSearch.
  apply in_trace_tryCatch.
  eapply in_trace_bind_r; [apply writeData_completion|].
  eapply in_trace_bind_r; [reflexivity|].
  apply in_trace_bind_l. now left.
Qed.

(** C7: the classifier fails open.  When the classification call is
    rejected or its response is malformed, [validateVinUniQuery] returns
    [isValid = true], and [fetchTavilyFileSearch] goes on to search. *)
Theorem validateVinUniQuery_fails_open :
  forall openai_create tavily_search prompt instruction ds query,
    classifierFails openai_create prompt query ->
    completion (validateVinUniQuery openai_create prompt query)
    = Normal {| isValid := true; reason := None |} /\
    In (TavilySearch ("site:policy.vinuni.edu.vn " ++ query)
          (searchOptions MAX_RESULTS_PER_DOMAIN))
       (trace (fetchTavilyFileSearch openai_create tavily_search prompt
                 instruction ds query)).
Proof.
  intros openai_create tavily_search prompt instruction ds query Hfail.
  pose proof (validateVinUniQuery_fails _ _ _ Hfail) as Hv.
  assert (Hc : completion (validateVinUniQuery openai_create prompt query)
               = Normal {| isValid := true; reason := None |})
    by now rewrite Hv.
  split; [exact Hc|].
  unfold fetchTavilyFileSearch.
  apply in_trace_tryCatch.
  eapply in_trace_bind_r; [apply writeData_completion|].
  eapply in_trace_bind_r; [exact Hc|].
  cbn [isValid negb].
  eapply in_trace_bind_r; [apply writeData_completion|].
  eapply in_trace_bind_r; [apply writeData_completion|].
  apply in_trace_bind_l.
  apply performDualDomainSearch_issues_policy_search.
Qed.

Lemma validateVinUniQuery_fails_open_witness :
  completion (validateVinUniQuery (openai worldClassifierDown) "TOPICS" aidQuestion)
  = Normal {| isValid := true; reason := None |} /\
  In (TavilySearch ("site:policy.vinuni.edu.vn " ++ aidQuestion)
        (searchOptions MAX_RESULTS_PER_DOMAIN))
     (trace (fetchTavilyFileSearch (openai worldClassifierDown)
               (tavily worldClassifierDown) "TOPICS" "INSTRUCTION" false
               aidQuestion)).
Proof.
  apply (validateVinUniQuery_fails_open (openai worldClassifierDown)
           (tavily worldClassifierDown) "TOPICS" "INSTRUCTION" false
           aidQuestion).
  exact I.
Defined.

(* ================================================================== *)
(** ** The dual domain search and the synthesizer *)
(* ================================================================== *)

Ltac unfold_js :=
  unfold tryCatch, bind, ret, throw, emit, liftCompletion, writeData,
    openai_chat_completions_create, tavilyClient_search, completion, trace
    in *;
  cbn [fst snd] in *.

(** What the dual domain search returns, in terms of the two Tavily
    responses. *)
Lemma performDualDomainSearch_returns tavily_search ds keywords sr :
  completion (performDualDomainSearch tavily_search ds keywords) = Normal sr ->
  exists policyResponse generalResponse,
    tavily_search ("site:policy.vinuni.edu.vn " ++ keywords)
      (searchOptions MAX_RESULTS_PER_DOMAIN) = Normal policyResponse /\
    tavily_search keywords (searchOptions MAX_GENERAL_RESULTS)
    = Normal generalResponse /\
    SearchResponse.results sr
    = sortedResults
        (combinedResults (resultsOrEmpty policyResponse)
           (topGeneralResults
              (filterVinUniResults (resultsOrEmpty generalResponse)))) /\
    SearchResponse.totalCount sr = length (SearchResponse.results sr).
Proof.
  unfold performDualDomainSearch. unfold_js.
  destruct ds; cbn [fst snd];
    destruct (tavily_search ("site:policy.vinuni.edu.vn " ++ keywords)
                (searchOptions MAX_RESULTS_PER_DOMAIN)) as [P|e];
    cbn [fst snd]; try discriminate;
    destruct (tavily_search keywords (searchOptions MAX_GENERAL_RESULTS))
      as [G|e']; cbn [fst snd]; try discriminate;
    intros [= <-]; exists P, G; repeat split; reflexivity.
Qed.

Lemma generateAnswerWithContext_returns openai_create instruction query
    evidence (c : ascii) (s : string) :
  generatorReturns openai_create instruction query evidence (String c s) ->
  completion (generateAnswerWithContext openai_create instruction query evidence)
  = Normal (String c s).
Proof.
  intros (response & Hcall & Hcontent).
  unfold generateAnswerWithContext.
  rewrite completion_tryCatch, completion_bind.
  unfold openai_chat_completions_create at 1. unfold completion at 1.
  cbn [fst]. rewrite Hcall, completion_bind.
  unfold liftCompletion at 1. unfold completion at 1. cbn [fst].
  now rewrite Hcontent.
Qed.

(** C8: with a non-empty evidence bundle [E] and a generator that answers
    exactly [NOT_FOUND], [fetchTavilyFileSearch] returns the not-found
    answer, without a denial flag, and its citations are the projection
    [formatCitations E] of the evidence. *)
Theorem fetchTavilyFileSearch_not_found :
  forall openai_create tavily_search prompt instruction ds query v sr,
    completion (validateVinUniQuery openai_create prompt query) = Normal v ->
    isValid v = true ->
    completion (performDualDomainSearch tavily_search ds query) = Normal sr ->
    SearchResponse.results sr <> [] ->
    generatorReturns openai_create instruction query
      (SearchResponse.results sr) "NOT_FOUND" ->
    completion (fetchTavilyFileSearch openai_create tavily_search prompt
                  instruction ds query)
    = Normal {| TavilyAnswer.answer := NOT_FOUND_MESSAGE;
                TavilyAnswer.citations :=
                  formatCitations (SearchResponse.results sr);
                TavilyAnswer.denied := None;
                TavilyAnswer.searchQuery := None;
                TavilyAnswer.keywords := None;
                TavilyAnswer.searchStats := Some (statsOf sr) |}.
Proof.
  intros openai_create tavily_search prompt instruction ds query v sr
    Hv Hvalid Hsr Hne Hgen.
  destruct (performDualDomainSearch_returns _ _ _ _ Hsr)
    as (_ & _ & _ & _ & _ & Hcount).
  assert (Hpos : (SearchResponse.totalCount sr =? 0) = false).
  { rewrite Hcount. destruct (SearchResponse.results sr); [congruence|reflexivity]. }
  apply generateAnswerWithContext_returns in Hgen.
  unfold fetchTavilyFileSearch.
  rewrite completion_tryCatch, completion_bind, writeData_completion.
  rewrite completion_bind, Hv, Hvalid. cbn [negb].
  rewrite completion_bind, writeData_completion.
  rewrite completion_bind, writeData_completion.
  rewrite completion_bind, Hsr, Hpos.
  rewrite completion_bind, writeData_completion.
  rewrite completion_bind, writeData_completion.
  rewrite completion_bind, Hgen.
  reflexivity.
Qed.

Lemma fetchTavilyFileSearch_not_found_witness :
  completion (fetchTavilyFileSearch (openai worldClassifierDown)
                (tavily worldClassifierDown) "TOPICS" "INSTRUCTION" false
                aidQuestion)
  = Normal {| TavilyAnswer.answer := NOT_FOUND_MESSAGE;
              TavilyAnswer.citations := formatCitations [aidFromPolicy];
              TavilyAnswer.denied := None;
              TavilyAnswer.searchQuery := None;
              TavilyAnswer.keywords := None;
              TavilyAnswer.searchStats :=
                Some {| policyResults := 1;
                        vinUniDomainResults := 0;
                        totalResults := 1;
                        stats_generalSearchTotal := 0;
                        stats_filteredFromGeneral := 0 |} |}.
Proof.
  apply (fetchTavilyFileSearch_not_found (openai worldClassifierDown)
           (tavily worldClassifierDown) "TOPICS" "INSTRUCTION" false
           aidQuestion {| isValid := true; reason := None |}
           {| SearchResponse.results := [aidFromPolicy];
              SearchResponse.policyCount := 1;
              SearchResponse.mainCount := 0;
              SearchResponse.totalCount := 1;
              SearchResponse.generalSearchTotal := 0;
              SearchResponse.filteredFromGeneral := 0 |}).
  - reflexivity.
  - reflexivity.
  - reflexivity.
  - discriminate.
  - exists (chatReply "NOT_FOUND"). split; reflexivity.
Defined.

(* ================================================================== *)
(** ** Citations *)
(* ================================================================== *)

Lemma contentPreview_length (citation : Citation.t) :
  String.length (contentPreview citation) <= 153.
Proof.
  unfold contentPreview.
  destruct (Citation.content citation) as [[|c s]|].
  - cbv. lia.
  - rewrite append_length.
    pose proof (substring0_length 150 (String c s)) as H.
    change (String.length "...") with 3. lia.
  - cbv. lia.
Qed.

(** The citations [fetchTavilyFileSearch] returns are empty or the
    projection of the ranked search results. *)
Lemma fetchTavilyFileSearch_citations
    openai_create tavily_search prompt instruction ds query t :
  completion (fetchTavilyFileSearch openai_create tavily_search prompt
                instruction ds query) = Normal t ->
  TavilyAnswer.citations t = [] \/
  exists sr,
    completion (performDualDomainSearch tavily_search ds query) = Normal sr /\
    TavilyAnswer.citations t = formatCitations (SearchResponse.results sr).
Proof.
  unfold fetchTavilyFileSearch.
  rewrite completion_tryCatch, completion_bind, writeData_completion.
  rewrite completion_bind.
  destruct (validateVinUniQuery_total openai_create prompt query) as [v ->].
  destruct (isValid v); cbn [negb].
  2:{ intros [= <-]. now left. }
  rewrite completion_bind, writeData_completion.
  rewrite completion_bind, writeData_completion.
  rewrite completion_bind.
  destruct (completion (performDualDomainSearch tavily_search ds query))
    as [sr|e] eqn:Hsr.
  2:{ intros [= <-]. now left. }
  destruct (SearchResponse.totalCount sr =? 0).
  { intros [= <-]. now left. }
  rewrite completion_bind, writeData_completion.
  rewrite completion_bind, writeData_completion.
  rewrite completion_bind.
  destruct (completion (generateAnswerWithContext openai_create instruction
                          query (SearchResponse.results sr))) as [answer|e].
  2:{ intros [= <-]. now left. }
  destruct (String.eqb answer "DENIED").
  { intros [= <-]. now left. }
  destruct (String.eqb answer "NOT_FOUND"); intros [= <-]; right;
    exists sr; split; reflexivity.
Qed.

(** C9 fails: the citation of a page with 400 characters of raw text carries
    all 400 of them, in a field called [content]. *)
Lemma formatCitations_content_not_truncated :
  (exists t,
      completion (tavilyFileSearchOf worldLongDocument aidQuestion) = Normal t /\
      TavilyAnswer.citations t = formatCitations [longDocument]) /\
  map (fun c => option_map String.length (Citation.content c))
      (formatCitations [longDocument]) = [Some 400] /\
  ~ (forall results c s,
        In c (formatCitations results) ->
        Citation.content c = Some s -> String.length s <= 150).
Proof.
  split; [|split].
  - eexists. split; reflexivity.
  - reflexivity.
  - intros H.
    specialize (H [longDocument] _ _ (or_introl eq_refl) eq_refl).
    vm_compute in H. lia.
Qed.

(** C9, amended: every citation returned to the caller has the four fields
    [title], [url], [content], [score], copied from one of the ranked
    search results; [content] is that result's whole [rawContent], of any
    length or missing, and the other fields of the result are left out.
    The preview of at most 150 characters plus an ellipsis is only made
    when a citation is displayed. *)
Theorem formatCitations_shape :
  forall openai_create tavily_search prompt instruction ds query t c,
    completion (fetchTavilyFileSearch openai_create tavily_search prompt
                  instruction ds query) = Normal t ->
    In c (TavilyAnswer.citations t) ->
    (exists sr result,
        completion (performDualDomainSearch tavily_search ds query) = Normal sr /\
        In result (SearchResponse.results sr) /\
        c = {| Citation.title := Result.title result;
               Citation.url := Result.url result;
               Citation.content := Result.rawContent result;
               Citation.score := Result.score result |}) /\
    String.length (contentPreview c) <= 153.
Proof.
  intros openai_create tavily_search prompt instruction ds query t c Ht Hc.
  split; [|apply contentPreview_length].
  destruct (fetchTavilyFileSearch_citations _ _ _ _ _ _ _ Ht) as [E|(sr & Hsr & E)];
    rewrite E in Hc.
  - destruct Hc.
  - unfold formatCitations in Hc. apply in_map_iff in Hc.
    destruct Hc as (result & <- & Hin). now exists sr, result.
Qed.

Lemma formatCitations_shape_witness :
  exists sr result,
    completion (performDualDomainSearch (tavily worldLongDocument) false
                  aidQuestion) = Normal sr /\
    In result (SearchResponse.results sr) /\
    {| Citation.title := "Academic regulations";
       Citation.url := Some "https://policy.vinuni.edu.vn/regulations";
       Citation.content := Some (repeatString 40 "regulation");
       Citation.score := Some (8 # 10)%Q |}
    = {| Citation.title := Result.title result;
         Citation.url := Result.url result;
         Citation.content := Result.rawContent result;
         Citation.score := Result.score result |}.
Proof.
  apply (proj1 (formatCitations_shape (openai worldLongDocument)
           (tavily worldLongDocument) "TOPICS" "INSTRUCTION" false aidQuestion
           {| TavilyAnswer.answer := "See the academic regulations.";
              TavilyAnswer.citations := formatCitations [longDocument];
              TavilyAnswer.denied := None;
              TavilyAnswer.searchQuery := Some aidQuestion;
              TavilyAnswer.keywords := Some aidQuestion;
              TavilyAnswer.searchStats :=
                Some {| policyResults := 1;
                        vinUniDomainResults := 0;
                        totalResults := 1;
                        stats_generalSearchTotal := 0;
                        stats_filteredFromGeneral := 0 |} |}
           _ eq_refl (or_introl eq_refl))).
Defined.

(* ================================================================== *)
(** ** Denied queries *)
(* ================================================================== *)



(* ================================================================== *)
(** ** The dual search tool *)
(* ================================================================== *)

Section DualSearchFacts.

Variable VECTOR_STORE_ID : option string.
Variable TAVILY_API_KEY : option string.
Variable fetchFileSearch : string -> string -> M (option FileSearchResult.t).
Variable fetchTavily : string -> M TavilyAnswer.t.
Variable ds : bool.
Variable query : string.

(** Step 1 always returns, and sets [hasFileResults] exactly when the
    file search gave a meaningful answer. *)
Lemma searchFileDatabase_returns :
  exists st,
    completion (searchFileDatabase VECTOR_STORE_ID fetchFileSearch ds query)
    = Normal st /\
    hasTavilyResults st = false /\
    match fileAnswerOf VECTOR_STORE_ID fetchFileSearch query with
    | Some a =>
        hasFileResults st = true /\
        combinedAnswer st = "## File Database Results" ++ nl ++ nl ++ a /\
        combinedCitations st = fileCitationsOf (fileSearchResults st)
    | None =>
        hasFileResults st = false /\
        combinedAnswer st = "" /\
        combinedCitations st = []
    end.
Proof.
  unfold searchFileDatabase, fileAnswerOf.
  rewrite completion_bind, writeData_completion.
  destruct VECTOR_STORE_ID as [[|c s]|].
  - rewrite completion_bind, writeData_completion.
    eexists; repeat split; reflexivity.
  - rewrite completion_tryCatch, completion_bind.
    destruct (completion (fetchFileSearch query (String c s))) as [r|e].
    + destruct (meaningfulFileAnswer r) as [a|] eqn:Ha;
        rewrite completion_bind, writeData_completion;
        eexists; repeat split; reflexivity.
    + rewrite completion_bind. cbn [completion emit fst].
      rewrite completion_bind, writeData_completion.
      eexists; repeat split; reflexivity.
  - rewrite completion_bind, writeData_completion.
    eexists; repeat split; reflexivity.
Qed.

End DualSearchFacts.

(** Where a denial of [fetchTavilyFileSearch] comes from: the classifier
    denied the query, or the generator answered the token [DENIED]. *)
Lemma validateVinUniQuery_invalid openai_create prompt query v :
  completion (validateVinUniQuery openai_create prompt query) = Normal v ->
  isValid v = false ->
  classifierDenies openai_create prompt query.
Proof.
  unfold validateVinUniQuery.
  rewrite completion_tryCatch, completion_bind.
  unfold openai_chat_completions_create at 1. unfold completion at 1.
  cbn [fst].
  destruct (openai_create (validationRequest prompt query)) as [response|e]
    eqn:Hcall.
  2:{ run_completion. intros [= <-]. discriminate. }
  rewrite completion_bind. unfold liftCompletion at 1. unfold completion at 1.
  cbn [fst].
  destruct (firstContent response) as [[text|]|e] eqn:Hcontent;
    cbn [option_map]; run_completion;
    try (intros [= <-]; discriminate).
  destruct (String.eqb_spec (trim text) "DENIED") as [Htrim|_];
    run_completion; intros [= <-]; [|discriminate].
  intros _. now exists response, text.
Qed.

Lemma fetchTavilyFileSearch_denied_origin
    openai_create tavily_search prompt instruction ds query t :
  completion (fetchTavilyFileSearch openai_create tavily_search prompt
                instruction ds query) = Normal t ->
  truthy_flag (TavilyAnswer.denied t) = true ->
  classifierDenies openai_create prompt query \/
  exists sr,
    completion (performDualDomainSearch tavily_search ds query) = Normal sr /\
    completion (generateAnswerWithContext openai_create instruction query
                  (SearchResponse.results sr)) = Normal "DENIED".
Proof.
  unfold fetchTavilyFileSearch.
  rewrite completion_tryCatch, completion_bind, writeData_completion.
  rewrite completion_bind.
  destruct (validateVinUniQuery_total openai_create prompt query) as [v Hv].
  rewrite Hv.
  destruct (isValid v) eqn:Hvalid; cbn [negb].
  2:{ intros _ _. left. now apply (validateVinUniQuery_invalid _ _ _ v). }
  rewrite completion_bind, writeData_completion.
  rewrite completion_bind, writeData_completion.
  rewrite completion_bind.
  destruct (completion (performDualDomainSearch tavily_search ds query))
    as [sr|e] eqn:Hsr.
  2:{ run_completion. intros [= <-]. discriminate. }
  destruct (SearchResponse.totalCount sr =? 0).
  { intros [= <-]. discriminate. }
  rewrite completion_bind, writeData_completion.
  rewrite completion_bind, writeData_completion.
  rewrite completion_bind.
  destruct (completion (generateAnswerWithContext openai_create instruction
                          query (SearchResponse.results sr)))
    as [answer|e] eqn:Hgen.
  2:{ run_completion. intros [= <-]. discriminate. }
  destruct (String.eqb_spec answer "DENIED") as [->|_].
  { intros _ _. right. now exists sr. }
  destruct (String.eqb answer "NOT_FOUND"); intros [= <-]; discriminate.
Qed.

Lemma meaningfulTavilyAnswer_not_denied (t : TavilyAnswer.t) :
  truthy_flag (TavilyAnswer.denied t) = true -> meaningfulTavilyAnswer t = false.
Proof.
  intros H. unfold meaningfulTavilyAnswer. rewrite H.
  now rewrite andb_false_r.
Qed.

Section CombineFacts.

Variable VECTOR_STORE_ID : option string.
Variable TAVILY_API_KEY : option string.
Variable ds : bool.

Lemma combineResults_returns (st : Locals) :
  exists r,
    completion (combineResults VECTOR_STORE_ID TAVILY_API_KEY ds st) = Normal r /\
    DualAnswer.denied r = None.
Proof.
  unfold combineResults. run_completion.
  destruct (negb (hasFileResults st) && negb (hasTavilyResults st));
    run_completion; eexists; split; reflexivity.
Qed.

(** Only the file search contributed. *)
Lemma combineResults_file_only (st : Locals) (r : DualAnswer.t) :
  hasFileResults st = true ->
  hasTavilyResults st = false ->
  completion (combineResults VECTOR_STORE_ID TAVILY_API_KEY ds st) = Normal r ->
  DualAnswer.citations r = combinedCitations st /\
  DualAnswer.answer r
  = combinedAnswer st ++ nl ++ nl ++ "*Results from file database ("
    ++ string_of_nat (fileCitationCount (fileSearchResults st))
    ++ " sources). Policy documents search "
    ++ (if truthy_string TAVILY_API_KEY
        then "found no additional relevant information."
        else "was unavailable.") ++ "*".
Proof.
  intros Hf Ht. unfold combineResults. run_completion.
  rewrite Hf, Ht. cbn [negb andb]. run_completion.
  intros [= <-]. split; reflexivity.
Qed.

(** Whatever contributed, a file answer stays at the head. *)
Lemma combineResults_keeps_head (st : Locals) (r : DualAnswer.t) :
  hasFileResults st = true ->
  completion (combineResults VECTOR_STORE_ID TAVILY_API_KEY ds st) = Normal r ->
  exists rest, DualAnswer.answer r = combinedAnswer st ++ rest.
Proof.
  intros Hf. unfold combineResults. run_completion.
  rewrite Hf. cbn [negb andb]. run_completion.
  intros [= <-]. now eexists.
Qed.

End CombineFacts.

(** C10: [execute] returns a denied outcome exactly when the Tavily search
    ran, returned a denial, and the file search gave no meaningful answer;
    the denied outcome has no citations and carries the Tavily answer.
    When the file search gave a meaningful answer the outcome is never
    denied and starts with the file answer; if the Tavily search denies
    then, the outcome is the file answer with its citations and the note
    that the policy documents added nothing. *)
Theorem execute_denied_only_without_file_results :
  forall VECTOR_STORE_ID TAVILY_API_KEY fetchFileSearch fetchTavily ds query r,
    completion (execute VECTOR_STORE_ID TAVILY_API_KEY fetchFileSearch
                  fetchTavily ds query) = Normal r ->
    (DualAnswer.denied r = Some true <->
     truthy_string TAVILY_API_KEY = true /\
     fileAnswerOf VECTOR_STORE_ID fetchFileSearch query = None /\
     exists t, completion (fetchTavily query) = Normal t /\
               truthy_flag (TavilyAnswer.denied t) = true) /\
    (DualAnswer.denied r = Some true ->
     DualAnswer.citations r = [] /\
     exists t, completion (fetchTavily query) = Normal t /\
               DualAnswer.answer r = TavilyAnswer.answer t) /\
    (forall a,
        fileAnswerOf VECTOR_STORE_ID fetchFileSearch query = Some a ->
        DualAnswer.denied r = None /\
        exists rest,
          DualAnswer.answer r
          = "## File Database Results" ++ nl ++ nl ++ a ++ rest) /\
    (forall a t,
        fileAnswerOf VECTOR_STORE_ID fetchFileSearch query = Some a ->
        truthy_string TAVILY_API_KEY = true ->
        completion (fetchTavily query) = Normal t ->
        truthy_flag (TavilyAnswer.denied t) = true ->
        exists st,
          completion (searchFileDatabase VECTOR_STORE_ID fetchFileSearch ds query)
          = Normal st /\
          DualAnswer.denied r = None /\
          DualAnswer.citations r = fileCitationsOf (fileSearchResults st) /\
          DualAnswer.answer r
          = "## File Database Results" ++ nl ++ nl ++ a ++ nl ++ nl
            ++ "*Results from file database ("
            ++ string_of_nat (fileCitationCount (fileSearchResults st))
            ++ " sources). Policy documents search found no additional relevant information.*").
Proof.
  intros VECTOR_STORE_ID TAVILY_API_KEY fetchFileSearch fetchTavily ds query r H.
  unfold execute in H.
  rewrite completion_tryCatch, completion_bind in H.
  destruct (searchFileDatabase_returns VECTOR_STORE_ID fetchFileSearch ds query)
    as (st & Hst & HnoT & Hfile).
  rewrite Hst in H. rewrite completion_bind in H.
  unfold searchTavily in H.
  rewrite completion_bind, writeData_completion in H.
  assert (Hhead : forall a st' r',
             fileAnswerOf VECTOR_STORE_ID fetchFileSearch query = Some a ->
             hasFileResults st' = true ->
             (exists mid, combinedAnswer st' = combinedAnswer st ++ mid) ->
             completion (combineResults VECTOR_STORE_ID TAVILY_API_KEY ds st')
             = Normal r' ->
             exists rest,
               DualAnswer.answer r'
               = "## File Database Results" ++ nl ++ nl ++ a ++ rest).
  { intros a st' r' Ha Hf' [mid Hmid] Hr'. rewrite Ha in Hfile.
    destruct Hfile as (_ & Hans & _).
    destruct (combineResults_keeps_head _ _ _ _ _ Hf' Hr') as [rest ->].
    rewrite Hmid, Hans, !append_assoc. now eexists. }
  destruct (truthy_string TAVILY_API_KEY) eqn:Hkey.
  - run_completion_in H.
    destruct (completion (fetchTavily query)) as [t|e] eqn:Ht.
    + destruct (meaningfulTavilyAnswer t) eqn:Hm.
      * run_completion_in H.
        match type of H with
        | context [combineResults ?a ?b ?c ?s] =>
            destruct (combineResults_returns a b c s) as (r0 & Hr0 & Hd0)
        end.
        rewrite Hr0 in H. injection H as <-.
        split; [|split; [|split]].
        -- split; [congruence|].
           intros (_ & _ & t' & [= <-] & Hd).
           apply meaningfulTavilyAnswer_not_denied in Hd. congruence.
        -- congruence.
        -- intros a Ha. split; [exact Hd0|].
           apply (Hhead a _ _ Ha) in Hr0; [exact Hr0| |].
           ++ cbn [hasFileResults]. rewrite Ha in Hfile. tauto.
           ++ cbn [combinedAnswer]. rewrite Ha in Hfile.
              destruct Hfile as (-> & _). now eexists.
        -- intros a t' _ _ [= <-] Hd.
           apply meaningfulTavilyAnswer_not_denied in Hd. congruence.
      * destruct (truthy_flag (TavilyAnswer.denied t)) eqn:Hden.
        -- run_completion_in H.
           destruct (fileAnswerOf VECTOR_STORE_ID fetchFileSearch query)
             as [a|] eqn:Ha; destruct Hfile as (Hf & Hans & Hcites);
             rewrite Hf in H; cbn [negb] in H; run_completion_in H.
           ++ match type of H with
              | context [combineResults ?a ?b ?c ?s] =>
                  destruct (combineResults_returns a b c s) as (r0 & Hr0 & Hd0)
              end.
              rewrite Hr0 in H. injection H as <-.
              apply combineResults_file_only in Hr0; [|reflexivity|reflexivity].
              cbn [combinedCitations combinedAnswer fileSearchResults] in Hr0.
              destruct Hr0 as (Hc0 & Ha0).
              split; [|split; [|split]].
              ** split; [congruence|]. intros (_ & [=] & _).
              ** congruence.
              ** intros a' [= <-]. split; [exact Hd0|].
                 rewrite Ha0, Hans, !append_assoc. now eexists.
              ** intros a' t' [= <-] _ [= <-] _. exists st.
                 split; [exact Hst|]. split; [exact Hd0|].
                 split; [congruence|].
                 rewrite Ha0, Hans, Hkey, !append_assoc. reflexivity.
           ++ injection H as <-.
              cbn [DualAnswer.denied DualAnswer.citations DualAnswer.answer].
              split; [|split; [|split]].
              ** split; [|reflexivity]. intros _.
                 split; [reflexivity|]. split; [reflexivity|]. now exists t.
              ** intros _. split; [reflexivity|]. now exists t.
              ** intros a' [=].
              ** intros a' t' [=].
        -- run_completion_in H.
           match type of H with
           | context [combineResults ?a ?b ?c ?s] =>
               destruct (combineResults_returns a b c s) as (r0 & Hr0 & Hd0)
           end.
           rewrite Hr0 in H. injection H as <-.
           split; [|split; [|split]].
           ++ split; [congruence|].
              intros (_ & _ & t' & [= <-] & Hd). congruence.
           ++ congruence.
           ++ intros a Ha. split; [exact Hd0|].
              apply (Hhead a _ _ Ha) in Hr0; [exact Hr0| |].
              ** cbn [hasFileResults]. rewrite Ha in Hfile. tauto.
              ** cbn [combinedAnswer]. exists "".
                 clear. induction (combinedAnswer st); simpl; congruence.
           ++ intros a t' _ _ [= <-] Hd. congruence.
    + run_completion_in H.
      match type of H with
      | context [combineResults ?a ?b ?c ?s] =>
          destruct (combineResults_returns a b c s) as (r0 & Hr0 & Hd0)
      end.
      rewrite Hr0 in H. injection H as <-.
      split; [|split; [|split]].
      * split; [congruence|]. intros (_ & _ & t' & [=] & _).
      * congruence.
      * intros a Ha. split; [exact Hd0|].
        apply (Hhead a _ _ Ha) in Hr0; [exact Hr0| |].
        -- rewrite Ha in Hfile. tauto.
        -- exists "". clear. induction (combinedAnswer st); simpl; congruence.
      * intros a t' _ _ [=].
  - run_completion_in H.
    match type of H with
    | context [combineResults ?a ?b ?c ?s] =>
        destruct (combineResults_returns a b c s) as (r0 & Hr0 & Hd0)
    end.
    rewrite Hr0 in H. injection H as <-.
    split; [|split; [|split]].
    + split; [congruence|]. intros ([=] & _).
    + congruence.
    + intros a Ha. split; [exact Hd0|].
      apply (Hhead a _ _ Ha) in Hr0; [exact Hr0| |].
      * rewrite Ha in Hfile. tauto.
      * exists "". clear. induction (combinedAnswer st); simpl; congruence.
    + intros a t' _ [=].
Qed.


Lemma execute_denied_only_without_file_results_witness :
  exists r,
    completion (dualSearchTool worldDeniedWithFileAnswer aidQuestion) = Normal r /\
    exists st,
      completion (searchFileDatabase (Some "vs_1")
                    (fileSearchOf worldDeniedWithFileAnswer) true aidQuestion)
      = Normal st /\
      DualAnswer.denied r = None /\
      DualAnswer.citations r = fileCitationsOf (fileSearchResults st) /\
      DualAnswer.answer r
      = "## File Database Results" ++ nl ++ nl
        ++ "Scholarships are listed in the handbook." ++ nl ++ nl
        ++ "*Results from file database ("
        ++ string_of_nat (fileCitationCount (fileSearchResults st))
        ++ " sources). Policy documents search found no additional relevant information.*".
Proof.
  eexists. split; [reflexivity|].
  apply (proj2 (proj2 (proj2
           (execute_denied_only_without_file_results
              (Some "vs_1") (Some "tvly-key")
              (fileSearchOf worldDeniedWithFileAnswer)
              (tavilyFileSearchOf worldDeniedWithFileAnswer) true aidQuestion
              _ eq_refl)))
           "Scholarships are listed in the handbook."
           {| TavilyAnswer.answer := VALIDATION_REASON;
              TavilyAnswer.citations := [];
              TavilyAnswer.denied := Some true;
              TavilyAnswer.searchQuery := None;
              TavilyAnswer.keywords := None;
              TavilyAnswer.searchStats := None |});
    reflexivity.
Defined.

(* ================================================================== *)
(** ** Searches issued for a denied query *)
(* ================================================================== *)

Lemma filter_nil_bind {A B} (f : Event -> bool) (m : M A) (k : A -> M B) :
  filter f (trace m) = [] ->
  (forall a, completion m = Normal a -> filter f (trace (k a)) = []) ->
  filter f (trace (bind m k)) = [].
Proof.
  intros Hm Hk. rewrite trace_bind, filter_app, Hm.
  destruct (completion m) as [a|e]; [now apply Hk|reflexivity].
Qed.

Lemma filter_nil_tryCatch {A} (f : Event -> bool) (m : M A) (h : Exn -> M A) :
  filter f (trace m) = [] ->
  (forall e, filter f (trace (h e)) = []) ->
  filter f (trace (tryCatch m h)) = [].
Proof.
  intros Hm Hh. rewrite trace_tryCatch, filter_app, Hm.
  destruct (completion m) as [a|e]; [reflexivity|apply Hh].
Qed.

Lemma filter_bind_l {A B} (f : Event -> bool) (m : M A) (k : A -> M B) :
  (forall a, filter f (trace (k a)) = []) ->
  filter f (trace (bind m k)) = filter f (trace m).
Proof.
  intros Hk. rewrite trace_bind, filter_app.
  destruct (completion m) as [a|e]; [rewrite Hk|]; apply app_nil_r.
Qed.

Lemma filter_tryCatch_l {A} (f : Event -> bool) (m : M A) (h : Exn -> M A) :
  (forall e, filter f (trace (h e)) = []) ->
  filter f (trace (tryCatch m h)) = filter f (trace m).
Proof.
  intros Hh. rewrite trace_tryCatch, filter_app.
  destruct (completion m) as [a|e]; [|rewrite Hh]; apply app_nil_r.
Qed.









(* ================================================================== *)
(** ** More facts about computations *)
(* ================================================================== *)

Lemma filter_bind {A B} (f : Event -> bool) (m : M A) (k : A -> M B) (a : A) :
  completion m = Normal a ->
  filter f (trace (bind m k)) = (filter f (trace m) ++ filter f (trace (k a)))%list.
Proof. intros H. now rewrite trace_bind, filter_app, H. Qed.


Lemma writeData_filter (f : Event -> bool) (dataStream : DataStream)
    (step : string) :
  (forall s, f (Progress s) = false) ->
  filter f (trace (writeData dataStream step)) = [].
Proof. intros H. destruct dataStream; simpl; [reflexivity|now rewrite H]. Qed.

(** The number of events of a kind is bounded along [bind] and [try]. *)
Lemma count_bind {A B} (f : Event -> bool) (m : M A) (k : A -> M B) (n p : nat) :
  length (filter f (trace m)) <= n ->
  (forall a, completion m = Normal a -> length (filter f (trace (k a))) <= p) ->
  length (filter f (trace (bind m k))) <= n + p.
Proof.
  intros Hm Hk. rewrite trace_bind, filter_app, length_app.
  destruct (completion m) as [a|e].
  - specialize (Hk a eq_refl). lia.
  - simpl. lia.
Qed.

Lemma count_tryCatch {A} (f : Event -> bool) (m : M A) (h : Exn -> M A) (n : nat) :
  length (filter f (trace m)) <= n ->
  (forall e, filter f (trace (h e)) = []) ->
  length (filter f (trace (tryCatch m h))) <= n.
Proof.
  intros Hm Hh. rewrite trace_tryCatch, filter_app, length_app.
  destruct (completion m) as [a|e]; [|rewrite Hh]; simpl; lia.
Qed.

Lemma writeData_count (f : Event -> bool) (dataStream : DataStream)
    (step : string) :
  (forall s, f (Progress s) = false) ->
  length (filter f (trace (writeData dataStream step))) <= 0.
Proof. intros H. now rewrite writeData_filter. Qed.

(* ================================================================== *)
(** ** The classifier, exactly *)
(* ================================================================== *)

Lemma validateVinUniQuery_reason openai_create prompt query v :
  completion (validateVinUniQuery openai_create prompt query) = Normal v ->
  reason v = (if isValid v then None else Some VALIDATION_REASON).
Proof.
  unfold validateVinUniQuery.
  rewrite completion_tryCatch, completion_bind.
  unfold openai_chat_completions_create at 1. unfold completion at 1.
  cbn [fst].
  destruct (openai_create (validationRequest prompt query)) as [response|e].
  2:{ run_completion. now intros [= <-]. }
  rewrite completion_bind. unfold liftCompletion at 1. unfold completion at 1.
  cbn [fst].
  destruct (firstContent response) as [[text|]|e]; cbn [option_map];
    run_completion; try (now intros [= <-]).
  destruct (String.eqb (trim text) "DENIED"); run_completion;
    now intros [= <-].
Qed.

Lemma validateVinUniQuery_accepts openai_create prompt query :
  ~ classifierDenies openai_create prompt query ->
  completion (validateVinUniQuery openai_create prompt query)
  = Normal {| isValid := true; reason := None |}.
Proof.
  intros Hnot.
  destruct (validateVinUniQuery_total openai_create prompt query) as [v Hv].
  pose proof (validateVinUniQuery_reason _ _ _ _ Hv) as Hreason.
  rewrite Hv. destruct v as [valid r]. cbn [isValid reason] in *.
  destruct valid; [now rewrite Hreason|].
  exfalso. apply Hnot. now apply (validateVinUniQuery_invalid _ _ _ _ Hv).
Qed.

Lemma validateVinUniQuery_one_call openai_create prompt query :
  filter isOpenAICall (trace (validateVinUniQuery openai_create prompt query))
  = [OpenAICall (validationRequest prompt query)].
Proof.
  unfold validateVinUniQuery.
  rewrite filter_tryCatch_l by reflexivity.
  rewrite filter_bind_l; [reflexivity|].
  intros response. apply filter_nil_bind; [reflexivity|].
  intros content _.
  destruct (option_map trim content) as [r|]; [|reflexivity].
  now destruct (String.eqb r "DENIED").
Qed.

(** X1: [validateVinUniQuery] always returns, after exactly one call of
    [openai.chat.completions.create] (what the client, built with
    [maxRetries: 3], sends again happens inside that call).  It rejects
    the query exactly when the answer of the model, trimmed as
    [String.prototype.trim] does, is the token [DENIED]; it then gives the
    fixed reason, and no reason otherwise. *)
Theorem validateVinUniQuery_exact :
  forall openai_create prompt query,
    exists v,
      completion (validateVinUniQuery openai_create prompt query) = Normal v /\
      (isValid v = false <-> classifierDenies openai_create prompt query) /\
      reason v = (if isValid v then None else Some VALIDATION_REASON) /\
      filter isOpenAICall (trace (validateVinUniQuery openai_create prompt query))
      = [OpenAICall (validationRequest prompt query)].
Proof.
  intros openai_create prompt query.
  destruct (validateVinUniQuery_total openai_create prompt query) as [v Hv].
  exists v. split; [exact Hv|]. split; [|split].
  - split.
    + now apply validateVinUniQuery_invalid.
    + intros Hden. rewrite (validateVinUniQuery_denies _ _ _ Hden) in Hv.
      now injection Hv as <-.
  - now apply (validateVinUniQuery_reason openai_create prompt query).
  - apply validateVinUniQuery_one_call.
Qed.

(* ================================================================== *)
(** ** The dual domain search, in full *)
(* ================================================================== *)

Lemma performDualDomainSearch_completion tavily_search ds keywords :
  completion (performDualDomainSearch tavily_search ds keywords)
  = match tavily_search (policyQueryOf keywords)
            (searchOptions MAX_RESULTS_PER_DOMAIN) with
    | Throw e => Throw e
    | Normal policyResponse =>
        match tavily_search keywords (searchOptions MAX_GENERAL_RESULTS) with
        | Throw e => Throw e
        | Normal generalResponse =>
            let filtered := filterVinUniResults (resultsOrEmpty generalResponse) in
            let top := topGeneralResults filtered in
            let sorted :=
              sortedResults (combinedResults (resultsOrEmpty policyResponse) top) in
            Normal
              {| SearchResponse.results := sorted;
                 SearchResponse.policyCount := length (resultsOrEmpty policyResponse);
                 SearchResponse.mainCount := length top;
                 SearchResponse.totalCount := length sorted;
                 SearchResponse.generalSearchTotal :=
                   length (resultsOrEmpty generalResponse);
                 SearchResponse.filteredFromGeneral := length filtered |}
        end
    end.
Proof.
  unfold performDualDomainSearch, policyQueryOf. unfold_js.
  destruct ds; cbn [fst snd];
    destruct (tavily_search ("site:policy.vinuni.edu.vn " ++ keywords)
                (searchOptions MAX_RESULTS_PER_DOMAIN)) as [P|e];
    cbn [fst snd]; try reflexivity;
    destruct (tavily_search keywords (searchOptions MAX_GENERAL_RESULTS))
      as [G|e']; reflexivity.
Qed.

(** The object the dual domain search resolves to. *)
Lemma performDualDomainSearch_value tavily_search ds keywords sr :
  completion (performDualDomainSearch tavily_search ds keywords) = Normal sr ->
  exists policyResponse generalResponse,
    tavily_search (policyQueryOf keywords) (searchOptions MAX_RESULTS_PER_DOMAIN)
    = Normal policyResponse /\
    tavily_search keywords (searchOptions MAX_GENERAL_RESULTS)
    = Normal generalResponse /\
    let filtered := filterVinUniResults (resultsOrEmpty generalResponse) in
    let top := topGeneralResults filtered in
    let sorted := sortedResults (combinedResults (resultsOrEmpty policyResponse) top) in
    sr = {| SearchResponse.results := sorted;
            SearchResponse.policyCount := length (resultsOrEmpty policyResponse);
            SearchResponse.mainCount := length top;
            SearchResponse.totalCount := length sorted;
            SearchResponse.generalSearchTotal := length (resultsOrEmpty generalResponse);
            SearchResponse.filteredFromGeneral := length filtered |}.
Proof.
  rewrite performDualDomainSearch_completion.
  destruct (tavily_search (policyQueryOf keywords)
              (searchOptions MAX_RESULTS_PER_DOMAIN)) as [P|e]; [|discriminate].
  destruct (tavily_search keywords (searchOptions MAX_GENERAL_RESULTS))
    as [G|e]; [|discriminate].
  intros [= <-]. exists P, G. repeat split; reflexivity.
Qed.

Lemma sortedResults_incl (combined : list Result.t) (r : Result.t) :
  In r (sortedResults combined) -> In r combined.
Proof.
  unfold sortedResults. intros H.
  apply (Permutation_in _ (Array_sort_perm compareFn combined)).
  rewrite <- (firstn_skipn 6 (Array_sort compareFn combined)).
  apply in_or_app. now left.
Qed.

Lemma firstn_incl {A} (n : nat) (l : list A) (x : A) :
  In x (firstn n l) -> In x l.
Proof.
  intros H. rewrite <- (firstn_skipn n l). apply in_or_app. now left.
Qed.

Lemma filterVinUniResults_In (results : list Result.t) (r : Result.t) :
  In r (filterVinUniResults results) <->
  In r results /\
  exists u, Result.url r = Some u /\ u <> "" /\ isVinUniDomain u = true.
Proof.
  unfold filterVinUniResults. rewrite filter_In. split.
  - intros [Hin Hurl]. split; [exact Hin|].
    destruct (Result.url r) as [[|c u]|]; try discriminate.
    exists (String c u). now repeat split.
  - intros [Hin (u & Hu & Hne & Hd)]. split; [exact Hin|].
    rewrite Hu. destruct u as [|c u]; [contradiction|exact Hd].
Qed.

(** X2: every result of the dual domain search was returned by the
    site-restricted policy search, or was returned by the general search
    with a non-empty URL on a VinUni domain.  Nothing else enters the
    bundle; general results without a URL are dropped. *)
Theorem performDualDomainSearch_provenance :
  forall tavily_search ds keywords sr r,
    completion (performDualDomainSearch tavily_search ds keywords) = Normal sr ->
    In r (SearchResponse.results sr) ->
    exists policyResponse generalResponse,
      tavily_search (policyQueryOf keywords) (searchOptions 5)
      = Normal policyResponse /\
      tavily_search keywords (searchOptions 5) = Normal generalResponse /\
      (In r (resultsOrEmpty policyResponse) \/
       In r (resultsOrEmpty generalResponse) /\
       exists u, Result.url r = Some u /\ u <> "" /\ isVinUniDomain u = true).
Proof.
  intros tavily_search ds keywords sr r Hsr Hin.
  destruct (performDualDomainSearch_value _ _ _ _ Hsr) as (P & G & HP & HG & ->).
  exists P, G. split; [exact HP|]. split; [exact HG|].
  cbn [SearchResponse.results] in Hin.
  apply sortedResults_incl in Hin. unfold combinedResults in Hin.
  apply in_app_or in Hin. destruct Hin as [Hin|Hin]; [now left|right].
  apply firstn_incl in Hin. now apply filterVinUniResults_In in Hin.
Qed.

Lemma performDualDomainSearch_provenance_witness :
  exists policyResponse generalResponse,
    tavily worldAnswered (policyQueryOf aidQuestion) (searchOptions 5)
    = Normal policyResponse /\
    tavily worldAnswered aidQuestion (searchOptions 5) = Normal generalResponse /\
    (In aidFromPolicy (resultsOrEmpty policyResponse) \/
     In aidFromPolicy (resultsOrEmpty generalResponse) /\
     exists u, Result.url aidFromPolicy = Some u /\ u <> "" /\
               isVinUniDomain u = true).
Proof.
  apply (performDualDomainSearch_provenance (tavily worldAnswered) true
           aidQuestion
           {| SearchResponse.results := [aidFromPolicy];
              SearchResponse.policyCount := 1;
              SearchResponse.mainCount := 0;
              SearchResponse.totalCount := 1;
              SearchResponse.generalSearchTotal := 1;
              SearchResponse.filteredFromGeneral := 0 |}
           aidFromPolicy).
  - reflexivity.
  - simpl. now left.
Defined.

Lemma filterVinUniResults_length (results : list Result.t) :
  length (filterVinUniResults results) <= length results.
Proof. apply filter_length_le. Qed.

(** X3: the counters of the dual domain search are consistent:
    [totalCount] is the number of results and is the smaller of 6 and
    [policyCount + mainCount]; [mainCount] is the smaller of 5 and
    [filteredFromGeneral], which is at most [generalSearchTotal]. *)
Theorem performDualDomainSearch_counts :
  forall tavily_search ds keywords sr,
    completion (performDualDomainSearch tavily_search ds keywords) = Normal sr ->
    SearchResponse.totalCount sr = length (SearchResponse.results sr) /\
    SearchResponse.totalCount sr
    = Nat.min 6 (SearchResponse.policyCount sr + SearchResponse.mainCount sr) /\
    SearchResponse.mainCount sr
    = Nat.min 5 (SearchResponse.filteredFromGeneral sr) /\
    SearchResponse.filteredFromGeneral sr <= SearchResponse.generalSearchTotal sr.
Proof.
  intros tavily_search ds keywords sr Hsr.
  destruct (performDualDomainSearch_value _ _ _ _ Hsr) as (P & G & _ & _ & ->).
  cbn [SearchResponse.results SearchResponse.totalCount
         SearchResponse.policyCount SearchResponse.mainCount
         SearchResponse.filteredFromGeneral SearchResponse.generalSearchTotal].
  split; [reflexivity|]. split; [|split].
  - unfold sortedResults, combinedResults.
    now rewrite length_firstn, Array_sort_length, length_app.
  - unfold topGeneralResults, MAX_RESULTS_PER_DOMAIN. apply length_firstn.
  - apply filterVinUniResults_length.
Qed.

Lemma performDualDomainSearch_counts_witness :
  1 = length [aidFromPolicy] /\ 1 = Nat.min 6 (1 + 0) /\ 0 = Nat.min 5 0 /\ 0 <= 1.
Proof.
  apply (performDualDomainSearch_counts (tavily worldAnswered) true aidQuestion
           {| SearchResponse.results := [aidFromPolicy];
              SearchResponse.policyCount := 1;
              SearchResponse.mainCount := 0;
              SearchResponse.totalCount := 1;
              SearchResponse.generalSearchTotal := 1;
              SearchResponse.filteredFromGeneral := 0 |}).
  reflexivity.
Defined.



(* ================================================================== *)
(** ** The outcomes of [fetchTavilyFileSearch] *)
(* ================================================================== *)

Lemma generateAnswerWithContext_completion openai_create instruction query rs :
  completion (generateAnswerWithContext openai_create instruction query rs)
  = match openai_create (generationRequest instruction query rs) with
    | Throw e => Throw e
    | Normal response =>
        match firstContent response with
        | Throw e => Throw e
        | Normal (Some (String c s)) => Normal (String c s)
        | Normal _ => Throw (Error "Failed to generate answer")
        end
    end.
Proof.
  unfold generateAnswerWithContext.
  rewrite completion_tryCatch, completion_bind.
  unfold openai_chat_completions_create at 1. unfold completion at 1.
  cbn [fst].
  destruct (openai_create (generationRequest instruction query rs))
    as [response|e]; [|reflexivity].
  rewrite completion_bind. unfold liftCompletion at 1. unfold completion at 1.
  cbn [fst].
  now destruct (firstContent response) as [[[|c s]|]|e].
Qed.

Lemma generateAnswerWithContext_nonempty openai_create instruction query rs a :
  completion (generateAnswerWithContext openai_create instruction query rs)
  = Normal a ->
  a <> "" /\ generatorReturns openai_create instruction query rs a.
Proof.
  rewrite generateAnswerWithContext_completion. unfold generatorReturns.
  destruct (openai_create (generationRequest instruction query rs))
    as [response|e]; [|discriminate].
  destruct (firstContent response) as [[[|c s]|]|e] eqn:Hc; try discriminate.
  intros [= <-]. split; [discriminate|]. now exists response.
Qed.

Lemma generateAnswerWithContext_fails openai_create instruction query rs :
  (forall c s,
      ~ generatorReturns openai_create instruction query rs (String c s)) ->
  exists e,
    completion (generateAnswerWithContext openai_create instruction query rs)
    = Throw e.
Proof.
  intros Hnot. rewrite generateAnswerWithContext_completion.
  destruct (openai_create (generationRequest instruction query rs))
    as [response|e] eqn:Hcall; [|now eexists].
  destruct (firstContent response) as [[[|c s]|]|e] eqn:Hc; try (now eexists).
  exfalso. apply (Hnot c s). now exists response.
Qed.

Section FetchOutcomes.

Variable openai_create : ChatRequest -> Completion ChatResponse.
Variable tavily_search : string -> TavilySearchOptions -> Completion TavilyResponse.
Variable prompt instruction : string.
Variable ds : bool.
Variable query : string.

Let fetch :=
  fetchTavilyFileSearch openai_create tavily_search prompt instruction ds query.
Let search := performDualDomainSearch tavily_search ds query.
Let generate := generateAnswerWithContext openai_create instruction query.

(** How an accepted query ends. *)
Lemma fetchTavilyFileSearch_accepted :
  ~ classifierDenies openai_create prompt query ->
  completion fetch
  = match completion search with
    | Throw _ => Normal defaultErrorAnswer
    | Normal sr =>
        if SearchResponse.totalCount sr =? 0 then
          Normal {| TavilyAnswer.answer := NO_RESULTS_MESSAGE;
                    TavilyAnswer.citations := [];
                    TavilyAnswer.denied := None;
                    TavilyAnswer.searchQuery := None;
                    TavilyAnswer.keywords := None;
                    TavilyAnswer.searchStats := Some (statsOf sr) |}
        else
          match completion (generate (SearchResponse.results sr)) with
          | Throw _ => Normal defaultErrorAnswer
          | Normal answer =>
              if String.eqb answer "DENIED" then
                Normal {| TavilyAnswer.answer := DENIED_MESSAGE;
                          TavilyAnswer.citations := [];
                          TavilyAnswer.denied := Some true;
                          TavilyAnswer.searchQuery := None;
                          TavilyAnswer.keywords := None;
                          TavilyAnswer.searchStats := None |}
              else if String.eqb answer "NOT_FOUND" then
                Normal {| TavilyAnswer.answer := NOT_FOUND_MESSAGE;
                          TavilyAnswer.citations :=
                            formatCitations (SearchResponse.results sr);
                          TavilyAnswer.denied := None;
                          TavilyAnswer.searchQuery := None;
                          TavilyAnswer.keywords := None;
                          TavilyAnswer.searchStats := Some (statsOf sr) |}
              else
                Normal {| TavilyAnswer.answer := answer;
                          TavilyAnswer.citations :=
                            formatCitations (SearchResponse.results sr);
                          TavilyAnswer.denied := None;
                          TavilyAnswer.searchQuery := Some query;
                          TavilyAnswer.keywords := Some query;
                          TavilyAnswer.searchStats := Some (statsOf sr) |}
          end
    end.
Proof.
  intros Hnot. apply validateVinUniQuery_accepts in Hnot.
  unfold fetch, search, generate, fetchTavilyFileSearch.
  rewrite completion_tryCatch, completion_bind, writeData_completion.
  rewrite completion_bind, Hnot. cbn [isValid negb].
  rewrite completion_bind, writeData_completion.
  rewrite completion_bind, writeData_completion.
  rewrite completion_bind.
  destruct (completion (performDualDomainSearch tavily_search ds query))
    as [sr|e]; [|reflexivity].
  destruct (SearchResponse.totalCount sr =? 0); [reflexivity|].
  rewrite completion_bind, writeData_completion.
  rewrite completion_bind, writeData_completion.
  rewrite completion_bind.
  destruct (completion (generateAnswerWithContext openai_create instruction
                          query (SearchResponse.results sr))) as [a|e];
    [|reflexivity].
  destruct (String.eqb a "DENIED"); [reflexivity|].
  now destruct (String.eqb a "NOT_FOUND").
Qed.

Lemma totalCount_zero sr :
  completion search = Normal sr ->
  (SearchResponse.totalCount sr =? 0) = true <-> SearchResponse.results sr = [].
Proof.
  intros Hsr. unfold search in Hsr.
  destruct (performDualDomainSearch_value _ _ _ _ Hsr) as (P & G & _ & _ & ->).
  cbn [SearchResponse.totalCount SearchResponse.results].
  rewrite Nat.eqb_eq. apply length_zero_iff_nil.
Qed.

End FetchOutcomes.

(** X5: when the query is accepted and a Tavily search is rejected, or the
    searches found something and the generator gives no non-empty text
    (rejected call, malformed or empty response), [fetchTavilyFileSearch]
    returns the default error answer with no citations; the evidence found
    is not surfaced. *)
Theorem fetchTavilyFileSearch_backend_failure :
  forall openai_create tavily_search prompt instruction ds query,
    ~ classifierDenies openai_create prompt query ->
    (forall e,
        completion (performDualDomainSearch tavily_search ds query) = Throw e ->
        completion (fetchTavilyFileSearch openai_create tavily_search prompt
                      instruction ds query) = Normal defaultErrorAnswer) /\
    (forall sr,
        completion (performDualDomainSearch tavily_search ds query) = Normal sr ->
        SearchResponse.results sr <> [] ->
        (forall c s,
            ~ generatorReturns openai_create instruction query
                (SearchResponse.results sr) (String c s)) ->
        completion (fetchTavilyFileSearch openai_create tavily_search prompt
                      instruction ds query) = Normal defaultErrorAnswer).
Proof.
  intros openai_create tavily_search prompt instruction ds query Hnot.
  rewrite (fetchTavilyFileSearch_accepted _ _ _ _ _ _ Hnot). split.
  - intros e ->. reflexivity.
  - intros sr Hsr Hne Hgen. rewrite Hsr.
    destruct (SearchResponse.totalCount sr =? 0) eqn:Hz.
    + apply (totalCount_zero _ _ _ _ Hsr) in Hz. contradiction.
    + destruct (generateAnswerWithContext_fails _ _ _ _ Hgen) as [e ->].
      reflexivity.
Qed.

Lemma fetchTavilyFileSearch_backend_failure_witness :
  completion (tavilyFileSearchOf worldTavilyDown aidQuestion)
  = Normal defaultErrorAnswer.
Proof.
  assert (Hnot : ~ classifierDenies (openai worldTavilyDown) "TOPICS" aidQuestion).
  { intros (response & text & Hcall & Hcontent & Htrim).
    injection Hcall as <-. injection Hcontent as <-. discriminate. }
  apply (proj1 (fetchTavilyFileSearch_backend_failure (openai worldTavilyDown)
                  (tavily worldTavilyDown) "TOPICS" "INSTRUCTION" false
                  aidQuestion Hnot) (Rejected "503")).
  reflexivity.
Defined.

Lemma performDualDomainSearch_no_chat
    tavily_search (dataStream : DataStream) keywords :
  filter isOpenAICall
    (trace (performDualDomainSearch tavily_search dataStream keywords)) = [].
Proof.
  unfold performDualDomainSearch.
  apply filter_nil_tryCatch; [|reflexivity].
  apply filter_nil_bind; [now apply writeData_filter|intros _ _].
  apply filter_nil_bind; [reflexivity|intros _ _].
  apply filter_nil_bind; [reflexivity|intros policyResponse _].
  apply filter_nil_bind; [now apply writeData_filter|intros _ _].
  apply filter_nil_bind; [reflexivity|intros _ _].
  apply filter_nil_bind; [reflexivity|intros generalResponse _].
  apply filter_nil_bind; [now apply writeData_filter|reflexivity].
Qed.

(** X6: when the query is accepted and the two searches leave no result,
    [fetchTavilyFileSearch] returns the fixed no-results answer with the
    search counters and no citations, and the generator is never called:
    the validation request is the only chat request of the run. *)
Theorem fetchTavilyFileSearch_no_results :
  forall openai_create tavily_search prompt instruction ds query sr,
    ~ classifierDenies openai_create prompt query ->
    completion (performDualDomainSearch tavily_search ds query) = Normal sr ->
    SearchResponse.results sr = [] ->
    completion (fetchTavilyFileSearch openai_create tavily_search prompt
                  instruction ds query)
    = Normal {| TavilyAnswer.answer := NO_RESULTS_MESSAGE;
                TavilyAnswer.citations := [];
                TavilyAnswer.denied := None;
                TavilyAnswer.searchQuery := None;
                TavilyAnswer.keywords := None;
                TavilyAnswer.searchStats := Some (statsOf sr) |} /\
    filter isOpenAICall
      (trace (fetchTavilyFileSearch openai_create tavily_search prompt
                instruction ds query))
    = [OpenAICall (validationRequest prompt query)].
Proof.
  intros openai_create tavily_search prompt instruction ds query sr
    Hnot Hsr Hnil.
  pose proof (proj2 (totalCount_zero _ _ _ _ Hsr) Hnil) as Hz.
  split.
  - rewrite (fetchTavilyFileSearch_accepted _ _ _ _ _ _ Hnot), Hsr, Hz.
    reflexivity.
  - apply validateVinUniQuery_accepts in Hnot.
    unfold fetchTavilyFileSearch.
    rewrite filter_tryCatch_l by reflexivity.
    rewrite (filter_bind _ _ _ tt) by apply writeData_completion.
    rewrite writeData_filter by reflexivity.
    rewrite (filter_bind _ _ _ _ Hnot), validateVinUniQuery_one_call.
    cbn [isValid negb].
    rewrite (filter_bind _ _ _ tt) by apply writeData_completion.
    rewrite writeData_filter by reflexivity.
    rewrite (filter_bind _ _ _ tt) by apply writeData_completion.
    rewrite writeData_filter by reflexivity.
    rewrite (filter_bind _ _ _ _ Hsr), performDualDomainSearch_no_chat, Hz.
    reflexivity.
Qed.

Lemma fetchTavilyFileSearch_no_results_witness :
  filter isOpenAICall
    (trace (fetchTavilyFileSearch
              (scriptedOpenAI (Normal (chatReply "VALID"))
                 (Normal (chatReply "unused")))
              (scriptedTavily (found []) (found [outsidePage]))
              "TOPICS" "INSTRUCTION" true aidQuestion))
  = [OpenAICall (validationRequest "TOPICS" aidQuestion)].
Proof.
  assert (Hnot : ~ classifierDenies
                     (scriptedOpenAI (Normal (chatReply "VALID"))
                        (Normal (chatReply "unused"))) "TOPICS" aidQuestion).
  { intros (response & text & Hcall & Hcontent & Htrim).
    injection Hcall as <-. injection Hcontent as <-. discriminate. }
  apply (fetchTavilyFileSearch_no_results _
           (scriptedTavily (found []) (found [outsidePage]))
           "TOPICS" "INSTRUCTION" true aidQuestion
           {| SearchResponse.results := [];
              SearchResponse.policyCount := 0;
              SearchResponse.mainCount := 0;
              SearchResponse.totalCount := 0;
              SearchResponse.generalSearchTotal := 1;
              SearchResponse.filteredFromGeneral := 0 |} Hnot);
    reflexivity.
Defined.

(** X7: when the query is accepted, the searches found something and the
    generator returns a text other than the two tokens,
    [fetchTavilyFileSearch] returns that text unchanged, the projection of
    the ranked results as citations (at most 6), and the query both as
    [searchQuery] and as [keywords]. *)
Theorem fetchTavilyFileSearch_answers :
  forall openai_create tavily_search prompt instruction ds query sr text,
    ~ classifierDenies openai_create prompt query ->
    completion (performDualDomainSearch tavily_search ds query) = Normal sr ->
    SearchResponse.results sr <> [] ->
    generatorReturns openai_create instruction query
      (SearchResponse.results sr) text ->
    text <> "" -> text <> "DENIED" -> text <> "NOT_FOUND" ->
    completion (fetchTavilyFileSearch openai_create tavily_search prompt
                  instruction ds query)
    = Normal {| TavilyAnswer.answer := text;
                TavilyAnswer.citations :=
                  formatCitations (SearchResponse.results sr);
                TavilyAnswer.denied := None;
                TavilyAnswer.searchQuery := Some query;
                TavilyAnswer.keywords := Some query;
                TavilyAnswer.searchStats := Some (statsOf sr) |} /\
    length (formatCitations (SearchResponse.results sr)) <= 6.
Proof.
  intros openai_create tavily_search prompt instruction ds query sr text
    Hnot Hsr Hne Hgen Ht Hd Hn.
  split.
  - rewrite (fetchTavilyFileSearch_accepted _ _ _ _ _ _ Hnot), Hsr.
    destruct (SearchResponse.totalCount sr =? 0) eqn:Hz.
    { apply (totalCount_zero _ _ _ _ Hsr) in Hz. contradiction. }
    destruct text as [|c s]; [contradiction|].
    rewrite (generateAnswerWithContext_returns _ _ _ _ _ _ Hgen).
    apply String.eqb_neq in Hd, Hn. now rewrite Hd, Hn.
  - destruct (performDualDomainSearch_value _ _ _ _ Hsr)
      as (P & G & _ & _ & ->).
    cbn [SearchResponse.results]. unfold formatCitations.
    rewrite length_map. apply sortedResults_length.
Qed.

Lemma fetchTavilyFileSearch_answers_witness :
  completion (tavilyFileSearchOf worldAnswered aidQuestion)
  = Normal {| TavilyAnswer.answer := "Aid is described in the policy.";
              TavilyAnswer.citations := formatCitations [aidFromPolicy];
              TavilyAnswer.denied := None;
              TavilyAnswer.searchQuery := Some aidQuestion;
              TavilyAnswer.keywords := Some aidQuestion;
              TavilyAnswer.searchStats :=
                Some {| policyResults := 1;
                        vinUniDomainResults := 0;
                        totalResults := 1;
                        stats_generalSearchTotal := 1;
                        stats_filteredFromGeneral := 0 |} |}.
Proof.
  assert (Hnot : ~ classifierDenies (openai worldAnswered) "TOPICS" aidQuestion).
  { intros (response & text & Hcall & Hcontent & Htrim).
    injection Hcall as <-. injection Hcontent as <-. discriminate. }
  apply (proj1 (fetchTavilyFileSearch_answers (openai worldAnswered)
           (tavily worldAnswered) "TOPICS" "INSTRUCTION" true aidQuestion
           {| SearchResponse.results := [aidFromPolicy];
              SearchResponse.policyCount := 1;
              SearchResponse.mainCount := 0;
              SearchResponse.totalCount := 1;
              SearchResponse.generalSearchTotal := 1;
              SearchResponse.filteredFromGeneral := 0 |}
           "Aid is described in the policy." Hnot eq_refl
           ltac:(discriminate)
           (ex_intro _ (chatReply "Aid is described in the policy.")
              (conj eq_refl eq_refl))
           ltac:(discriminate) ltac:(discriminate) ltac:(discriminate))).
Defined.

(** X8: when the query is accepted, the searches found something and the
    generator returns exactly [DENIED], [fetchTavilyFileSearch] returns the
    fixed denial message with the [denied] flag and no citations: the
    evidence found is dropped. *)
Theorem fetchTavilyFileSearch_generator_denies :
  forall openai_create tavily_search prompt instruction ds query sr,
    ~ classifierDenies openai_create prompt query ->
    completion (performDualDomainSearch tavily_search ds query) = Normal sr ->
    SearchResponse.results sr <> [] ->
    generatorReturns openai_create instruction query
      (SearchResponse.results sr) "DENIED" ->
    completion (fetchTavilyFileSearch openai_create tavily_search prompt
                  instruction ds query)
    = Normal {| TavilyAnswer.answer := DENIED_MESSAGE;
                TavilyAnswer.citations := [];
                TavilyAnswer.denied := Some true;
                TavilyAnswer.searchQuery := None;
                TavilyAnswer.keywords := None;
                TavilyAnswer.searchStats := None |}.
Proof.
  intros openai_create tavily_search prompt instruction ds query sr
    Hnot Hsr Hne Hgen.
  rewrite (fetchTavilyFileSearch_accepted _ _ _ _ _ _ Hnot), Hsr.
  destruct (SearchResponse.totalCount sr =? 0) eqn:Hz.
  { apply (totalCount_zero _ _ _ _ Hsr) in Hz. contradiction. }
  now rewrite (generateAnswerWithContext_returns _ _ _ _ _ _ Hgen).
Qed.

Lemma fetchTavilyFileSearch_generator_denies_witness :
  completion (fetchTavilyFileSearch
                (scriptedOpenAI (Normal (chatReply "VALID"))
                   (Normal (chatReply "DENIED")))
                (tavily worldAnswered) "TOPICS" "INSTRUCTION" false aidQuestion)
  = Normal {| TavilyAnswer.answer := DENIED_MESSAGE;
              TavilyAnswer.citations := [];
              TavilyAnswer.denied := Some true;
              TavilyAnswer.searchQuery := None;
              TavilyAnswer.keywords := None;
              TavilyAnswer.searchStats := None |}.
Proof.
  assert (Hnot : ~ classifierDenies
                     (scriptedOpenAI (Normal (chatReply "VALID"))
                        (Normal (chatReply "DENIED"))) "TOPICS" aidQuestion).
  { intros (response & text & Hcall & Hcontent & Htrim).
    injection Hcall as <-. injection Hcontent as <-. discriminate. }
  apply (fetchTavilyFileSearch_generator_denies _ (tavily worldAnswered)
           "TOPICS" "INSTRUCTION" false aidQuestion
           {| SearchResponse.results := [aidFromPolicy];
              SearchResponse.policyCount := 1;
              SearchResponse.mainCount := 0;
              SearchResponse.totalCount := 1;
              SearchResponse.generalSearchTotal := 1;
              SearchResponse.filteredFromGeneral := 0 |} Hnot eq_refl).
  - discriminate.
  - exists (chatReply "DENIED"). split; reflexivity.
Defined.

(** X9: every object [fetchTavilyFileSearch] returns has a non-empty
    answer and at most 6 citations; a denial carries no citation and no
    counters; and when there are citations the counters are present and
    [totalResults] is the number of citations. *)
Theorem fetchTavilyFileSearch_result_invariants :
  forall openai_create tavily_search prompt instruction ds query t,
    completion (fetchTavilyFileSearch openai_create tavily_search prompt
                  instruction ds query) = Normal t ->
    TavilyAnswer.answer t <> "" /\
    length (TavilyAnswer.citations t) <= 6 /\
    (truthy_flag (TavilyAnswer.denied t) = true ->
     TavilyAnswer.citations t = [] /\ TavilyAnswer.searchStats t = None) /\
    (TavilyAnswer.citations t <> [] ->
     exists stats,
       TavilyAnswer.searchStats t = Some stats /\
       totalResults stats = length (TavilyAnswer.citations t)).
Proof.
  intros openai_create tavily_search prompt instruction ds query t.
  unfold fetchTavilyFileSearch.
  rewrite completion_tryCatch, completion_bind, writeData_completion.
  rewrite completion_bind.
  destruct (validateVinUniQuery_total openai_create prompt query) as [v Hv].
  rewrite Hv.
  destruct (isValid v) eqn:Hvalid; cbn [negb].
  2:{ run_completion. intros [= <-].
      cbn [TavilyAnswer.answer TavilyAnswer.citations TavilyAnswer.denied
             TavilyAnswer.searchStats length].
      repeat split; try lia; try congruence.
      destruct (reason v) as [[|c s]|]; discriminate. }
  rewrite completion_bind, writeData_completion.
  rewrite completion_bind, writeData_completion.
  rewrite completion_bind.
  destruct (completion (performDualDomainSearch tavily_search ds query))
    as [sr|e] eqn:Hsr.
  2:{ run_completion. intros [= <-]. cbn.
      repeat split; try lia; try congruence; discriminate. }
  destruct (SearchResponse.totalCount sr =? 0).
  { run_completion. intros [= <-]. cbn.
    repeat split; try lia; try congruence; discriminate. }
  rewrite completion_bind, writeData_completion.
  rewrite completion_bind, writeData_completion.
  rewrite completion_bind.
  destruct (completion (generateAnswerWithContext openai_create instruction
                          query (SearchResponse.results sr)))
    as [answer|e] eqn:Hgen.
  2:{ run_completion. intros [= <-]. cbn.
      repeat split; try lia; try congruence; discriminate. }
  apply generateAnswerWithContext_nonempty in Hgen. destruct Hgen as [Hne _].
  assert (Hlen : length (formatCitations (SearchResponse.results sr)) <= 6
                 /\ SearchResponse.totalCount sr
                    = length (formatCitations (SearchResponse.results sr))).
  { destruct (performDualDomainSearch_value _ _ _ _ Hsr)
      as (P & G & _ & _ & ->).
    cbn [SearchResponse.results SearchResponse.totalCount].
    unfold formatCitations. rewrite length_map.
    split; [apply sortedResults_length|reflexivity]. }
  destruct Hlen as [Hle Htot].
  destruct (String.eqb answer "DENIED").
  { run_completion. intros [= <-]. cbn.
    repeat split; try lia; try congruence; discriminate. }
  destruct (String.eqb answer "NOT_FOUND"); run_completion; intros [= <-];
    cbn [TavilyAnswer.answer TavilyAnswer.citations TavilyAnswer.denied
           TavilyAnswer.searchStats truthy_flag];
    (split; [try exact Hne; discriminate|]);
    (split; [exact Hle|]);
    (split; [discriminate|]);
    intros _; eexists; (split; [reflexivity|exact Htot]).
Qed.

Lemma fetchTavilyFileSearch_result_invariants_witness :
  exists stats,
    Some {| policyResults := 1;
            vinUniDomainResults := 0;
            totalResults := 1;
            stats_generalSearchTotal := 1;
            stats_filteredFromGeneral := 0 |} = Some stats /\
    totalResults stats = length (formatCitations [aidFromPolicy]).
Proof.
  apply (proj2 (proj2 (proj2
           (fetchTavilyFileSearch_result_invariants (openai worldAnswered)
              (tavily worldAnswered) "TOPICS" "INSTRUCTION" true aidQuestion
              {| TavilyAnswer.answer := "Aid is described in the policy.";
                 TavilyAnswer.citations := formatCitations [aidFromPolicy];
                 TavilyAnswer.denied := None;
                 TavilyAnswer.searchQuery := Some aidQuestion;
                 TavilyAnswer.keywords := Some aidQuestion;
                 TavilyAnswer.searchStats :=
                   Some {| policyResults := 1;
                           vinUniDomainResults := 0;
                           totalResults := 1;
                           stats_generalSearchTotal := 1;
                           stats_filteredFromGeneral := 0 |} |}
              eq_refl)))).
  discriminate.
Defined.

Lemma performDualDomainSearch_search_count
    tavily_search (dataStream : DataStream) keywords :
  length (filter isTavilySearch
            (trace (performDualDomainSearch tavily_search dataStream keywords)))
  <= 2.
Proof.
  unfold performDualDomainSearch.
  apply count_tryCatch; [|reflexivity].
  apply (count_bind _ _ _ 0 2); [now apply writeData_count|intros _ _].
  apply (count_bind _ _ _ 0 2); [simpl; lia|intros _ _].
  apply (count_bind _ _ _ 1 1); [simpl; lia|intros policyResponse _].
  apply (count_bind _ _ _ 0 1); [now apply writeData_count|intros _ _].
  apply (count_bind _ _ _ 0 1); [simpl; lia|intros _ _].
  apply (count_bind _ _ _ 1 0); [simpl; lia|intros generalResponse _].
  apply (count_bind _ _ _ 0 0); [now apply writeData_count|intros _ _].
  simpl. lia.
Qed.

Lemma generateAnswerWithContext_counts openai_create instruction query rs :
  filter isTavilySearch
    (trace (generateAnswerWithContext openai_create instruction query rs)) = []
  /\
  length (filter isOpenAICall
            (trace (generateAnswerWithContext openai_create instruction query rs)))
  <= 1.
Proof.
  unfold generateAnswerWithContext. split.
  - apply filter_nil_tryCatch; [|reflexivity].
    apply filter_nil_bind; [reflexivity|intros response _].
    apply filter_nil_bind; [reflexivity|intros [[|c s]|] _; reflexivity].
  - apply count_tryCatch; [|reflexivity].
    apply (count_bind _ _ _ 1 0); [simpl; lia|intros response _].
    apply (count_bind _ _ _ 0 0); [simpl; lia|].
    intros [[|c s]|] _; simpl; lia.
Qed.

Lemma validateVinUniQuery_no_search openai_create prompt query :
  filter isTavilySearch (trace (validateVinUniQuery openai_create prompt query))
  = [].
Proof.
  unfold validateVinUniQuery.
  apply filter_nil_tryCatch; [|reflexivity].
  apply filter_nil_bind; [reflexivity|intros response _].
  apply filter_nil_bind; [reflexivity|intros content _].
  destruct (option_map trim content) as [r|]; [|reflexivity].
  now destruct (String.eqb r "DENIED").
Qed.

Lemma fetchTavilyFileSearch_search_count
    openai_create tavily_search prompt instruction (dataStream : DataStream)
    query :
  length (filter isTavilySearch
            (trace (fetchTavilyFileSearch openai_create tavily_search prompt
                      instruction dataStream query))) <= 2.
Proof.
  unfold fetchTavilyFileSearch.
  apply count_tryCatch; [|reflexivity].
  apply (count_bind _ _ _ 0 2); [now apply writeData_count|intros _ _].
  apply (count_bind _ _ _ 0 2).
  { now rewrite validateVinUniQuery_no_search. }
  intros v _. destruct (negb (isValid v)); [simpl; lia|].
  apply (count_bind _ _ _ 0 2); [now apply writeData_count|intros _ _].
  apply (count_bind _ _ _ 0 2); [now apply writeData_count|intros _ _].
  apply (count_bind _ _ _ 2 0);
    [apply performDualDomainSearch_search_count|intros sr _].
  destruct (SearchResponse.totalCount sr =? 0); [simpl; lia|].
  apply (count_bind _ _ _ 0 0); [now apply writeData_count|intros _ _].
  apply (count_bind _ _ _ 0 0); [now apply writeData_count|intros _ _].
  apply (count_bind _ _ _ 0 0).
  { now rewrite (proj1 (generateAnswerWithContext_counts _ _ _ _)). }
  intros answer _. destruct (String.eqb answer "DENIED"); [simpl; lia|].
  destruct (String.eqb answer "NOT_FOUND"); simpl; lia.
Qed.

Lemma fetchTavilyFileSearch_chat_count
    openai_create tavily_search prompt instruction (dataStream : DataStream)
    query :
  length (filter isOpenAICall
            (trace (fetchTavilyFileSearch openai_create tavily_search prompt
                      instruction dataStream query))) <= 2.
Proof.
  unfold fetchTavilyFileSearch.
  apply count_tryCatch; [|reflexivity].
  apply (count_bind _ _ _ 0 2); [now apply writeData_count|intros _ _].
  apply (count_bind _ _ _ 1 1).
  { now rewrite validateVinUniQuery_one_call. }
  intros v _. destruct (negb (isValid v)); [simpl; lia|].
  apply (count_bind _ _ _ 0 1); [now apply writeData_count|intros _ _].
  apply (count_bind _ _ _ 0 1); [now apply writeData_count|intros _ _].
  apply (count_bind _ _ _ 0 1).
  { now rewrite performDualDomainSearch_no_chat. }
  intros sr _.
  destruct (SearchResponse.totalCount sr =? 0); [simpl; lia|].
  apply (count_bind _ _ _ 0 1); [now apply writeData_count|intros _ _].
  apply (count_bind _ _ _ 0 1); [now apply writeData_count|intros _ _].
  apply (count_bind _ _ _ 1 0).
  { apply generateAnswerWithContext_counts. }
  intros answer _. destruct (String.eqb answer "DENIED"); [simpl; lia|].
  destruct (String.eqb answer "NOT_FOUND"); simpl; lia.
Qed.

(** X10: one run of [fetchTavilyFileSearch] calls [tavilyClient.search] at
    most twice and [openai.chat.completions.create] at most twice, whatever
    the services answer and whatever the data stream does: the function has
    no loop and repeats no call.  A call of [create] is counted once; the
    client is built with [maxRetries: 3], and what it sends again happens
    inside that call. *)
Theorem fetchTavilyFileSearch_call_budget :
  forall openai_create tavily_search prompt instruction
         (dataStream : DataStream) query,
    length (filter isTavilySearch
              (trace (fetchTavilyFileSearch openai_create tavily_search prompt
                        instruction dataStream query))) <= 2 /\
    length (filter isOpenAICall
              (trace (fetchTavilyFileSearch openai_create tavily_search prompt
                        instruction dataStream query))) <= 2.
Proof.
  intros openai_create tavily_search prompt instruction dataStream query. split.
  - apply fetchTavilyFileSearch_search_count.
  - apply fetchTavilyFileSearch_chat_count.
Qed.

(* ================================================================== *)
(** ** The outcomes of [execute] *)
(* ================================================================== *)

Section ExecuteOutcomes.

Variable VECTOR_STORE_ID : option string.
Variable TAVILY_API_KEY : option string.
Variable fetchFileSearch : string -> string -> M (option FileSearchResult.t).
Variable fetchTavily : string -> M TavilyAnswer.t.
Variable ds : bool.
Variable query : string.


Lemma fileAnswerOf_fileResultOf :
  fileAnswerOf VECTOR_STORE_ID fetchFileSearch query
  = meaningfulFileAnswer (fileResultOf VECTOR_STORE_ID fetchFileSearch query).
Proof.
  unfold fileAnswerOf, fileResultOf.
  destruct VECTOR_STORE_ID as [[|c s]|]; try reflexivity.
  now destruct (completion (fetchFileSearch query (String c s))).
Qed.

Lemma searchFileDatabase_state :
  completion (searchFileDatabase VECTOR_STORE_ID fetchFileSearch ds query)
  = Normal (fileState VECTOR_STORE_ID fetchFileSearch query).
Proof.
  unfold fileState, searchFileDatabase, fileAnswerOf, fileResultOf.
  rewrite completion_bind, writeData_completion.
  destruct VECTOR_STORE_ID as [[|c s]|].
  - now run_completion.
  - rewrite completion_tryCatch, completion_bind.
    destruct (completion (fetchFileSearch query (String c s))) as [r|e].
    + destruct (meaningfulFileAnswer r) as [a|]; now run_completion.
    + now run_completion.
  - now run_completion.
Qed.

Lemma searchTavily_completion (st : Locals) :
  completion (searchTavily TAVILY_API_KEY fetchTavily ds query st)
  = Normal
      match tavilyResultOf TAVILY_API_KEY fetchTavily query with
      | None => inr st
      | Some t =>
          if meaningfulTavilyAnswer t then inr (withTavilyResults st t)
          else if truthy_flag (TavilyAnswer.denied t)
                  && negb (hasFileResults st)
               then inl (denialOf t)
               else inr (withoutTavilyResults st t)
      end.
Proof.
  unfold searchTavily, tavilyResultOf, withTavilyResults, withoutTavilyResults,
    denialOf.
  rewrite completion_bind, writeData_completion.
  destruct (truthy_string TAVILY_API_KEY); [|now run_completion].
  rewrite completion_tryCatch, completion_bind.
  destruct (completion (fetchTavily query)) as [t|e]; [|now run_completion].
  destruct (meaningfulTavilyAnswer t); [now run_completion|].
  destruct (truthy_flag (TavilyAnswer.denied t)); [|now run_completion].
  run_completion. now destruct (hasFileResults st).
Qed.

Lemma combineResults_completion (st : Locals) :
  completion (combineResults VECTOR_STORE_ID TAVILY_API_KEY ds st)
  = Normal
      (let fileDone := truthy_string VECTOR_STORE_ID in
       let tavilyDone := truthy_string TAVILY_API_KEY in
       let nFile := fileCitationCount (fileSearchResults st) in
       let nTavily := tavilyCitationCount (tavilyResults st) in
       if negb (hasFileResults st) && negb (hasTavilyResults st)
       then nothingFound fileDone tavilyDone
       else
         {| DualAnswer.answer :=
              combinedAnswer st
              ++ (if hasFileResults st && hasTavilyResults st then
                    nl ++ nl ++ "---" ++ nl ++ nl ++ "*Results compiled from "
                    ++ string_of_nat nFile ++ " file sources and "
                    ++ string_of_nat nTavily ++ " policy document sources.*"
                  else if hasFileResults st then
                    nl ++ nl ++ "*Results from file database ("
                    ++ string_of_nat nFile
                    ++ " sources). Policy documents search "
                    ++ (if tavilyDone
                        then "found no additional relevant information."
                        else "was unavailable.") ++ "*"
                  else if hasTavilyResults st then
                    nl ++ nl ++ "*Results from VinUni policy documents ("
                    ++ string_of_nat nTavily
                    ++ " sources). File database search "
                    ++ (if fileDone then "found no relevant information."
                        else "was unavailable.") ++ "*"
                  else "");
            DualAnswer.citations := combinedCitations st;
            DualAnswer.denied := None;
            DualAnswer.searchStats :=
              Some {| DualStats.fileSearchCompleted := fileDone;
                      DualStats.tavilySearchCompleted := tavilyDone;
                      DualStats.fileResultsFound := Some (hasFileResults st);
                      DualStats.tavilyResultsFound := Some (hasTavilyResults st);
                      DualStats.fileCitations := Some nFile;
                      DualStats.tavilyCitations := Some nTavily;
                      DualStats.totalSources := length (combinedCitations st) |} |}).
Proof.
  unfold combineResults. rewrite completion_bind, writeData_completion.
  cbv zeta.
  now destruct (negb (hasFileResults st) && negb (hasTavilyResults st)).
Qed.

(** How [execute] ends, from what the two searches gave. *)
Lemma execute_completion :
  completion
    (execute VECTOR_STORE_ID TAVILY_API_KEY fetchFileSearch fetchTavily ds query)
  = let st := fileState VECTOR_STORE_ID fetchFileSearch query in
    let combine := combineResults VECTOR_STORE_ID TAVILY_API_KEY ds in
    match tavilyResultOf TAVILY_API_KEY fetchTavily query with
    | None => completion (combine st)
    | Some t =>
        if meaningfulTavilyAnswer t
        then completion (combine (withTavilyResults st t))
        else if truthy_flag (TavilyAnswer.denied t) && negb (hasFileResults st)
             then Normal (denialOf t)
             else completion (combine (withoutTavilyResults st t))
    end.
Proof.
  unfold execute. cbv zeta.
  rewrite completion_tryCatch, completion_bind, searchFileDatabase_state.
  rewrite completion_bind, searchTavily_completion.
  destruct (tavilyResultOf TAVILY_API_KEY fetchTavily query) as [t|].
  - destruct (meaningfulTavilyAnswer t).
    + now rewrite combineResults_completion.
    + destruct (truthy_flag (TavilyAnswer.denied t) && _).
      * reflexivity.
      * now rewrite combineResults_completion.
  - now rewrite combineResults_completion.
Qed.

End ExecuteOutcomes.

Section CallsOfExecute.

(** A kind of event that is neither a progress record nor console
    output. *)
Variable f : Event -> bool.
Hypothesis f_not_logging : forall e, isLogging e = true -> f e = false.

Lemma writeData_calls (ds : bool) (step : string) :
  filter f (trace (writeData ds step)) = [].
Proof. apply writeData_filter. intros s. now apply f_not_logging. Qed.

Lemma consoleError_calls (label : string) :
  filter f (trace (emit (ConsoleError label))) = [].
Proof. simpl. now rewrite f_not_logging. Qed.

Lemma combineResults_calls vs tk ds st :
  filter f (trace (combineResults vs tk ds st)) = [].
Proof.
  unfold combineResults.
  apply filter_nil_bind; [apply writeData_calls|intros _ _].
  now destruct (negb (hasFileResults st) && negb (hasTavilyResults st)).
Qed.

Lemma searchFileDatabase_calls vs fetchFileSearch ds query :
  filter f (trace (searchFileDatabase vs fetchFileSearch ds query))
  = match vs with
    | Some (String c s) => filter f (trace (fetchFileSearch query (String c s)))
    | _ => []
    end.
Proof.
  unfold searchFileDatabase.
  rewrite (filter_bind _ _ _ tt) by apply writeData_completion.
  rewrite writeData_calls. cbn [app].
  destruct vs as [[|c s]|].
  - apply filter_nil_bind; [apply writeData_calls|reflexivity].
  - rewrite filter_tryCatch_l.
    + apply filter_bind_l. intros r.
      destruct (meaningfulFileAnswer r);
        (apply filter_nil_bind; [apply writeData_calls|reflexivity]).
    + intros e. apply filter_nil_bind; [apply consoleError_calls|intros _ _].
      apply filter_nil_bind; [apply writeData_calls|reflexivity].
  - apply filter_nil_bind; [apply writeData_calls|reflexivity].
Qed.

Lemma searchTavily_calls tk fetchTavily ds query st :
  filter f (trace (searchTavily tk fetchTavily ds query st))
  = if truthy_string tk then filter f (trace (fetchTavily query)) else [].
Proof.
  unfold searchTavily.
  rewrite (filter_bind _ _ _ tt) by apply writeData_completion.
  rewrite writeData_calls. cbn [app].
  destruct (truthy_string tk).
  - rewrite filter_tryCatch_l.
    + apply filter_bind_l. intros t.
      destruct (meaningfulTavilyAnswer t);
        [apply filter_nil_bind; [apply writeData_calls|reflexivity]|].
      destruct (truthy_flag (TavilyAnswer.denied t));
        (apply filter_nil_bind; [apply writeData_calls|intros _ _]);
        [now destruct (negb (hasFileResults st))|reflexivity].
    + intros e. apply filter_nil_bind; [apply consoleError_calls|intros _ _].
      apply filter_nil_bind; [apply writeData_calls|reflexivity].
  - apply filter_nil_bind; [apply writeData_calls|reflexivity].
Qed.

Lemma execute_calls vs tk fetchFileSearch fetchTavily ds query :
  filter f (trace (execute vs tk fetchFileSearch fetchTavily ds query))
  = (match vs with
     | Some (String c s) => filter f (trace (fetchFileSearch query (String c s)))
     | _ => []
     end
     ++ if truthy_string tk then filter f (trace (fetchTavily query)) else [])%list.
Proof.
  unfold execute.
  rewrite filter_tryCatch_l.
  - rewrite (filter_bind _ _ _ _
               (searchFileDatabase_state vs fetchFileSearch ds query)).
    rewrite searchFileDatabase_calls. f_equal.
    rewrite filter_bind_l; [apply searchTavily_calls|].
    intros [denial|st']; [reflexivity|apply combineResults_calls].
  - intros e. apply filter_nil_bind; [apply consoleError_calls|intros _ _].
    apply filter_nil_bind; [apply writeData_calls|reflexivity].
Qed.

End CallsOfExecute.

Lemma isRemoteCall_not_logging (e : Event) :
  isLogging e = true -> isRemoteCall e = false.
Proof. unfold isRemoteCall. now intros ->. Qed.

(** X11: apart from progress records and console output, the effects of
    [execute] are exactly those of the file search, made once if
    [VECTOR_STORE_ID] is set, followed by those of the Tavily search, made
    once if [TAVILY_API_KEY] is set.  A missing credential skips that
    search, and a failure of the file search does not stop the Tavily
    search. *)
Theorem execute_remote_calls :
  forall VECTOR_STORE_ID TAVILY_API_KEY fetchFileSearch fetchTavily ds query,
    remoteCalls
      (trace (execute VECTOR_STORE_ID TAVILY_API_KEY fetchFileSearch
                fetchTavily ds query))
    = (match VECTOR_STORE_ID with
       | Some (String c s) =>
           remoteCalls (trace (fetchFileSearch query (String c s)))
       | _ => []
       end
       ++ if truthy_string TAVILY_API_KEY
          then remoteCalls (trace (fetchTavily query))
          else [])%list.
Proof.
  intros vs tk fetchFileSearch fetchTavily ds query. unfold remoteCalls.
  apply execute_calls, isRemoteCall_not_logging.
Qed.

(** X12: when neither search gives a meaningful answer (not configured,
    failed, or an answer that does not count) and Tavily did not deny,
    [execute] returns the fixed nothing-found answer with no citations and
    counters that only say which searches were configured. *)
Theorem execute_nothing_found :
  forall VECTOR_STORE_ID TAVILY_API_KEY fetchFileSearch fetchTavily ds query,
    fileAnswerOf VECTOR_STORE_ID fetchFileSearch query = None ->
    tavilyAnswerOf TAVILY_API_KEY fetchTavily query = None ->
    (forall t,
        tavilyResultOf TAVILY_API_KEY fetchTavily query = Some t ->
        truthy_flag (TavilyAnswer.denied t) = false) ->
    completion (execute VECTOR_STORE_ID TAVILY_API_KEY fetchFileSearch
                  fetchTavily ds query)
    = Normal (nothingFound (truthy_string VECTOR_STORE_ID)
                (truthy_string TAVILY_API_KEY)).
Proof.
  intros vs tk fetchFileSearch fetchTavily ds query Hfile Htavily Hden.
  rewrite execute_completion. cbv zeta. unfold tavilyAnswerOf in Htavily.
  unfold fileState. rewrite Hfile.
  destruct (tavilyResultOf tk fetchTavily query) as [t|].
  - destruct (meaningfulTavilyAnswer t); [discriminate|].
    rewrite (Hden t eq_refl). cbn [andb].
    now rewrite combineResults_completion.
  - now rewrite combineResults_completion.
Qed.

Lemma execute_nothing_found_witness :
  completion (dualSearchTool worldUnconfigured aidQuestion)
  = Normal (nothingFound false false).
Proof.
  apply (execute_nothing_found None (Some "") (fileSearchOf worldUnconfigured)
           (tavilyFileSearchOf worldUnconfigured) true aidQuestion).
  - reflexivity.
  - reflexivity.
  - discriminate.
Defined.

(** X13: when both searches give a meaningful answer, [execute] puts the
    file answer under its heading, then the Tavily answer under its
    heading, then a note with the two citation counts; the citations are
    the file citations followed by the Tavily citations; the outcome is not
    denied. *)
Theorem execute_both_answers :
  forall VECTOR_STORE_ID TAVILY_API_KEY fetchFileSearch fetchTavily ds query
         fileAnswer t,
    fileAnswerOf VECTOR_STORE_ID fetchFileSearch query = Some fileAnswer ->
    tavilyAnswerOf TAVILY_API_KEY fetchTavily query = Some t ->
    exists r,
      completion (execute VECTOR_STORE_ID TAVILY_API_KEY fetchFileSearch
                    fetchTavily ds query) = Normal r /\
      DualAnswer.answer r
      = "## File Database Results" ++ nl ++ nl ++ fileAnswer ++ nl ++ nl
        ++ "## VinUni Policy Documents" ++ nl ++ nl ++ TavilyAnswer.answer t
        ++ nl ++ nl ++ "---" ++ nl ++ nl ++ "*Results compiled from "
        ++ string_of_nat
             (fileCitationCount
                (fileResultOf VECTOR_STORE_ID fetchFileSearch query))
        ++ " file sources and "
        ++ string_of_nat (length (TavilyAnswer.citations t))
        ++ " policy document sources.*" /\
      DualAnswer.citations r
      = (fileCitationsOf (fileResultOf VECTOR_STORE_ID fetchFileSearch query)
         ++ map FromTavily (TavilyAnswer.citations t))%list /\
      DualAnswer.denied r = None.
Proof.
  intros vs tk fetchFileSearch fetchTavily ds query fileAnswer t Hfile Htavily.
  rewrite execute_completion. cbv zeta. unfold tavilyAnswerOf in Htavily.
  unfold fileState. rewrite Hfile.
  destruct (tavilyResultOf tk fetchTavily query) as [t'|]; [|discriminate].
  destruct (meaningfulTavilyAnswer t'); [|discriminate].
  injection Htavily as ->.
  rewrite combineResults_completion. eexists. split; [reflexivity|].
  cbn. rewrite ?append_assoc. repeat split; reflexivity.
Qed.

Lemma execute_both_answers_witness :
  exists r,
    completion (dualSearchTool worldAnswered aidQuestion) = Normal r /\
    DualAnswer.answer r
    = "## File Database Results" ++ nl ++ nl
      ++ "Scholarships are listed in the handbook." ++ nl ++ nl
      ++ "## VinUni Policy Documents" ++ nl ++ nl
      ++ "Aid is described in the policy."
      ++ nl ++ nl ++ "---" ++ nl ++ nl ++ "*Results compiled from "
      ++ "1" ++ " file sources and " ++ "1" ++ " policy document sources.*" /\
    DualAnswer.citations r
    = [FromFile {| FileCitation.title := "handbook.pdf";
                   FileCitation.url := None |};
       FromTavily {| Citation.title := "Financial aid";
                     Citation.url := Some "https://policy.vinuni.edu.vn/aid";
                     Citation.content :=
                       Some "Financial aid policy of the university";
                     Citation.score := Some (9 # 10)%Q |}] /\
    DualAnswer.denied r = None.
Proof.
  apply (execute_both_answers (Some "vs_1") (Some "tvly-key")
           (fileSearchOf worldAnswered) (tavilyFileSearchOf worldAnswered)
           true aidQuestion "Scholarships are listed in the handbook."
           {| TavilyAnswer.answer := "Aid is described in the policy.";
              TavilyAnswer.citations := formatCitations [aidFromPolicy];
              TavilyAnswer.denied := None;
              TavilyAnswer.searchQuery := Some aidQuestion;
              TavilyAnswer.keywords := Some aidQuestion;
              TavilyAnswer.searchStats :=
                Some {| policyResults := 1;
                        vinUniDomainResults := 0;
                        totalResults := 1;
                        stats_generalSearchTotal := 1;
                        stats_filteredFromGeneral := 0 |} |});
    reflexivity.
Defined.

(** X14: when only the Tavily search gives a meaningful answer, [execute]
    returns that answer followed by a note with the citation count, which
    says that the file database found nothing when [VECTOR_STORE_ID] is
    set (also when the file search failed) and that it was unavailable
    otherwise; the citations are the Tavily citations. *)
Theorem execute_tavily_only :
  forall VECTOR_STORE_ID TAVILY_API_KEY fetchFileSearch fetchTavily ds query t,
    fileAnswerOf VECTOR_STORE_ID fetchFileSearch query = None ->
    tavilyAnswerOf TAVILY_API_KEY fetchTavily query = Some t ->
    exists r,
      completion (execute VECTOR_STORE_ID TAVILY_API_KEY fetchFileSearch
                    fetchTavily ds query) = Normal r /\
      DualAnswer.answer r
      = TavilyAnswer.answer t ++ nl ++ nl
        ++ "*Results from VinUni policy documents ("
        ++ string_of_nat (length (TavilyAnswer.citations t))
        ++ " sources). File database search "
        ++ (if truthy_string VECTOR_STORE_ID
            then "found no relevant information."
            else "was unavailable.") ++ "*" /\
      DualAnswer.citations r = map FromTavily (TavilyAnswer.citations t) /\
      DualAnswer.denied r = None.
Proof.
  intros vs tk fetchFileSearch fetchTavily ds query t Hfile Htavily.
  rewrite execute_completion. cbv zeta. unfold tavilyAnswerOf in Htavily.
  unfold fileState. rewrite Hfile.
  destruct (tavilyResultOf tk fetchTavily query) as [t'|]; [|discriminate].
  destruct (meaningfulTavilyAnswer t'); [|discriminate].
  injection Htavily as ->.
  rewrite combineResults_completion. eexists. split; [reflexivity|].
  cbn. repeat split; reflexivity.
Qed.

Lemma execute_tavily_only_witness :
  exists r,
    completion (dualSearchTool worldClassifierDown aidQuestion) = Normal r /\
    DualAnswer.answer r
    = NOT_FOUND_MESSAGE ++ nl ++ nl
      ++ "*Results from VinUni policy documents (" ++ "1"
      ++ " sources). File database search " ++ "was unavailable." ++ "*" /\
    DualAnswer.citations r = map FromTavily (formatCitations [aidFromPolicy]) /\
    DualAnswer.denied r = None.
Proof.
  apply (execute_tavily_only None (Some "tvly-key")
           (fileSearchOf worldClassifierDown)
           (tavilyFileSearchOf worldClassifierDown) false aidQuestion
           {| TavilyAnswer.answer := NOT_FOUND_MESSAGE;
              TavilyAnswer.citations := formatCitations [aidFromPolicy];
              TavilyAnswer.denied := None;
              TavilyAnswer.searchQuery := None;
              TavilyAnswer.keywords := None;
              TavilyAnswer.searchStats :=
                Some {| policyResults := 1;
                        vinUniDomainResults := 0;
                        totalResults := 1;
                        stats_generalSearchTotal := 0;
                        stats_filteredFromGeneral := 0 |} |});
    reflexivity.
Defined.

(** X15: when only the file search gives a meaningful answer, [execute]
    returns it under its heading with the file citations, never a denial,
    and a note that says the policy search found nothing more when
    [TAVILY_API_KEY] is set (also when that search failed or denied) and
    that it was unavailable otherwise. *)
Theorem execute_file_only :
  forall VECTOR_STORE_ID TAVILY_API_KEY fetchFileSearch fetchTavily ds query
         fileAnswer,
    fileAnswerOf VECTOR_STORE_ID fetchFileSearch query = Some fileAnswer ->
    tavilyAnswerOf TAVILY_API_KEY fetchTavily query = None ->
    exists r,
      completion (execute VECTOR_STORE_ID TAVILY_API_KEY fetchFileSearch
                    fetchTavily ds query) = Normal r /\
      DualAnswer.answer r
      = "## File Database Results" ++ nl ++ nl ++ fileAnswer ++ nl ++ nl
        ++ "*Results from file database ("
        ++ string_of_nat
             (fileCitationCount
                (fileResultOf VECTOR_STORE_ID fetchFileSearch query))
        ++ " sources). Policy documents search "
        ++ (if truthy_string TAVILY_API_KEY
            then "found no additional relevant information."
            else "was unavailable.") ++ "*" /\
      DualAnswer.citations r
      = fileCitationsOf (fileResultOf VECTOR_STORE_ID fetchFileSearch query) /\
      DualAnswer.denied r = None.
Proof.
  intros vs tk fetchFileSearch fetchTavily ds query fileAnswer Hfile Htavily.
  rewrite execute_completion. cbv zeta. unfold tavilyAnswerOf in Htavily.
  unfold fileState. rewrite Hfile.
  destruct (tavilyResultOf tk fetchTavily query) as [t|].
  - destruct (meaningfulTavilyAnswer t); [discriminate|].
    cbn [hasFileResults negb]. rewrite andb_false_r.
    rewrite combineResults_completion. eexists. split; [reflexivity|].
    cbn. rewrite ?append_assoc. repeat split; reflexivity.
  - rewrite combineResults_completion. eexists. split; [reflexivity|].
    cbn. rewrite ?append_assoc. repeat split; reflexivity.
Qed.

Lemma execute_file_only_witness :
  exists r,
    completion (execute (Some "vs_1") None
                  (fileSearchOf worldAnswered)
                  (tavilyFileSearchOf worldAnswered) true aidQuestion)
    = Normal r /\
    DualAnswer.answer r
    = "## File Database Results" ++ nl ++ nl
      ++ "Scholarships are listed in the handbook." ++ nl ++ nl
      ++ "*Results from file database (" ++ "1"
      ++ " sources). Policy documents search " ++ "was unavailable." ++ "*" /\
    DualAnswer.citations r
    = [FromFile {| FileCitation.title := "handbook.pdf";
                   FileCitation.url := None |}] /\
    DualAnswer.denied r = None.
Proof.
  apply (execute_file_only (Some "vs_1") None (fileSearchOf worldAnswered)
           (tavilyFileSearchOf worldAnswered) true aidQuestion
           "Scholarships are listed in the handbook.");
    reflexivity.
Defined.

(** X16: failures are isolated.  The outcome of [execute] is the same
    whether the file search throws or resolves to [null], and the same
    whether the Tavily search throws or resolves to the default error
    answer without citations. *)
Theorem execute_isolates_failures :
  forall VECTOR_STORE_ID TAVILY_API_KEY fetchFileSearch fetchTavily ds query,
    (forall e,
        (forall id, completion (fetchFileSearch query id) = Throw e) ->
        completion (execute VECTOR_STORE_ID TAVILY_API_KEY fetchFileSearch
                      fetchTavily ds query)
        = completion (execute VECTOR_STORE_ID TAVILY_API_KEY
                        (fun _ _ => ret None) fetchTavily ds query)) /\
    (forall e,
        completion (fetchTavily query) = Throw e ->
        completion (execute VECTOR_STORE_ID TAVILY_API_KEY fetchFileSearch
                      fetchTavily ds query)
        = completion (execute VECTOR_STORE_ID TAVILY_API_KEY fetchFileSearch
                        (fun _ => ret defaultErrorAnswer) ds query)).
Proof.
  intros vs tk fetchFileSearch fetchTavily ds query. split.
  - intros e Hthrow. rewrite !execute_completion. cbv zeta.
    assert (Hst : fileState vs fetchFileSearch query
                  = fileState vs (fun _ _ => ret None) query).
    { unfold fileState, fileAnswerOf, fileResultOf.
      destruct vs as [[|c s]|]; try reflexivity.
      now rewrite Hthrow, completion_ret. }
    now rewrite Hst.
  - intros e Hthrow. rewrite !execute_completion. cbv zeta.
    unfold tavilyResultOf. rewrite Hthrow, completion_ret.
    destruct (truthy_string tk); [|reflexivity].
    change (meaningfulTavilyAnswer defaultErrorAnswer) with false.
    cbn [defaultErrorAnswer TavilyAnswer.denied truthy_flag andb].
    rewrite !combineResults_completion. cbv zeta.
    unfold fileState.
    now destruct (fileAnswerOf vs fetchFileSearch query).
Qed.

Lemma execute_isolates_failures_witness :
  completion (dualSearchTool worldTavilyDown aidQuestion)
  = completion (execute (Some "vs_1") (Some "tvly-key") (fun _ _ => ret None)
                  (tavilyFileSearchOf worldTavilyDown) false aidQuestion).
Proof.
  apply (proj1 (execute_isolates_failures (Some "vs_1") (Some "tvly-key")
                  (fileSearchOf worldTavilyDown)
                  (tavilyFileSearchOf worldTavilyDown) false aidQuestion)
           (Rejected "unavailable")).
  reflexivity.
Defined.

Lemma fileCitationsOf_length (r : option FileSearchResult.t) :
  length (fileCitationsOf r) = fileCitationCount r.
Proof.
  destruct r as [f|]; [|reflexivity]. unfold fileCitationsOf, fileCitationCount.
  destruct (FileSearchResult.citations f); [apply length_map|reflexivity].
Qed.

(** X17: in every outcome with counters, [totalSources] is the number of
    citations returned and never exceeds [fileCitations + tavilyCitations];
    the two are equal when both searches are reported as found. *)
Theorem execute_counters :
  forall VECTOR_STORE_ID TAVILY_API_KEY fetchFileSearch fetchTavily ds query
         r stats,
    completion (execute VECTOR_STORE_ID TAVILY_API_KEY fetchFileSearch
                  fetchTavily ds query) = Normal r ->
    DualAnswer.searchStats r = Some stats ->
    DualStats.totalSources stats = length (DualAnswer.citations r) /\
    forall nFile nTavily,
      DualStats.fileCitations stats = Some nFile ->
      DualStats.tavilyCitations stats = Some nTavily ->
      DualStats.totalSources stats <= nFile + nTavily /\
      (DualStats.fileResultsFound stats = Some true ->
       DualStats.tavilyResultsFound stats = Some true ->
       DualStats.totalSources stats = nFile + nTavily).
Proof.
  intros vs tk fetchFileSearch fetchTavily ds query r stats.
  rewrite execute_completion. cbv zeta.
  pose proof (fileCitationsOf_length (fileResultOf vs fetchFileSearch query))
    as Hlen.
  unfold fileState.
  destruct (tavilyResultOf tk fetchTavily query) as [t|];
    [destruct (meaningfulTavilyAnswer t);
     [|destruct (truthy_flag (TavilyAnswer.denied t))]|];
    destruct (fileAnswerOf vs fetchFileSearch query) as [a|];
    cbn [hasFileResults negb andb];
    rewrite ?combineResults_completion; cbv zeta;
    cbn [withTavilyResults withoutTavilyResults hasFileResults
           hasTavilyResults fileSearchResults tavilyResults combinedCitations
           negb andb denialOf nothingFound];
    intros [= <-]; cbn [DualAnswer.searchStats]; intros [= <-];
    cbn [DualAnswer.citations DualStats.totalSources DualStats.fileCitations
           DualStats.tavilyCitations DualStats.fileResultsFound
           DualStats.tavilyResultsFound tavilyCitationCount];
    (split; [reflexivity|]);
    intros nFile nTavily [= <-]; try (intros [= <-]);
    rewrite ?length_app, ?length_map, ?Hlen; cbn [length];
    (split; [lia|]); intros; try discriminate; lia.
Qed.

Lemma execute_counters_witness :
  exists r stats,
    completion (dualSearchTool worldAnswered aidQuestion) = Normal r /\
    DualAnswer.searchStats r = Some stats /\
    DualStats.totalSources stats = length (DualAnswer.citations r).
Proof.
  eexists. eexists. split; [reflexivity|]. split; [reflexivity|].
  apply (execute_counters (Some "vs_1") (Some "tvly-key")
           (fileSearchOf worldAnswered) (tavilyFileSearchOf worldAnswered)
           true aidQuestion _ _ eq_refl eq_refl).
Defined.

(** X18: the citations [execute] returns are the file citations when the
    file answer is meaningful, followed by the Tavily citations when the
    Tavily answer is meaningful, and nothing else: citations that come with
    an answer that does not count are never returned. *)
Theorem execute_citations :
  forall VECTOR_STORE_ID TAVILY_API_KEY fetchFileSearch fetchTavily ds query r,
    completion (execute VECTOR_STORE_ID TAVILY_API_KEY fetchFileSearch
                  fetchTavily ds query) = Normal r ->
    DualAnswer.citations r
    = (match fileAnswerOf VECTOR_STORE_ID fetchFileSearch query with
       | Some _ =>
           fileCitationsOf (fileResultOf VECTOR_STORE_ID fetchFileSearch query)
       | None => []
       end
       ++ match tavilyAnswerOf TAVILY_API_KEY fetchTavily query with
          | Some t => map FromTavily (TavilyAnswer.citations t)
          | None => []
          end)%list.
Proof.
  intros vs tk fetchFileSearch fetchTavily ds query r.
  rewrite execute_completion. cbv zeta.
  unfold tavilyAnswerOf, fileState.
  destruct (tavilyResultOf tk fetchTavily query) as [t|];
    [destruct (meaningfulTavilyAnswer t);
     [|destruct (truthy_flag (TavilyAnswer.denied t))]|];
    destruct (fileAnswerOf vs fetchFileSearch query) as [a|];
    cbn [hasFileResults negb andb];
    rewrite ?combineResults_completion; cbv zeta;
    cbn [withTavilyResults withoutTavilyResults hasFileResults
           hasTavilyResults combinedCitations negb andb denialOf nothingFound];
    intros [= <-]; cbn [DualAnswer.citations];
    now rewrite ?app_nil_r.
Qed.

Lemma execute_citations_witness :
  exists r,
    completion (dualSearchTool worldDeniedWithFileAnswer aidQuestion) = Normal r /\
    DualAnswer.citations r
    = ([FromFile {| FileCitation.title := "handbook.pdf";
                    FileCitation.url := None |}] ++ [])%list.
Proof.
  eexists. split; [reflexivity|].
  apply (execute_citations (Some "vs_1") (Some "tvly-key")
           (fileSearchOf worldDeniedWithFileAnswer)
           (tavilyFileSearchOf worldDeniedWithFileAnswer) true aidQuestion
           _ eq_refl).
Defined.

(* ================================================================== *)
(** ** The Tavily tool *)
(* ================================================================== *)

Lemma fetchTavilyFileSearch_total w query :
  exists t, completion (tavilyFileSearchOf w query) = Normal t.
Proof.
  unfold tavilyFileSearchOf, fetchTavilyFileSearch.
  apply tryCatch_total. intros e. now eexists.
Qed.

(** X19: the Tavily tool answers with a fixed string, after one console
    message and without calling any service, when [TAVILY_API_KEY] is
    missing or empty; otherwise it returns the object of
    [fetchTavilyFileSearch] and makes exactly its calls.  It never throws
    and never answers with its other fixed string, because
    [fetchTavilyFileSearch] never throws. *)
Theorem tavilyFileSearchTool_outcomes :
  forall w query,
    (truthy_string (env_TAVILY_API_KEY w) = false ->
     tavilyFileSearchTool w query
     = (Normal (inl TOOL_UNAVAILABLE_MESSAGE),
        [ConsoleError "Missing TAVILY_API_KEY environment variable"])) /\
    (truthy_string (env_TAVILY_API_KEY w) = true ->
     exists t,
       completion (tavilyFileSearchOf w query) = Normal t /\
       completion (tavilyFileSearchTool w query) = Normal (inr t) /\
       trace (tavilyFileSearchTool w query) = trace (tavilyFileSearchOf w query)) /\
    completion (tavilyFileSearchTool w query) <> Normal (inl TOOL_ISSUE_MESSAGE) /\
    exists outcome, completion (tavilyFileSearchTool w query) = Normal outcome.
Proof.
  intros w query.
  unfold tavilyFileSearchTool, tavilyFileSearchTool_execute.
  destruct (fetchTavilyFileSearch_total w query) as [t Ht].
  destruct (truthy_string (env_TAVILY_API_KEY w)); cbn [negb].
  - split; [discriminate|]. split; [|split].
    + intros _. exists t. split; [exact Ht|].
      rewrite completion_tryCatch, completion_bind, Ht, completion_ret.
      split; [reflexivity|].
      rewrite trace_tryCatch, trace_bind, completion_bind, Ht, completion_ret.
      cbn [trace ret snd]. now rewrite !app_nil_r.
    + rewrite completion_tryCatch, completion_bind, Ht, completion_ret.
      discriminate.
    + rewrite completion_tryCatch, completion_bind, Ht, completion_ret.
      now eexists.
  - split; [reflexivity|]. split; [discriminate|]. split.
    + discriminate.
    + now eexists.
Qed.

Lemma tavilyFileSearchTool_outcomes_witness :
  tavilyFileSearchTool worldUnconfigured aidQuestion
  = (Normal (inl TOOL_UNAVAILABLE_MESSAGE),
     [ConsoleError "Missing TAVILY_API_KEY environment variable"]).
Proof.
  apply (proj1 (tavilyFileSearchTool_outcomes worldUnconfigured aidQuestion)).
  reflexivity.
Defined.

(* ================================================================== *)
(** ** Keyword extraction *)
(* ================================================================== *)

Lemma isUpper_lower_ascii (c : ascii) : isUpper (lower_ascii c) = false.
Proof. destruct c as [[] [] [] [] [] [] [] []]; reflexivity. Qed.

Lemma toLowerCase_no_upper (s : string) :
  allChars (fun c => negb (isUpper c)) (toLowerCase s) = true.
Proof.
  induction s as [|c s IH]; simpl; [reflexivity|].
  now rewrite isUpper_lower_ascii, IH.
Qed.

Lemma matchWords_cons (c : ascii) (s : string) :
  matchWords (String c s)
  = if isWordChar c then
      match s with
      | String c' _ =>
          if isWordChar c' then
            match matchWords s with
            | w :: ws => String c w :: ws
            | [] => [String c EmptyString]
            end
          else String c EmptyString :: matchWords s
      | EmptyString => [String c EmptyString]
      end
    else matchWords s.
Proof. reflexivity. Qed.

Lemma matchWords_head (c : ascii) (s : string) :
  isWordChar c = true ->
  exists w ws, matchWords (String c s) = String c w :: ws.
Proof.
  intros Hc. revert c Hc. induction s as [|c' s IH]; intros c Hc.
  - rewrite matchWords_cons, Hc. now eexists _, _.
  - rewrite matchWords_cons, Hc.
    destruct (isWordChar c') eqn:Hc'.
    + destruct (IH c' Hc') as (w & ws & ->). now eexists _, _.
    + now eexists _, _.
Qed.

(** Each match is a non-empty run of word characters, made of characters
    of the input. *)
Lemma matchWords_runs (p : ascii -> bool) (s : string) :
  allChars p s = true ->
  Forall (fun w => w <> "" /\ allChars isWordChar w = true
                   /\ allChars p w = true) (matchWords s).
Proof.
  induction s as [|c s IH]; intros Hp; [constructor|].
  cbn [allChars] in Hp. apply andb_true_iff in Hp. destruct Hp as [Hc Hs].
  specialize (IH Hs). rewrite matchWords_cons.
  destruct (isWordChar c) eqn:Hw; [|exact IH].
  destruct s as [|c' s'].
  { constructor; [|constructor]. split; [discriminate|].
    cbn [allChars]. now rewrite Hw, Hc. }
  destruct (isWordChar c') eqn:Hw'.
  - destruct (matchWords_head c' s' Hw') as (w & ws & E).
    rewrite E in *. inversion IH as [|? ? (Hne & Hall & Hpw) Hrest]; subst.
    constructor; [|exact Hrest].
    split; [discriminate|]. cbn [allChars] in *. now rewrite Hw, Hc, Hall, Hpw.
  - constructor; [|exact IH].
    split; [discriminate|]. cbn [allChars]. now rewrite Hw, Hc.
Qed.

Lemma keywordsFromQuery_spec (query : string) :
  length (keywordsFromQuery query) <= 5 /\
  Forall (fun k =>
            In k (matchWords (toLowerCase query)) /\
            3 <= String.length k /\
            ~ In k STOP_WORDS /\
            allChars isWordChar k = true /\
            allChars (fun c => negb (isUpper c)) k = true)
         (keywordsFromQuery query).
Proof.
  unfold keywordsFromQuery. split; [apply firstn_le_length|].
  apply Forall_forall. intros k Hk. apply firstn_incl in Hk.
  apply filter_In in Hk. destruct Hk as [Hin Hcond].
  apply andb_true_iff in Hcond. destruct Hcond as [Hlen Hstop].
  pose proof (matchWords_runs _ _ (toLowerCase_no_upper query)) as Hruns.
  rewrite Forall_forall in Hruns. destruct (Hruns k Hin) as (_ & Hw & Hl).
  repeat split; try assumption.
  - apply Nat.ltb_lt in Hlen. lia.
  - intros Hs. apply negb_true_iff in Hstop. unfold includes in Hstop.
    assert (existsb (String.eqb k) STOP_WORDS = true) as E.
    { apply existsb_exists. exists k. split; [exact Hs|apply String.eqb_refl]. }
    congruence.
Qed.


Lemma extractKeywords_completion openai_create JSON_parse query :
  completion (extractKeywords openai_create JSON_parse query)
  = Normal
      match openai_create (keywordRequest query) with
      | Throw _ => keywordsFromQuery query
      | Normal response =>
          match firstContent response with
          | Normal (Some (String c s)) =>
              match JSON_parse (String c s) with
              | Some (JArray keywords) => nonBlankStrings keywords
              | Some _ => []
              | None => keywordsFromContent (String c s)
              end
          | _ => keywordsFromQuery query
          end
      end.
Proof.
  unfold extractKeywords.
  rewrite completion_tryCatch, completion_bind.
  unfold openai_chat_completions_create at 1. unfold completion at 1.
  cbn [fst].
  destruct (openai_create (keywordRequest query)) as [response|e];
    [|now run_completion].
  rewrite completion_bind. unfold liftCompletion at 1. unfold completion at 1.
  cbn [fst].
  destruct (firstContent response) as [[[|c s]|]|e]; try (now run_completion).
  destruct (JSON_parse (String c s)) as [[]|]; now run_completion.
Qed.

(** X20: when the chat call of [extractKeywords] is rejected or gives no
    text, the keywords are taken from the query itself: at most 5 of its
    words, in lower case, each of at least 3 characters and none of them a
    stop word. *)
Theorem extractKeywords_fallback :
  forall openai_create JSON_parse query,
    keywordCallFails openai_create query ->
    completion (extractKeywords openai_create JSON_parse query)
    = Normal (keywordsFromQuery query) /\
    length (keywordsFromQuery query) <= 5 /\
    Forall (fun k =>
              In k (matchWords (toLowerCase query)) /\
              3 <= String.length k /\
              ~ In k STOP_WORDS /\
              allChars isWordChar k = true /\
              allChars (fun c => negb (isUpper c)) k = true)
           (keywordsFromQuery query).
Proof.
  intros openai_create JSON_parse query Hfail.
  split; [|apply keywordsFromQuery_spec].
  rewrite extractKeywords_completion. unfold keywordCallFails in Hfail.
  destruct (openai_create (keywordRequest query)) as [response|e];
    [|reflexivity].
  now destruct (firstContent response) as [[[|c s]|]|e].
Qed.

Lemma extractKeywords_fallback_witness :
  completion (extractKeywords (fun _ => Throw (Rejected "timeout"))
                (fun _ => None) "How do I apply for the Robotics minor?")
  = Normal (keywordsFromQuery "How do I apply for the Robotics minor?") /\
  keywordsFromQuery "How do I apply for the Robotics minor?"
  = ["apply"; "robotics"; "minor"].
Proof.
  split; [|reflexivity].
  apply (extractKeywords_fallback (fun _ => Throw (Rejected "timeout"))
           (fun _ => None) "How do I apply for the Robotics minor?").
  exact I.
Defined.

Lemma nonBlankStrings_In (keywords : list JSON) (k : string) :
  In k (nonBlankStrings keywords) <-> In (JString k) keywords /\ trim k <> "".
Proof.
  induction keywords as [|j ks IH]; [simpl; tauto|].
  assert (Hblank : forall s, (0 <? String.length (trim s)) = true <-> trim s <> "").
  { intros s. rewrite Nat.ltb_lt. destruct (trim s); simpl; split;
      try lia; try congruence; intros; lia. }
  destruct j as [| b | q | s | items | members]; cbn [nonBlankStrings];
    try (rewrite IH; simpl; split;
         [intros [H1 H2]; auto|intros [[H1|H1] H2]; [discriminate|auto]]).
  destruct (0 <? String.length (trim s)) eqn:E.
  - apply Hblank in E. simpl. rewrite IH. split.
    + intros [<-|[H1 H2]]; auto.
    + intros [[[= <-]|H1] H2]; auto.
  - assert (trim s = "") as E'.
    { destruct (trim s); [reflexivity|discriminate]. }
    rewrite IH. simpl. split.
    + intros [H1 H2]; auto.
    + intros [[[= <-]|H1] H2]; [contradiction|auto].
Qed.

Lemma nonBlankStrings_all (keywords : list JSON) :
  (forall j, In j keywords -> exists k, j = JString k /\ trim k <> "") ->
  map JString (nonBlankStrings keywords) = keywords.
Proof.
  induction keywords as [|j ks IH]; intros H; [reflexivity|].
  destruct (H j (or_introl eq_refl)) as (k & -> & Hk).
  cbn [nonBlankStrings].
  destruct (trim k) as [|c s] eqn:E; [contradiction|].
  cbn [String.length Nat.ltb Nat.leb map]. f_equal.
  apply IH. intros j Hj. apply H. now right.
Qed.

(** X21: when the model answers with a JSON array, [extractKeywords]
    returns its elements that are strings with something other than white
    space, unchanged and in order; the other elements are dropped, and
    the number of keywords is not limited: an array of non-blank strings
    comes back whole. *)
Theorem extractKeywords_json_array :
  forall openai_create JSON_parse query response content keywords,
    openai_create (keywordRequest query) = Normal response ->
    firstContent response = Normal (Some content) ->
    content <> "" ->
    JSON_parse content = Some (JArray keywords) ->
    completion (extractKeywords openai_create JSON_parse query)
    = Normal (nonBlankStrings keywords) /\
    (forall k,
        In k (nonBlankStrings keywords) <->
        In (JString k) keywords /\ trim k <> "") /\
    ((forall j, In j keywords -> exists k, j = JString k /\ trim k <> "") ->
     map JString (nonBlankStrings keywords) = keywords).
Proof.
  intros openai_create JSON_parse query response content keywords
    Hcall Hcontent Hne Hparse.
  split; [|split; [apply nonBlankStrings_In|apply nonBlankStrings_all]].
  rewrite extractKeywords_completion, Hcall, Hcontent.
  destruct content as [|c s]; [contradiction|]. now rewrite Hparse.
Qed.

Lemma extractKeywords_json_array_witness :
  completion
    (extractKeywords (fun _ => Normal (chatReply "[six keywords and a number]"))
       (fun _ => Some (JArray [JString "financial aid"; JString "application";
                               JString "apply"; JNumber 3%Q; JString " ";
                               JString "tuition"; JString "grants";
                               JString "fees"]))
       "How do I apply for financial aid?")
  = Normal ["financial aid"; "application"; "apply"; "tuition"; "grants"; "fees"].
Proof.
  apply (extractKeywords_json_array
           (fun _ => Normal (chatReply "[six keywords and a number]"))
           (fun _ => Some (JArray [JString "financial aid"; JString "application";
                                   JString "apply"; JNumber 3%Q; JString " ";
                                   JString "tuition"; JString "grants";
                                   JString "fees"]))
           "How do I apply for financial aid?"
           (chatReply "[six keywords and a number]")
           "[six keywords and a number]" _ eq_refl eq_refl
           ltac:(discriminate) eq_refl).
Defined.

Lemma keywordsFromContent_spec (content : string) :
  length (keywordsFromContent content) <= 5 /\
  Forall (fun k =>
            In k (matchWords (toLowerCase content)) /\
            3 <= String.length k /\
            allChars isWordChar k = true)
         (keywordsFromContent content).
Proof.
  unfold keywordsFromContent. split; [apply firstn_le_length|].
  apply Forall_forall. intros k Hk. apply firstn_incl in Hk.
  apply filter_In in Hk. destruct Hk as [Hin Hlen].
  pose proof (matchWords_runs _ _ (toLowerCase_no_upper content)) as Hruns.
  rewrite Forall_forall in Hruns. destruct (Hruns k Hin) as (_ & Hw & _).
  repeat split; try assumption. apply Nat.ltb_lt in Hlen. lia.
Qed.

(** X22: when the model answers with text that is valid JSON but not an
    array, [extractKeywords] returns no keyword at all; when the text is
    not JSON, it returns at most 5 words of that text, in lower case, each
    of at least 3 characters. *)
Theorem extractKeywords_not_an_array :
  forall openai_create JSON_parse query response content,
    openai_create (keywordRequest query) = Normal response ->
    firstContent response = Normal (Some content) ->
    content <> "" ->
    (forall j,
        JSON_parse content = Some j ->
        (forall keywords, j <> JArray keywords) ->
        completion (extractKeywords openai_create JSON_parse query) = Normal []) /\
    (JSON_parse content = None ->
     completion (extractKeywords openai_create JSON_parse query)
     = Normal (keywordsFromContent content) /\
     length (keywordsFromContent content) <= 5 /\
     Forall (fun k =>
               In k (matchWords (toLowerCase content)) /\
               3 <= String.length k /\
               allChars isWordChar k = true)
            (keywordsFromContent content)).
Proof.
  intros openai_create JSON_parse query response content Hcall Hcontent Hne.
  rewrite extractKeywords_completion, Hcall, Hcontent.
  destruct content as [|c s]; [contradiction|]. split.
  - intros j -> Hnot.
    destruct j as [| b | q | k | keywords | members]; try reflexivity.
    now destruct (Hnot keywords).
  - intros ->. split; [reflexivity|apply keywordsFromContent_spec].
Qed.

Lemma extractKeywords_not_an_array_witness :
  completion (extractKeywords
                (fun _ => Normal (chatReply "Keywords: Robotics, minor"))
                (fun _ => None) "What are the requirements?")
  = Normal ["keywords"; "robotics"; "minor"].
Proof.
  apply (proj2 (extractKeywords_not_an_array
                  (fun _ => Normal (chatReply "Keywords: Robotics, minor"))
                  (fun _ => None) "What are the requirements?"
                  (chatReply "Keywords: Robotics, minor")
                  "Keywords: Robotics, minor" eq_refl eq_refl
                  ltac:(discriminate)) eq_refl).
Defined.

(* ================================================================== *)
(** ** The policy-site search tool *)
(* ================================================================== *)

Lemma extractKeywords_total openai_create JSON_parse query :
  exists ks, completion (extractKeywords openai_create JSON_parse query) = Normal ks.
Proof. rewrite extractKeywords_completion. now eexists. Qed.

Lemma extractKeywords_calls openai_create JSON_parse query :
  filter isTavilySearch (trace (extractKeywords openai_create JSON_parse query))
  = [] /\
  filter isOpenAICall (trace (extractKeywords openai_create JSON_parse query))
  = [OpenAICall (keywordRequest query)].
Proof.
  unfold extractKeywords. split.
  - apply filter_nil_tryCatch; [|reflexivity].
    apply filter_nil_bind; [reflexivity|intros response _].
    apply filter_nil_bind; [reflexivity|intros [[|c s]|] _; try reflexivity].
    now destruct (JSON_parse (String c s)) as [[]|].
  - rewrite filter_tryCatch_l by reflexivity.
    rewrite filter_bind_l; [reflexivity|].
    intros response. apply filter_nil_bind; [reflexivity|].
    intros [[|c s]|] _; try reflexivity.
    now destruct (JSON_parse (String c s)) as [[]|].
Qed.

Module PolicySearchFacts.

Import PolicySearch.

Lemma performTavilySearch_trace tavily_search searchQuery :
  filter isTavilySearch (trace (performTavilySearch tavily_search searchQuery))
  = [TavilySearch searchQuery searchOptions] /\
  filter isOpenAICall (trace (performTavilySearch tavily_search searchQuery))
  = [].
Proof.
  unfold performTavilySearch. split.
  - now rewrite filter_tryCatch_l by reflexivity.
  - now apply filter_nil_tryCatch.
Qed.

Lemma performTavilySearch_completion tavily_search searchQuery :
  completion (performTavilySearch tavily_search searchQuery)
  = tavily_search searchQuery searchOptions.
Proof.
  unfold performTavilySearch. rewrite completion_tryCatch.
  unfold tavilyClient_search, completion at 1. cbn [fst].
  now destruct (tavily_search searchQuery searchOptions).
Qed.

Lemma generateAnswerWithContext_no_search openai_create instruction query rs :
  filter isTavilySearch
    (trace (generateAnswerWithContext openai_create instruction query rs)) = [].
Proof.
  unfold generateAnswerWithContext.
  apply filter_nil_tryCatch; [|reflexivity].
  apply filter_nil_bind; [reflexivity|intros response _].
  apply filter_nil_bind; [reflexivity|intros [[|c s]|] _; reflexivity].
Qed.

(** X23: when no keyword can be extracted, this [fetchTavilyFileSearch]
    returns its fixed message with no citations, and neither searches nor
    generates: the keyword request is the only call of the run. *)
Theorem fetchTavilyFileSearch_no_keywords :
  forall openai_create JSON_parse tavily_search instruction query,
    completion (extractKeywords openai_create JSON_parse query) = Normal [] ->
    completion (fetchTavilyFileSearch openai_create JSON_parse tavily_search
                  instruction query)
    = Normal {| Answer.answer := NO_KEYWORDS_MESSAGE;
                Answer.citations := [];
                Answer.searchQuery := None;
                Answer.keywords := None |} /\
    remoteCalls
      (trace (fetchTavilyFileSearch openai_create JSON_parse tavily_search
                instruction query))
    = [OpenAICall (keywordRequest query)].
Proof.
  intros openai_create JSON_parse tavily_search instruction query Hks.
  unfold fetchTavilyFileSearch. split.
  - now rewrite completion_tryCatch, completion_bind, Hks.
  - unfold remoteCalls.
    rewrite filter_tryCatch_l by reflexivity.
    rewrite (filter_bind _ _ _ _ Hks). cbn [trace ret snd filter].
    rewrite app_nil_r. unfold extractKeywords.
    rewrite filter_tryCatch_l by reflexivity.
    rewrite filter_bind_l; [reflexivity|].
    intros response. apply filter_nil_bind; [reflexivity|].
    intros [[|c s]|] _; try reflexivity.
    now destruct (JSON_parse (String c s)) as [[]|].
Qed.

Lemma fetchTavilyFileSearch_no_keywords_witness :
  completion (fetchTavilyFileSearch (fun _ => Throw (Rejected "timeout"))
                (fun _ => None) (fun _ _ => Throw (Rejected "unused"))
                "INSTRUCTION" "How do I?")
  = Normal {| Answer.answer := NO_KEYWORDS_MESSAGE;
              Answer.citations := [];
              Answer.searchQuery := None;
              Answer.keywords := None |}.
Proof.
  apply (proj1 (fetchTavilyFileSearch_no_keywords
                  (fun _ => Throw (Rejected "timeout")) (fun _ => None)
                  (fun _ _ => Throw (Rejected "unused")) "INSTRUCTION"
                  "How do I?" eq_refl)).
Defined.

(** X24: this [fetchTavilyFileSearch] searches exactly once when some
    keyword was extracted, and not at all otherwise; the query of that
    search is the site restriction [site:policy.vinuni.edu.vn/] followed
    by the keywords, each in double quotes, separated by spaces, with
    depth [basic] and at most 5 results. *)
Theorem fetchTavilyFileSearch_one_search :
  forall openai_create JSON_parse tavily_search instruction query,
    filter isTavilySearch
      (trace (fetchTavilyFileSearch openai_create JSON_parse tavily_search
                instruction query))
    = match completion (extractKeywords openai_create JSON_parse query) with
      | Normal (k :: ks) =>
          [TavilySearch
             ("site:policy.vinuni.edu.vn/ "
              ++ join " " (map (fun keyword => dquote ++ keyword ++ dquote)
                             (k :: ks)))
             {| searchDepth := basic;
                includeImages := false;
                includeAnswer := false;
                maxResults := 5;
                includeRawContent := "" |}]
      | _ => []
      end.
Proof.
  intros openai_create JSON_parse tavily_search instruction query.
  unfold fetchTavilyFileSearch.
  rewrite filter_tryCatch_l by reflexivity.
  destruct (extractKeywords_total openai_create JSON_parse query) as [ks Hks].
  rewrite (filter_bind _ _ _ _ Hks), Hks.
  rewrite (proj1 (extractKeywords_calls _ _ _)). cbn [app].
  destruct ks as [|k ks]; [reflexivity|].
  rewrite filter_bind_l.
  - apply performTavilySearch_trace.
  - intros searchResponse.
    destruct (results searchResponse) as [[|first others]|]; try reflexivity.
    apply filter_nil_bind; [apply generateAnswerWithContext_no_search|].
    intros answer _. destruct (String.eqb answer "DENIED"); [reflexivity|].
    now destruct (String.eqb answer "NOT_FOUND").
Qed.

(** X25: when keywords were extracted, the search returned results and the
    generator returns a text other than the two tokens, this
    [fetchTavilyFileSearch] returns that text with one citation per search
    result, in the order of the search response and with the snippet as
    content: the results are neither filtered nor re-ranked. *)
Theorem fetchTavilyFileSearch_cites_all_results :
  forall openai_create JSON_parse tavily_search instruction query
         keywords searchResults text,
    completion (extractKeywords openai_create JSON_parse query)
    = Normal keywords ->
    keywords <> [] ->
    tavily_search (buildSearchQuery keywords) searchOptions
    = Normal {| results := Some searchResults |} ->
    searchResults <> [] ->
    completion (generateAnswerWithContext openai_create instruction query
                  searchResults) = Normal text ->
    text <> "DENIED" -> text <> "NOT_FOUND" ->
    exists r,
      completion (fetchTavilyFileSearch openai_create JSON_parse tavily_search
                    instruction query) = Normal r /\
      Answer.answer r = text /\
      Answer.searchQuery r = Some (buildSearchQuery keywords) /\
      Answer.keywords r = Some keywords /\
      map Citation.url (Answer.citations r) = map Result.url searchResults /\
      map Citation.content (Answer.citations r)
      = map (fun result => Some (Result.content result)) searchResults.
Proof.
  intros openai_create JSON_parse tavily_search instruction query
    keywords searchResults text Hks Hne Hsearch Hrs Hgen Hd Hn.
  unfold fetchTavilyFileSearch.
  rewrite completion_tryCatch, completion_bind, Hks.
  destruct keywords as [|k ks]; [contradiction|].
  rewrite completion_bind, performTavilySearch_completion, Hsearch.
  cbn [results].
  destruct searchResults as [|first others]; [contradiction|].
  rewrite completion_bind, Hgen.
  apply String.eqb_neq in Hd, Hn. rewrite Hd, Hn, completion_ret.
  eexists. split; [reflexivity|].
  cbn [Answer.answer Answer.searchQuery Answer.keywords Answer.citations].
  unfold formatCitations. rewrite !map_map. repeat split; reflexivity.
Qed.

Lemma fetchTavilyFileSearch_cites_all_results_witness :
  exists r,
    completion
      (fetchTavilyFileSearch
         (answeringOnly "Aid is described in the policy.")
         (fun _ => None)
         (fun _ _ => Normal {| results := Some [outsidePage; aidFromPolicy] |})
         "INSTRUCTION" "Financial aid options") = Normal r /\
    Answer.answer r = "Aid is described in the policy." /\
    Answer.searchQuery r = Some (buildSearchQuery ["financial"; "aid"; "options"]) /\
    Answer.keywords r = Some ["financial"; "aid"; "options"] /\
    map Citation.url (Answer.citations r)
    = map Result.url [outsidePage; aidFromPolicy] /\
    map Citation.content (Answer.citations r)
    = map (fun result => Some (Result.content result)) [outsidePage; aidFromPolicy].
Proof.
  apply (fetchTavilyFileSearch_cites_all_results
           (answeringOnly "Aid is described in the policy.")
           (fun _ => None)
           (fun _ _ => Normal {| results := Some [outsidePage; aidFromPolicy] |})
           "INSTRUCTION" "Financial aid options"
           ["financial"; "aid"; "options"] [outsidePage; aidFromPolicy]
           "Aid is described in the policy.");
    try reflexivity; discriminate.
Defined.

End PolicySearchFacts.

(* ================================================================== *)
(** ** Events that never occur *)
(* ================================================================== *)

Lemma Forall_bind {A B} (P : Event -> Prop) (m : M A) (k : A -> M B) :
  Forall P (trace m) ->
  (forall a, completion m = Normal a -> Forall P (trace (k a))) ->
  Forall P (trace (bind m k)).
Proof.
  intros Hm Hk. rewrite trace_bind. apply Forall_app. split; [exact Hm|].
  destruct (completion m) as [a|e]; [now apply Hk|constructor].
Qed.

Lemma Forall_tryCatch {A} (P : Event -> Prop) (m : M A) (h : Exn -> M A) :
  Forall P (trace m) ->
  (forall e, Forall P (trace (h e))) ->
  Forall P (trace (tryCatch m h)).
Proof.
  intros Hm Hh. rewrite trace_tryCatch. apply Forall_app. split; [exact Hm|].
  destruct (completion m) as [a|e]; [constructor|apply Hh].
Qed.

Section NeverInTavilyFlow.

(** A kind of event that the Tavily flow does not produce: its calls are
    chat requests and Tavily searches, and its records carry its own
    steps and labels. *)
Variable f : Event -> bool.
Hypothesis f_chat : forall request, f (OpenAICall request) = false.
Hypothesis f_search : forall query options, f (TavilySearch query options) = false.
Hypothesis f_log : forall label, f (ConsoleLog label) = false.
Hypothesis f_steps :
  forall step,
    In step ["validate-query"; "extract-keywords"; "keywords-extracted";
             "search-policy"; "search-general"; "filter-results";
             "search-complete"; "generate-answer"] ->
    f (Progress step) = false.
Hypothesis f_labels :
  forall label,
    In label ["Query validation failed:"; "Dual domain search failed:";
              "Answer generation failed:"; "Tavily file search error:"] ->
    f (ConsoleError label) = false.

Let P := fun e => f e = false.

Ltac leaf :=
  repeat constructor; unfold P;
  first [apply f_chat | apply f_search | apply f_log
        | apply f_steps; simpl; tauto | apply f_labels; simpl; tauto].

Ltac walk :=
  repeat match goal with
    | |- Forall _ (trace (tryCatch _ _)) =>
        apply Forall_tryCatch; [|intros ?]
    | |- Forall _ (trace (bind _ _)) => apply Forall_bind; [|intros ? _]
    | |- Forall _ (trace (writeData ?stream _)) => destruct stream; simpl; leaf
    | |- Forall _ (trace (if ?b then _ else _)) => destruct b
    | |- Forall _ (trace (match ?x with _ => _ end)) => destruct x
    | |- Forall _ (trace (ret _)) => constructor
    | |- Forall _ (trace (throw _)) => constructor
    | |- Forall _ (trace (liftCompletion _)) => constructor
    | |- Forall _ (trace (emit _)) => leaf
    | |- Forall _ (trace (openai_chat_completions_create _ _)) => leaf
    | |- Forall _ (trace (tavilyClient_search _ _ _)) => leaf
    end.

Lemma fetchTavilyFileSearch_events
    openai_create tavily_search prompt instruction (dataStream : DataStream)
    query :
  Forall P (trace (fetchTavilyFileSearch openai_create tavily_search prompt
                     instruction dataStream query)).
Proof.
  unfold fetchTavilyFileSearch, validateVinUniQuery, performDualDomainSearch,
    generateAnswerWithContext.
  walk.
Qed.

Lemma fetchTavilyFileSearch_never
    openai_create tavily_search prompt instruction (dataStream : DataStream)
    query :
  filter f (trace (fetchTavilyFileSearch openai_create tavily_search prompt
                     instruction dataStream query)) = [].
Proof.
  pose proof (fetchTavilyFileSearch_events openai_create tavily_search prompt
                instruction dataStream query) as H.
  induction H as [|e l He _ IH]; [reflexivity|].
  simpl. unfold P in He. now rewrite He.
Qed.

End NeverInTavilyFlow.

Lemma writeData_filter_step (f : Event -> bool) (dataStream : DataStream)
    (step : string) :
  f (Progress step) = false ->
  filter f (trace (writeData dataStream step)) = [].
Proof. intros H. destruct dataStream; simpl; [reflexivity|now rewrite H]. Qed.

Lemma filter_tryCatch_normal {A} (f : Event -> bool) (m : M A) (h : Exn -> M A) a :
  completion m = Normal a ->
  filter f (trace (tryCatch m h)) = filter f (trace m).
Proof. intros H. now rewrite trace_tryCatch, H, app_nil_r. Qed.

(* ================================================================== *)
(** ** The preview line of a citation *)
(* ================================================================== *)

Lemma substring0_short (n : nat) (s : string) :
  String.length s <= n -> substring0 n s = s.
Proof.
  unfold substring0. revert n.
  induction s as [|c s IH]; intros [|n] H; simpl in *;
    try reflexivity; try lia.
  f_equal. apply IH. lia.
Qed.

Lemma substring0_long (n : nat) (s : string) :
  n <= String.length s -> String.length (substring0 n s) = n.
Proof.
  unfold substring0. revert n.
  induction s as [|c s IH]; intros [|n] H; simpl in *;
    try reflexivity; try lia.
  f_equal. apply IH. lia.
Qed.

(** X28: the preview line of a citation always ends in an ellipsis when
    the citation has content: content of at most 150 characters is shown
    in full followed by [...] although nothing was cut, and longer content
    gives exactly 153 characters.  Empty content gives the fixed text
    instead. *)
Theorem contentPreview_ellipsis :
  forall citation content,
    Citation.content citation = Some content ->
    (content = EmptyString ->
     contentPreview citation = "No preview available") /\
    (content <> EmptyString -> String.length content <= 150 ->
     contentPreview citation = content ++ "...") /\
    (150 <= String.length content ->
     String.length (contentPreview citation) = 153).
Proof.
  intros citation content Hc. unfold contentPreview. rewrite Hc.
  repeat split.
  - now intros ->.
  - intros Hne Hlen. destruct content as [|c s]; [congruence|].
    now rewrite substring0_short.
  - intros Hlen. destruct content as [|c s]; [simpl in Hlen; lia|].
    rewrite append_length, substring0_long by exact Hlen. reflexivity.
Qed.

Lemma contentPreview_ellipsis_witness :
  contentPreview
    {| Citation.title := "Financial aid";
       Citation.url := Some "https://policy.vinuni.edu.vn/aid";
       Citation.content := Some "Aid is available.";
       Citation.score := None |}
  = "Aid is available....".
Proof.
  apply (contentPreview_ellipsis
           {| Citation.title := "Financial aid";
              Citation.url := Some "https://policy.vinuni.edu.vn/aid";
              Citation.content := Some "Aid is available.";
              Citation.score := None |} "Aid is available.").
  - reflexivity.
  - discriminate.
  - simpl. lia.
Defined.

(* ================================================================== *)
(** ** [execute], statement by statement *)
(* ================================================================== *)

Lemma M_ext {A} (m1 m2 : M A) :
  completion m1 = completion m2 -> trace m1 = trace m2 -> m1 = m2.
Proof. destruct m1, m2. simpl. now intros -> ->. Qed.

Lemma bind_assoc {A B C} (m : M A) (f : A -> M B) (g : B -> M C) :
  bind (bind m f) g = bind m (fun a => bind (f a) g).
Proof.
  apply M_ext.
  - rewrite !completion_bind.
    destruct (completion m); now rewrite ?completion_bind.
  - rewrite !trace_bind, !completion_bind.
    destruct (completion m) as [a|e].
    + rewrite trace_bind. now rewrite app_assoc.
    + now rewrite app_nil_r.
Qed.

Lemma bind_ret_l {A B} (a : A) (k : A -> M B) : bind (ret a) k = k a.
Proof. unfold bind. simpl. now destruct (k a). Qed.

Lemma bind_ext {A B} (m : M A) (k1 k2 : A -> M B) :
  (forall a, completion m = Normal a -> k1 a = k2 a) ->
  bind m k1 = bind m k2.
Proof.
  intros H. unfold bind. destruct (completion m) as [a|e]; [|reflexivity].
  now rewrite (H a).
Qed.

Lemma tryCatch_ext {A} (m : M A) (h1 h2 : Exn -> M A) :
  (forall e, h1 e = h2 e) -> tryCatch m h1 = tryCatch m h2.
Proof.
  intros H. unfold tryCatch. destruct (completion m) as [a|e]; [reflexivity|].
  now rewrite H.
Qed.

Lemma effect_bindB {A B} (m : Imperative.Block A) (k : A -> Imperative.Block B)
    (st : Locals) :
  Imperative.effect (Imperative.bindB m k st)
  = bind (Imperative.effect (m st))
         (fun a => Imperative.effect (k a (Imperative.vars (m st)))).
Proof.
  unfold Imperative.bindB, bind. cbv zeta.
  now destruct (completion (Imperative.effect (m st))).
Qed.

Lemma effect_tryCatchB {A} (m : Imperative.Block A)
    (h : Exn -> Imperative.Block A) (st : Locals) :
  Imperative.effect (Imperative.tryCatchB m h st)
  = tryCatch (Imperative.effect (m st))
             (fun e => Imperative.effect (h e (Imperative.vars (m st)))).
Proof.
  unfold Imperative.tryCatchB, tryCatch. cbv zeta.
  now destruct (completion (Imperative.effect (m st))).
Qed.

(** Runs the statements of a block whose collaborators have been
    analysed. *)
Ltac run_blocks :=
  cbv [Imperative.effect Imperative.vars Imperative.tryCatchB Imperative.bindB
       Imperative.run Imperative.assign Imperative.read Imperative.progress
       Imperative.console_error
       Imperative.set_fileSearchResults Imperative.set_tavilyResults
       Imperative.set_hasFileResults Imperative.set_hasTavilyResults
       Imperative.set_combinedAnswer Imperative.append_combinedAnswer
       Imperative.push_combinedCitations
       combinedAnswer combinedCitations hasFileResults hasTavilyResults
       fileSearchResults tavilyResults negb
       bind tryCatch completion trace fst snd ret emit throw
       writeData streamOf recordingStream];
  rewrite <- ?app_assoc; cbn [app].

Section Agreement.

Variable VECTOR_STORE_ID : option string.
Variable TAVILY_API_KEY : option string.
Variable fetchFileSearch : string -> string -> M (option FileSearchResult.t).
Variable fetchTavily : string -> M TavilyAnswer.t.
Variable ds : bool.
Variable query : string.

Lemma searchTavily_agrees (st : Locals) :
  Imperative.effect
    (Imperative.searchTavily TAVILY_API_KEY fetchTavily ds query st)
  = bind (searchTavily TAVILY_API_KEY fetchTavily ds query st)
         (fun outcome =>
            ret match outcome with
                | inl denial => Some denial
                | inr _ => None
                end).
Proof.
  unfold Imperative.searchTavily, searchTavily.
  destruct st as [answer cites fileFound tavilyFound fileR tavilyR].
  destruct ds; destruct (truthy_string TAVILY_API_KEY);
    try destruct (fetchTavily query) as [[t|e] t2];
    run_blocks;
    try reflexivity;
    destruct (meaningfulTavilyAnswer t);
    run_blocks; try reflexivity;
    destruct (truthy_flag (TavilyAnswer.denied t));
    run_blocks; try reflexivity;
    destruct fileFound;
    run_blocks; try reflexivity.
Qed.


Lemma searchFileDatabase_agrees :
  Imperative.searchFileDatabase VECTOR_STORE_ID fetchFileSearch ds query
    initialLocals
  = (bind (searchFileDatabase VECTOR_STORE_ID fetchFileSearch ds query)
          (fun _ => ret tt),
     fileState VECTOR_STORE_ID fetchFileSearch query).
Proof.
  unfold Imperative.searchFileDatabase, searchFileDatabase, fileState,
    fileAnswerOf, fileResultOf, initialLocals.
  destruct ds; destruct VECTOR_STORE_ID as [[|c s]|];
    try destruct (fetchFileSearch query (String c s)) as [[found|e] t1];
    run_blocks; try reflexivity;
    destruct (meaningfulFileAnswer found);
    run_blocks; reflexivity.
Qed.

Lemma searchTavily_agrees_vars (st st' : Locals) :
  hasTavilyResults st = false ->
  completion (searchTavily TAVILY_API_KEY fetchTavily ds query st)
  = Normal (inr st') ->
  Imperative.vars
    (Imperative.searchTavily TAVILY_API_KEY fetchTavily ds query st) = st'.
Proof.
  unfold Imperative.searchTavily, searchTavily.
  destruct st as [answer cites fileFound tavilyFound fileR tavilyR].
  cbn [hasTavilyResults]. intros ->.
  destruct ds; destruct (truthy_string TAVILY_API_KEY);
    try destruct (fetchTavily query) as [[t|e] t2];
    run_blocks;
    try (intros [= <-]; reflexivity);
    destruct (meaningfulTavilyAnswer t);
    run_blocks; try (intros [= <-]; reflexivity);
    destruct (truthy_flag (TavilyAnswer.denied t));
    run_blocks; try (intros [= <-]; reflexivity);
    destruct fileFound;
    run_blocks; try (intros [= <-]; reflexivity); intros [=].
Qed.

Lemma fileState_hasTavilyResults :
  hasTavilyResults (fileState VECTOR_STORE_ID fetchFileSearch query) = false.
Proof.
  unfold fileState.
  now destruct (fileAnswerOf VECTOR_STORE_ID fetchFileSearch query).
Qed.

(** Step 3. *)
Lemma combineResults_agrees (st : Locals) :
  Imperative.effect
    (Imperative.combineResults VECTOR_STORE_ID TAVILY_API_KEY ds st)
  = combineResults VECTOR_STORE_ID TAVILY_API_KEY ds st.
Proof.
  unfold Imperative.combineResults, combineResults.
  destruct st as [answer cites fileFound tavilyFound fileR tavilyR].
  destruct ds, fileFound, tavilyFound; run_blocks; reflexivity.
Qed.

(** For a stream that returns from every write, [Imperative.execute] is
    [execute]. *)
Lemma execute_agrees :
  Imperative.execute VECTOR_STORE_ID TAVILY_API_KEY fetchFileSearch fetchTavily
    ds query
  = execute VECTOR_STORE_ID TAVILY_API_KEY fetchFileSearch fetchTavily ds query.
Proof.
  unfold Imperative.execute, execute.
  rewrite effect_tryCatchB.
  transitivity
    (tryCatch
       (st <- searchFileDatabase VECTOR_STORE_ID fetchFileSearch ds query ;;
        outcome <- searchTavily TAVILY_API_KEY fetchTavily ds query st ;;
        match outcome with
        | inl denial => ret denial
        | inr st' => combineResults VECTOR_STORE_ID TAVILY_API_KEY ds st'
        end)
       (fun e =>
          Imperative.effect
            (Imperative.recover ds e
               (Imperative.vars
                  (Imperative.attempt VECTOR_STORE_ID TAVILY_API_KEY
                     fetchFileSearch fetchTavily ds query initialLocals))))).
  - f_equal. unfold Imperative.attempt.
    rewrite effect_bindB, searchFileDatabase_agrees.
    cbn [Imperative.effect Imperative.vars fst snd].
    rewrite bind_assoc. apply bind_ext. intros st Hst.
    rewrite searchFileDatabase_state in Hst. injection Hst as <-.
    rewrite bind_ret_l, effect_bindB, searchTavily_agrees, bind_assoc.
    apply bind_ext. intros [denial|st'] Ho; rewrite bind_ret_l.
    + reflexivity.
    + rewrite (searchTavily_agrees_vars _ _ fileState_hasTavilyResults Ho).
      apply combineResults_agrees.
  - apply tryCatch_ext. intros e.
    unfold Imperative.recover. now destruct ds.
Qed.

End Agreement.

(** [fetchTavilyFileSearch] returns whatever its services and the stream
    do: every statement is inside its [try], and its [catch] only logs. *)
Lemma fetchTavilyFileSearch_returns
    openai_create tavily_search prompt instruction (dataStream : DataStream)
    query :
  exists t,
    completion (fetchTavilyFileSearch openai_create tavily_search prompt
                  instruction dataStream query) = Normal t.
Proof.
  unfold fetchTavilyFileSearch. apply tryCatch_total. intros e. now eexists.
Qed.





(* ================================================================== *)
(** ** The [catch] around the Tavily step *)
(* ================================================================== *)

Section BlockEvents.

Variable f : Event -> bool.

Lemma filter_nil_bindB {A B} (m : Imperative.Block A)
    (k : A -> Imperative.Block B) :
  (forall st, filter f (trace (Imperative.effect (m st))) = []) ->
  (forall a st, filter f (trace (Imperative.effect (k a st))) = []) ->
  forall st, filter f (trace (Imperative.effect (Imperative.bindB m k st))) = [].
Proof.
  intros Hm Hk st. rewrite effect_bindB.
  apply filter_nil_bind; [apply Hm|intros a _; apply Hk].
Qed.

Lemma filter_nil_tryCatchB {A} (m : Imperative.Block A)
    (h : Exn -> Imperative.Block A) :
  (forall st, filter f (trace (Imperative.effect (m st))) = []) ->
  (forall e st, filter f (trace (Imperative.effect (h e st))) = []) ->
  forall st,
    filter f (trace (Imperative.effect (Imperative.tryCatchB m h st))) = [].
Proof.
  intros Hm Hh st. rewrite effect_tryCatchB.
  apply filter_nil_tryCatch; [apply Hm|intros e; apply Hh].
Qed.

Lemma filter_tryCatchB_returns {A} (m : Imperative.Block A)
    (h : Exn -> Imperative.Block A) (st : Locals) (a : A) :
  completion (Imperative.effect (m st)) = Normal a ->
  filter f (trace (Imperative.effect (Imperative.tryCatchB m h st)))
  = filter f (trace (Imperative.effect (m st))).
Proof.
  intros H. rewrite effect_tryCatchB. now apply filter_tryCatch_normal with a.
Qed.

End BlockEvents.

(** X26: [fetchTavilyFileSearch] never throws, so the [catch] around the
    Tavily step of [execute] runs only when [dataStream.writeData] itself
    throws on the record that ends the step.  When that call returns (or
    no stream was passed), no run reports the step [tavily-search-error]
    or logs a failed Tavily search, whatever the services do; and with a
    stream that accepts every record, a Tavily outage on an accepted query
    is reported as [tavily-search-complete]. *)
Theorem execute_tavily_catch_needs_stream_failure :
  forall VECTOR_STORE_ID TAVILY_API_KEY fetchFileSearch openai_create
         tavily_search prompt instruction (dataStream : DataStream) query,
    (forall vectorStoreId,
        filter isTavilyErrorReport (trace (fetchFileSearch query vectorStoreId))
        = []) ->
    (completion (writeData dataStream "tavily-search-complete") = Normal tt ->
     completion (writeData dataStream "tavily-search-denied") = Normal tt ->
     filter isTavilyErrorReport
       (trace (Imperative.execute VECTOR_STORE_ID TAVILY_API_KEY fetchFileSearch
                 (fetchTavilyFileSearch openai_create tavily_search prompt
                    instruction dataStream)
                 dataStream query)) = []) /\
    (truthy_string TAVILY_API_KEY = true ->
     (forall q o, exists e, tavily_search q o = Throw e) ->
     ~ classifierDenies openai_create prompt query ->
     In (Progress "tavily-search-complete")
        (trace (Imperative.execute VECTOR_STORE_ID TAVILY_API_KEY
                  fetchFileSearch
                  (fetchTavilyFileSearch openai_create tavily_search prompt
                     instruction recordingStream)
                  recordingStream query))).
Proof.
  intros vs tk ff openai_create tavily_search prompt instruction dataStream
    query Hff.
  split.
  - intros Hcomplete Hdenied.
    assert (Hw : forall step,
               String.eqb step "tavily-search-error" = false ->
               forall st,
                 filter isTavilyErrorReport
                   (trace (Imperative.effect
                             (Imperative.progress dataStream step st))) = []).
    { intros step Hstep st. unfold Imperative.progress. cbn.
      now apply writeData_filter_step. }
    unfold Imperative.execute.
    apply filter_nil_tryCatchB.
    2:{ intros e. unfold Imperative.recover.
        apply filter_nil_bindB; [reflexivity|intros _].
        apply filter_nil_bindB; [now apply Hw|reflexivity]. }
    unfold Imperative.attempt.
    apply filter_nil_bindB.
    { unfold Imperative.searchFileDatabase.
      apply filter_nil_bindB; [now apply Hw|intros _].
      destruct vs as [[|c s]|]; try now apply Hw.
      apply filter_nil_tryCatchB.
      - apply filter_nil_bindB; [intros st; apply Hff|intros found].
        apply filter_nil_bindB; [reflexivity|intros _].
        destruct (meaningfulFileAnswer found); [|now apply Hw].
        repeat (apply filter_nil_bindB; [reflexivity|intros _]).
        now apply Hw.
      - intros e. apply filter_nil_bindB; [reflexivity|intros _].
        now apply Hw. }
    intros _. apply filter_nil_bindB.
    2:{ intros [denial|]; [reflexivity|].
        unfold Imperative.combineResults.
        apply filter_nil_bindB; [now apply Hw|intros _].
        apply filter_nil_bindB; [reflexivity|intros st0 st].
        now destruct (negb (hasFileResults st0) && negb (hasTavilyResults st0)). }
    unfold Imperative.searchTavily.
    apply filter_nil_bindB; [now apply Hw|intros _].
    destruct (truthy_string tk).
    2:{ apply filter_nil_bindB; [now apply Hw|reflexivity]. }
    intros st.
    destruct (fetchTavilyFileSearch_returns openai_create tavily_search prompt
                instruction dataStream query) as [t Ht].
    pose proof (fetchTavilyFileSearch_never isTavilyErrorReport
                  (fun _ => eq_refl) (fun _ _ => eq_refl) (fun _ => eq_refl))
      as Hnever.
    assert (Hquiet :
              filter isTavilyErrorReport
                (trace (fetchTavilyFileSearch openai_create tavily_search prompt
                          instruction dataStream query)) = []).
    { apply Hnever;
        intros x Hx; simpl in Hx;
        repeat (destruct Hx as [<-|Hx]; [reflexivity|]); destruct Hx. }
    clear Hnever.
    match goal with
    | |- filter _ (trace (Imperative.effect (Imperative.tryCatchB ?m ?h st))) = [] =>
        assert (Hm : exists a, completion (Imperative.effect (m st)) = Normal a);
        [|destruct Hm as [a Hm];
          rewrite (filter_tryCatchB_returns _ m h st a Hm)]
    end.
    { clear Hquiet Hw Hff. revert Ht.
      generalize (fetchTavilyFileSearch openai_create tavily_search prompt
                    instruction dataStream query).
      intros [[t'|e] tr]; cbn [completion fst]; [intros [= ->]|discriminate].
      destruct st as [answer cites fileFound tavilyFound fileR tavilyR].
      destruct dataStream as [|w]; cbn in Hcomplete, Hdenied;
        run_blocks;
        destruct (meaningfulTavilyAnswer t); run_blocks;
        rewrite ?Hcomplete; run_blocks;
        try (destruct fileFound; run_blocks; eexists; reflexivity);
        destruct (truthy_flag (TavilyAnswer.denied t)); run_blocks;
        rewrite ?Hcomplete, ?Hdenied; run_blocks;
        try (destruct fileFound; run_blocks; eexists; reflexivity). }
    clear Hm. revert st.
    apply filter_nil_bindB; [intros st; exact Hquiet|intros found].
    apply filter_nil_bindB; [reflexivity|intros _].
    destruct (meaningfulTavilyAnswer found).
    + apply filter_nil_bindB; [reflexivity|intros _].
      apply filter_nil_bindB; [reflexivity|intros fileFound].
      apply filter_nil_bindB; [now destruct fileFound|intros _].
      apply filter_nil_bindB; [reflexivity|intros _].
      apply filter_nil_bindB; [now apply Hw|reflexivity].
    + destruct (truthy_flag (TavilyAnswer.denied found)).
      * apply filter_nil_bindB; [now apply Hw|intros _].
        apply filter_nil_bindB; [reflexivity|intros fileFound st].
        now destruct (negb fileFound).
      * apply filter_nil_bindB; [now apply Hw|reflexivity].
  - intros Hkey Hdown Hnot.
    change recordingStream with (streamOf true).
    rewrite execute_agrees.
    assert (Ht : completion (fetchTavilyFileSearch openai_create tavily_search
                               prompt instruction true query)
                 = Normal defaultErrorAnswer).
    { rewrite (fetchTavilyFileSearch_accepted _ _ _ _ _ _ Hnot).
      rewrite performDualDomainSearch_completion.
      destruct (Hdown (policyQueryOf query) (searchOptions MAX_RESULTS_PER_DOMAIN))
        as [e ->]. reflexivity. }
    unfold execute.
    apply in_trace_tryCatch.
    eapply in_trace_bind_r; [apply searchFileDatabase_state|].
    apply in_trace_bind_l. unfold searchTavily.
    eapply in_trace_bind_r; [apply writeData_completion|].
    rewrite Hkey. apply in_trace_tryCatch.
    eapply in_trace_bind_r; [exact Ht|].
    change (meaningfulTavilyAnswer defaultErrorAnswer) with false.
    cbn [defaultErrorAnswer TavilyAnswer.denied truthy_flag].
    apply in_trace_bind_l. now left.
Qed.

Lemma execute_tavily_catch_needs_stream_failure_witness :
  filter isTavilyErrorReport
    (trace (Imperative.execute (Some "vs_1") (Some "tvly-key")
              (fileSearchOf worldTavilyDown)
              (fetchTavilyFileSearch (openai worldTavilyDown)
                 (tavily worldTavilyDown) "TOPICS" "INSTRUCTION"
                 recordingStream)
              recordingStream aidQuestion)) = [].
Proof.
  apply (execute_tavily_catch_needs_stream_failure (Some "vs_1")
           (Some "tvly-key") (fileSearchOf worldTavilyDown)
           (openai worldTavilyDown) (tavily worldTavilyDown)
           "TOPICS" "INSTRUCTION" recordingStream aidQuestion).
  - intros vectorStoreId. reflexivity.
  - reflexivity.
  - reflexivity.
Defined.

(* ================================================================== *)
(** ** How many calls leave the process *)
(* ================================================================== *)

Lemma remoteCalls_length (t : list Event) :
  length (remoteCalls t)
  = length (filter isFileSearch t) + length (filter isOpenAICall t)
    + length (filter isTavilySearch t).
Proof.
  unfold remoteCalls.
  induction t as [|e t IH]; [reflexivity|].
  destruct e; simpl; lia.
Qed.

Lemma filter_remoteCalls (f : Event -> bool) (t : list Event) :
  (forall e, f e = true -> isLogging e = false) ->
  filter f (remoteCalls t) = filter f t.
Proof.
  intros Hf. unfold remoteCalls, isRemoteCall.
  induction t as [|e t IH]; [reflexivity|].
  simpl. destruct (isLogging e) eqn:He; simpl.
  - destruct (f e) eqn:Hfe; [|exact IH].
    apply Hf in Hfe. congruence.
  - now rewrite IH.
Qed.

Lemma fetchTavilyFileSearch_no_file_search
    openai_create tavily_search prompt instruction (dataStream : DataStream)
    query :
  filter isFileSearch
    (trace (fetchTavilyFileSearch openai_create tavily_search prompt
              instruction dataStream query)) = [].
Proof.
  apply fetchTavilyFileSearch_never;
    try reflexivity;
    intros x Hx; simpl in Hx;
    repeat (destruct Hx as [<-|Hx]; [reflexivity|]); destruct Hx.
Qed.

(** X27: apart from the calls that [fetchFileSearch] makes in its single
    invocation (its code is not among the sources), one run of [execute]
    over [fetchTavilyFileSearch] makes at most four calls of its own: at
    most two calls of [openai.chat.completions.create] and at most two
    calls of [tavilyClient.search], no search of the file database, and
    nothing at all without [TAVILY_API_KEY].  A call of [create] is
    counted once, whatever the client, built with [maxRetries: 3], re-sends
    inside it. *)
Theorem execute_call_budget :
  forall VECTOR_STORE_ID TAVILY_API_KEY fetchFileSearch openai_create
         tavily_search prompt instruction ds query,
    exists own : list Event,
      remoteCalls
        (trace (execute VECTOR_STORE_ID TAVILY_API_KEY fetchFileSearch
                  (fetchTavilyFileSearch openai_create tavily_search prompt
                     instruction ds)
                  ds query))
      = (match VECTOR_STORE_ID with
         | Some (String c s) =>
             remoteCalls (trace (fetchFileSearch query (String c s)))
         | _ => []
         end ++ own)%list /\
      length (filter isOpenAICall own) <= 2 /\
      length (filter isTavilySearch own) <= 2 /\
      filter isFileSearch own = [] /\
      length own <= 4 /\
      (truthy_string TAVILY_API_KEY = false -> own = []).
Proof.
  intros vs tk ff openai_create tavily_search prompt instruction ds query.
  set (fetch := fetchTavilyFileSearch openai_create tavily_search prompt
                  instruction ds).
  exists (if truthy_string tk then remoteCalls (trace (fetch query)) else []).
  assert (Hchat : length (filter isOpenAICall (remoteCalls (trace (fetch query))))
                  <= 2).
  { rewrite filter_remoteCalls by (now intros []).
    apply fetchTavilyFileSearch_chat_count. }
  assert (Hsearch :
            length (filter isTavilySearch (remoteCalls (trace (fetch query))))
            <= 2).
  { rewrite filter_remoteCalls by (now intros []).
    apply fetchTavilyFileSearch_search_count. }
  assert (Hfile : filter isFileSearch (remoteCalls (trace (fetch query))) = []).
  { rewrite filter_remoteCalls by (now intros []).
    apply fetchTavilyFileSearch_no_file_search. }
  repeat split.
  - unfold remoteCalls at 1. apply execute_calls, isRemoteCall_not_logging.
  - destruct (truthy_string tk); [exact Hchat|simpl; lia].
  - destruct (truthy_string tk); [exact Hsearch|simpl; lia].
  - destruct (truthy_string tk); [exact Hfile|reflexivity].
  - destruct (truthy_string tk); [|simpl; lia].
    pose proof (remoteCalls_length (remoteCalls (trace (fetch query)))) as E.
    unfold remoteCalls at 1 in E.
    rewrite (filter_remoteCalls isRemoteCall) in E
      by (intros e He; unfold isRemoteCall in He;
          now destruct (isLogging e)).
    fold (remoteCalls (trace (fetch query))) in E.
    rewrite E, Hfile. simpl. lia.
  - now intros ->.
Qed.

Lemma execute_call_budget_witness :
  remoteCalls
    (trace (execute None (Some "") (fileSearchOf worldUnconfigured)
              (fetchTavilyFileSearch (openai worldUnconfigured)
                 (tavily worldUnconfigured) "TOPICS" "INSTRUCTION" true)
              true aidQuestion)) = [].
Proof.
  destruct (execute_call_budget None (Some "") (fileSearchOf worldUnconfigured)
              (openai worldUnconfigured) (tavily worldUnconfigured)
              "TOPICS" "INSTRUCTION" true aidQuestion)
    as (own & E & _ & _ & _ & _ & Hnone).
  rewrite E, (Hnone eq_refl). reflexivity.
Defined.
